(** * rrdf_sync: raw-data relocation for Project Hyperwheel

    A shallow embedding of [config/usr_share_orthanc/rrdf_sync.py] and the
    properties of its matching, relocation and renaming logic.

    Conventions of the embedding.
    - A Python [str] is a [list ascii] (code points below 256); string
      literals are written as Rocq strings and coerced.  A [bytes] object
      is a [list ascii] too, each character standing for the byte of its
      code.
    - A [datetime.datetime] is a record of its seven fields; a
      [datetime.timedelta] is its exact length in microseconds, a [Z].
    - A Python exception is a constructor of [exn]; a function that can raise
      returns a [result].
    - [print] appends an [event] to a log that is threaded through the code.
    - The file system is an explicit state, see [FileSystem]. *)

From Stdlib Require Import List Ascii String ZArith Bool Lia QArith.
Import ListNotations.

Close Scope Q_scope.
Open Scope string_scope.
Open Scope list_scope.
Open Scope Z_scope.

Definition str := list ascii.
Definition bytes := list ascii.
Coercion list_ascii_of_string : string >-> list.

(** ** Exceptions and results *)

Inductive exn :=
| ValueError        (* strptime, float *)
| IndexError        (* list index out of range *)
| OSError           (* os.rename, shutil.move *)
| ShutilError       (* shutil.Error: destination path already exists *)
| DicomError        (* pydicom read or attribute failure *)
| UnicodeDecodeError. (* bytes.decode *)

Inductive result (A : Type) :=
| Ok (a : A)
| Raise (e : exn).
Arguments Ok {A} a.
Arguments Raise {A} e.

Definition bind {A B} (r : result A) (k : A -> result B) : result B :=
  match r with
  | Ok a => k a
  | Raise e => Raise e
  end.

Notation "x <- c ;; k" := (bind c (fun x => k))
  (at level 61, c at next level, right associativity).
Notation "' p <- c ;; k" := (bind c (fun x => let p := x in k))
  (at level 61, p pattern, c at next level, right associativity).

Definition obind {A B} (o : option A) (k : A -> option B) : option B :=
  match o with
  | Some a => k a
  | None => None
  end.

(** ** Python strings *)

Module PyStr.

Definition code (c : ascii) : nat := nat_of_ascii c.

Definition in_range (lo hi : nat) (c : ascii) : bool :=
  (Nat.leb lo (code c)) && (Nat.leb (code c) hi).

(** [\d] of [re] on the code points the model has: the ASCII digits. *)
Definition is_digit (c : ascii) : bool := in_range 48 57 c.

(** The bytes that the [ascii] codec accepts. *)
Definition is_ascii (c : ascii) : bool := Nat.ltb (code c) 128.

(** [b.decode('ascii')] *)
Definition decode_ascii (b : bytes) : result str :=
  if forallb is_ascii b then Ok b else Raise UnicodeDecodeError.

(** [str.isspace] below code point 256, which is also [\s] of [re]. *)
Definition is_space (c : ascii) : bool :=
  in_range 9 13 c || in_range 28 32 c
  || Nat.eqb (code c) 133 || Nat.eqb (code c) 160.

Definition str_eqb (a b : str) : bool :=
  if list_eq_dec ascii_dec a b then true else false.

(** [s.startswith(p)], returning what follows the prefix. *)
Fixpoint strip_prefix (p s : str) : option str :=
  match p, s with
  | [], _ => Some s
  | c :: p', d :: s' => if Ascii.eqb c d then strip_prefix p' s' else None
  | _ :: _, [] => None
  end.

Definition startswith (s p : str) : bool :=
  match strip_prefix p s with Some _ => true | None => false end.

Definition endswith (s p : str) : bool :=
  startswith (rev s) (rev p).

(** [p in s] *)
Fixpoint contains (p s : str) : bool :=
  startswith s p ||
  match s with
  | [] => false
  | _ :: s' => contains p s'
  end.

(** [s.split(c)] for a one-character separator. *)
Fixpoint split_on (c : ascii) (s : str) : list str :=
  match s with
  | [] => [[]]
  | x :: r =>
      if Ascii.eqb x c then [] :: split_on c r
      else match split_on c r with
           | p :: ps => (x :: p) :: ps
           | [] => [[x]]
           end
  end.

(** [s.split()]: the maximal runs of non-whitespace characters. *)
Fixpoint split_ws_aux (cur : str) (s : str) : list str :=
  match s with
  | [] => match cur with [] => [] | _ => [rev cur] end
  | x :: r =>
      if is_space x
      then match cur with
           | [] => split_ws_aux [] r
           | _ => rev cur :: split_ws_aux [] r
           end
      else split_ws_aux (x :: cur) r
  end.

Definition split_ws (s : str) : list str := split_ws_aux [] s.

(** [c.join(l)] *)
Fixpoint join_with (c : str) (l : list str) : str :=
  match l with
  | [] => []
  | [x] => x
  | x :: r => x ++ c ++ join_with c r
  end.

(** [s.lower()] below code point 256. *)
Definition lower_char (c : ascii) : ascii :=
  if in_range 65 90 c
     || (in_range 192 222 c && negb (Nat.eqb (code c) 215))
  then ascii_of_nat (code c + 32)
  else c.

Definition lower (s : str) : str := map lower_char s.

Definition digit_val (c : ascii) : Z := Z.of_nat (code c) - 48.

(** [int(s)] for a token of decimal digits, possibly after blanks. *)
Definition int_of (s : str) : Z :=
  fold_left (fun acc c => if is_digit c then acc * 10 + digit_val c else acc)
            s 0.

(** [s[i:j]] for [0 <= i <= j]. *)
Definition slice (i j : nat) (s : str) : str := firstn (j - i) (skipn i s).

End PyStr.

Import PyStr.

(** ** posixpath *)

Module PosixPath.

Definition sep : ascii := "/"%char.

(** [os.path.join(a, b)] *)
Definition join (a b : str) : str :=
  if startswith b "/" then b
  else match a with
       | [] => b
       | _ => if endswith a "/" then a ++ b else a ++ "/" ++ b
       end.

(** [os.path.basename(p)]: [p[p.rfind('/') + 1:]] *)
Definition basename (p : str) : str := last (split_on sep p) [].

(** The component loop of [os.path.normpath]. *)
Fixpoint normpath_comps (initial_slashes : nat) (comps new_comps : list str)
  : list str :=
  match comps with
  | [] => new_comps
  | comp :: rest =>
      if str_eqb comp [] || str_eqb comp "." then
        normpath_comps initial_slashes rest new_comps
      else if negb (str_eqb comp "..")
              || (Nat.eqb initial_slashes 0
                  && match new_comps with [] => true | _ => false end)
              || match rev new_comps with
                 | l :: _ => str_eqb l ".."
                 | [] => false
                 end
      then normpath_comps initial_slashes rest (new_comps ++ [comp])
      else normpath_comps initial_slashes rest (removelast new_comps)
  end.

(** [os.path.normpath(path)] *)
Definition normpath (path : str) : str :=
  match path with
  | [] => "."
  | _ =>
      let initial_slashes :=
        if startswith path "/" then
          if startswith path "//" && negb (startswith path "///")
          then 2%nat else 1%nat
        else 0%nat in
      let comps := normpath_comps initial_slashes (split_on sep path) [] in
      let p := repeat sep initial_slashes ++ join_with "/" comps in
      match p with
      | [] => "."
      | _ => p
      end
  end.

End PosixPath.

(** ** datetime *)

Module DateTime.

Record datetime := mkdt {
  year : Z; month : Z; day : Z;
  hour : Z; minute : Z; second : Z; microsecond : Z
}.

(** A [timedelta] is its length in microseconds. *)
Definition timedelta := Z.

Definition td_days (d : Z) : timedelta := d * 86400 * 1000000.
Definition td_minutes (m : Z) : timedelta := m * 60 * 1000000.
Definition td_seconds (s : Z) : timedelta := s * 1000000.

Definition is_leap (y : Z) : bool :=
  (y mod 4 =? 0) && (negb (y mod 100 =? 0) || (y mod 400 =? 0)).

Definition days_in_month (y m : Z) : Z :=
  if m =? 2 then (if is_leap y then 29 else 28)
  else if (m =? 4) || (m =? 6) || (m =? 9) || (m =? 11) then 30
  else 31.

(** [_days_before_year] *)
Definition days_before_year (y : Z) : Z :=
  let y := y - 1 in y * 365 + y / 4 - y / 100 + y / 400.

(** [_days_before_month]: days of the year before the first of the month. *)
Definition days_before_month (y m : Z) : Z :=
  nth (Z.to_nat m) [0; 0; 31; 59; 90; 120; 151; 181; 212; 243; 273; 304; 334] 0
  + (if (2 <? m) && is_leap y then 1 else 0).

(** [datetime.toordinal] *)
Definition toordinal (d : datetime) : Z :=
  days_before_year (year d) + days_before_month (year d) (month d) + day d.

(** Microseconds since the start of ordinal day 0. *)
Definition to_us (d : datetime) : Z :=
  ((toordinal d * 86400 + hour d * 3600 + minute d * 60 + second d) * 1000000)
  + microsecond d.

(** [a - b] on datetimes: the timedelta of days, seconds and microseconds. *)
Definition sub (a b : datetime) : timedelta := to_us a - to_us b.

(** Componentwise comparison, as [datetime.__lt__] does. *)
Definition fields (d : datetime) : list Z :=
  [year d; month d; day d; hour d; minute d; second d; microsecond d].

Fixpoint lex_lt (a b : list Z) : bool :=
  match a, b with
  | x :: a', y :: b' => (x <? y) || ((x =? y) && lex_lt a' b')
  | [], _ :: _ => true
  | _, [] => false
  end.

Definition lt (a b : datetime) : bool := lex_lt (fields a) (fields b).

(** The checks of the [datetime] constructor. *)
Definition valid (d : datetime) : bool :=
  (1 <=? year d) && (year d <=? 9999)
  && (1 <=? month d) && (month d <=? 12)
  && (1 <=? day d) && (day d <=? days_in_month (year d) (month d))
  && (0 <=? hour d) && (hour d <=? 23)
  && (0 <=? minute d) && (minute d <=? 59)
  && (0 <=? second d) && (second d <=? 59)
  && (0 <=? microsecond d) && (microsecond d <=? 999999).

(** *** strptime

    [_strptime] turns the format into a regular expression, one group per
    directive, matches it at the start of the text with [re.match], and
    rejects text that is left over.  Each group is an ordered alternation;
    [alternatives] lists what a group can consume, in the order the
    backtracking matcher tries it. *)

Inductive directive :=
| dY | dm | dd | dH | dM | dS | df
| dWs                 (* white space in the format: [\s+] *)
| dLit (c : ascii).

Definition directive_eqb (a b : directive) : bool :=
  match a, b with
  | dY, dY | dm, dm | dd, dd | dH, dH | dM, dM | dS, dS | df, df
  | dWs, dWs => true
  | dLit c, dLit c' => Ascii.eqb c c'
  | _, _ => false
  end.

Definition chr (c x : ascii) : bool := Ascii.eqb x c.

(** One alternative made of the given character classes. *)
Fixpoint classes (cls : list (ascii -> bool)) (s : str) : option (str * str) :=
  match cls with
  | [] => Some ([], s)
  | p :: cls' =>
      match s with
      | c :: r =>
          if p c then
            match classes cls' r with
            | Some (tok, rest) => Some (c :: tok, rest)
            | None => None
            end
          else None
      | [] => None
      end
  end.

Definition alts (l : list (list (ascii -> bool))) (s : str) : list (str * str) :=
  flat_map (fun cls => match classes cls s with
                       | Some x => [x]
                       | None => []
                       end) l.

Definition alternatives (d : directive) : str -> list (str * str) :=
  match d with
  | dY => alts [[is_digit; is_digit; is_digit; is_digit]]
  | dm => alts [[chr "1"%char; in_range 48 50]; [chr "0"%char; in_range 49 57];
                [in_range 49 57]]
  | dd => alts [[chr "3"%char; in_range 48 49]; [in_range 49 50; is_digit];
                [chr "0"%char; in_range 49 57]; [in_range 49 57];
                [chr " "%char; in_range 49 57]]
  | dH => alts [[chr "2"%char; in_range 48 51]; [in_range 48 49; is_digit];
                [is_digit]]
  | dM => alts [[in_range 48 53; is_digit]; [is_digit]]
  | dS => alts [[chr "6"%char; in_range 48 49]; [in_range 48 53; is_digit];
                [is_digit]]
  | df => alts (map (fun n => repeat (in_range 48 57) n) [6; 5; 4; 3; 2; 1]%nat)
  | dWs => fun s =>
      alts (map (fun n => repeat is_space n) (rev (seq 1 (List.length s)))) s
  | dLit c => alts [[chr c]]
  end.

Fixpoint first_some {A B} (f : A -> option B) (l : list A) : option B :=
  match l with
  | [] => None
  | x :: r => match f x with
              | Some y => Some y
              | None => first_some f r
              end
  end.

(** [format_regex.match(data_string)]: the groups and the text left over. *)
Fixpoint re_match (fmt : list directive) (s : str)
  : option (list (directive * str) * str) :=
  match fmt with
  | [] => Some ([], s)
  | d :: fmt' =>
      first_some (fun '(tok, rest) =>
                    match re_match fmt' rest with
                    | Some (toks, r) => Some ((d, tok) :: toks, r)
                    | None => None
                    end)
                 (alternatives d s)
  end.

Definition group (d : directive) (default : Z) (toks : list (directive * str)) : Z :=
  match find (fun '(d', _) => directive_eqb d d') toks with
  | Some (_, tok) => int_of tok
  | None => default
  end.

Definition fraction (toks : list (directive * str)) : Z :=
  match find (fun '(d', _) => directive_eqb df d') toks with
  | Some (_, tok) => int_of (tok ++ repeat "0"%char (6 - List.length tok))
  | None => 0
  end.

(** [datetime.datetime.strptime(s, fmt)]; [None] is a [ValueError]. *)
Definition strptime (fmt : list directive) (s : str) : option datetime :=
  match re_match fmt s with
  | Some (toks, []) =>
      let d := mkdt (group dY 1900 toks) (group dm 1 toks) (group dd 1 toks)
                    (group dH 0 toks) (group dM 0 toks) (group dS 0 toks)
                    (fraction toks) in
      if valid d then Some d else None
  | _ => None
  end.

(** ["%Y%m%d%H%M%S"] *)
Definition fmt_compact : list directive := [dY; dm; dd; dH; dM; dS].

(** ["%Y%m%d%H%M%S.%f"] *)
Definition fmt_compact_frac : list directive :=
  [dY; dm; dd; dH; dM; dS; dLit "."%char; df].

(** ["%Y-%m-%d %H:%M:%S"] *)
Definition fmt_listing : list directive :=
  [dY; dLit "-"%char; dm; dLit "-"%char; dd; dWs;
   dH; dLit ":"%char; dM; dLit ":"%char; dS].

End DateTime.

Import DateTime.

(** ** Dictionaries

    A [dict] is an association list in insertion order; assigning to a key
    that is present keeps the key's place. *)

Fixpoint dict_set {V} (k : str) (v : V) (d : list (str * V)) : list (str * V) :=
  match d with
  | [] => [(k, v)]
  | (k', v') :: r =>
      if str_eqb k' k then (k, v) :: r else (k', v') :: dict_set k v r
  end.

Fixpoint dict_get {V} (k : str) (d : list (str * V)) : option V :=
  match d with
  | [] => None
  | (k', v) :: r => if str_eqb k' k then Some v else dict_get k r
  end.

(** ** Regular expressions of the script *)

(** [\d{n}] at the start of [s]: the digits and the rest. *)
Fixpoint take_digits (n : nat) (s : str) : option (str * str) :=
  match n with
  | O => Some ([], s)
  | S k =>
      match s with
      | c :: r =>
          if is_digit c then
            match take_digits k r with
            | Some (d, r') => Some (c :: d, r')
            | None => None
            end
          else None
      | [] => None
      end
  end.

(** [<pre>(\d{8})_(\d{6})<post>] at the start of [s]: the two groups. *)
Definition match_stamp (pre post : str) (s : str) : option (str * str) :=
  obind (strip_prefix pre s) (fun r1 =>
  obind (take_digits 8 r1) (fun '(d, r2) =>
  obind (strip_prefix "_" r2) (fun r3 =>
  obind (take_digits 6 r3) (fun '(t, r4) =>
  obind (strip_prefix post r4) (fun _ => Some (d, t)))))).

(** [re.search]: the match at the leftmost position that has one. *)
Fixpoint re_search {A} (m : str -> option A) (s : str) : option A :=
  match m s with
  | Some x => Some x
  | None =>
      match s with
      | [] => None
      | _ :: r => re_search m r
      end
  end.

(** [r'_(\d{8})_(\d{6})\.h5'] *)
Definition rrdf_file_re : str -> option (str * str) := match_stamp "_" ".h5".

(** [r'rrdf_(\d{8})_(\d{6})'] *)
Definition rrdf_folder_re : str -> option (str * str) := match_stamp "rrdf_" [].

(** ** Console output *)

Inductive event :=
| CaliprStart (folder : str)
| WarnCaliprCount (found : nat)
| ErrContentTime (e : exn)
| RenamingProtonDensity (name : str)
| RenamingT2map (name : str)
| ErrCaliprRename (e : exn)
| WarnDicomMetadata (path : str) (e : exn)
| StartRelocation
| MatchFound (original dest : str)
| Renaming (original new_name : str)
| ErrMoveRename (e : exn)
| WarnNoCloseMatch (name : str)
| ErrParseFolder (name : str)
| Searching (target : str)
| FoundSession (path : str)
| ErrNoSession (target : str).

(** ** get_latest_exam_folder *)

(** [l[i]] *)
Definition index {A} (l : list A) (i : nat) : result A :=
  match nth_error l i with
  | Some x => Ok x
  | None => Raise IndexError
  end.

(** [l[-1]] *)
Definition index_last {A} (l : list A) : result A :=
  match rev l with
  | x :: _ => Ok x
  | [] => Raise IndexError
  end.

(** The name and the modification time read from one line (lines 195-198). *)
Definition listing_entry (line : str) : result (str * datetime) :=
  let finfo := split_ws line in
  folder_name <- index_last finfo ;;
  date_str <- index finfo 5 ;;
  time_str <- index finfo 6 ;;
  match strptime fmt_listing
          (date_str ++ " " ++ hd [] (split_on "."%char time_str)) with
  | Some folder_datetime => Ok (folder_name, folder_datetime)
  | None => Raise ValueError
  end.

(** The body of the loop over the lines of the listing. *)
Definition exam_folder_step (exam_folders : list (str * datetime)) (line : str)
  : result (list (str * datetime)) :=
  if contains "rrdf_" line then
    entry <- listing_entry line ;;
    Ok (dict_set (fst entry) (snd entry) exam_folders)
  else Ok exam_folders.

Fixpoint exam_folders_of (lines : list str) (acc : list (str * datetime))
  : result (list (str * datetime)) :=
  match lines with
  | [] => Ok acc
  | line :: rest => acc' <- exam_folder_step acc line ;; exam_folders_of rest acc'
  end.

(** [max(d, key=d.get)] on a non-empty dict: the first key with the greatest
    value. *)
Definition max_by_value (d : list (str * datetime)) : option str :=
  match d with
  | [] => None
  | (k, v) :: r =>
      Some (fst (fold_left (fun '(bk, bv) '(k', v') =>
                              if DateTime.lt bv v' then (k', v') else (bk, bv))
                           r (k, v)))
  end.

(** [stdout] is what [stdout.read()] returns, the bytes that
    [ls -l --full-time RRDF] wrote; line 191 decodes them and splits the
    text into lines. *)
Definition get_latest_exam_folder (stdout : bytes) : result (option str) :=
  text <- decode_ascii stdout ;;
  let folders_output := split_on "010"%char text in
  exam_folders <- exam_folders_of folders_output [] ;;
  Ok (max_by_value exam_folders).

(** ** find_dicom_session_path *)

Definition target_session_name (rrdf_folder_name : str) : option str :=
  match re_search rrdf_folder_re rrdf_folder_name with
  | None => None
  | Some (date_part, time_part) =>
      let session_date : str :=
        slice 0 4 date_part ++ "-" ++ slice 4 6 date_part ++ "-" ++ slice 6 8 date_part in
      let session_time : str :=
        slice 0 2 time_part ++ "_" ++ slice 2 4 time_part ++ "_" ++ slice 4 6 time_part in
      Some (session_date ++ "_" ++ session_time)
  end.

(** [walk] is what [os.walk(base_export_path)] yields: each directory with the
    names of its sub-directories. *)
Definition find_dicom_session_path (walk : list (str * list str))
    (rrdf_folder_name : str) : option str * list event :=
  match target_session_name rrdf_folder_name with
  | None => (None, [ErrParseFolder rrdf_folder_name])
  | Some target =>
      match find (fun '(_, dirs) => existsb (str_eqb target) dirs) walk with
      | Some (root, _) =>
          let found_path := PosixPath.join root target in
          (Some found_path, [Searching target; FoundSession found_path])
      | None => (None, [Searching target; ErrNoSession target])
      end
  end.

(** ** The file system

    A file is what the script can observe of it: [payload] stands for its
    bytes; [AcquisitionDateTime] is the text of that DICOM attribute, [None]
    when [pydicom.dcmread] or the attribute access raises; [ContentTime] is
    the number [float(dcm.ContentTime)] (a float is modelled by the rational
    it denotes), [None] when reading, the attribute access or [float] raises;
    [DicomError] stands for whichever exception that is, and a content time
    that [float] reads as an infinity or as not-a-number has no counterpart
    here.

    [files] lists the regular files by path, in the order a directory scan
    yields them; [dirs] lists the directories, written without a trailing
    slash.  Directories are not named like data files, so every path that the
    script globs for [*.h5] or [*.dcm] is a regular file; and the folder
    paths that the script globs in hold none of the characters that [glob]
    reads as wildcards. *)

Record file := mkfile {
  payload : nat;
  AcquisitionDateTime : option str;
  ContentTime : option Q
}.

Record fs := mkfs {
  dirs : list str;
  files : list (str * file)
}.

Inductive fs_op :=
| OpRename (src dst : str)
| OpMove (src dst : str).

Module FileSystem.

(** The reversed text without its leading slashes. *)
Fixpoint rstrip_rev (r : str) : str :=
  match r with
  | c :: r' => if Ascii.eqb c PosixPath.sep then rstrip_rev r' else r
  | [] => []
  end.

(** [p.rstrip('/')] *)
Definition rstrip (p : str) : str := rev (rstrip_rev (rev p)).

Definition rstrip_sep (p : str) : str :=
  match rstrip_rev (rev p) with
  | [] => p
  | r => rev r
  end.

(** [posixpath.split]: head and tail around the last slash; trailing slashes
    of the head are dropped unless it is made of slashes only. *)
Definition split (p : str) : str * str :=
  let tail := PosixPath.basename p in
  let head := firstn (List.length p - List.length tail) p in
  (rstrip_sep head, tail).

(** The name of [p] when [p] is an entry of directory [head]. *)
Definition entry_name (head p : str) : option str :=
  match strip_prefix (PosixPath.join head []) p with
  | Some name =>
      match name with
      | [] => None
      | _ => if contains "/" name then None else Some name
      end
  | None => None
  end.

Definition is_hidden (name : str) : bool := startswith name ".".

(** [glob.glob(pattern)] for a pattern [<dir>/*<ext>] with a literal
    [<dir>]: the regular files of [<dir>] whose name ends in [<ext>] and does
    not start with a dot. *)
Definition glob_files (st : fs) (pattern : str) : list str :=
  let (head, tail) := split pattern in
  match strip_prefix "*" tail with
  | None => []
  | Some ext =>
      flat_map (fun '(p, _) =>
                  match entry_name head p with
                  | Some name =>
                      if endswith name ext && negb (is_hidden name)
                      then [PosixPath.join head name] else []
                  | None => []
                  end)
               (files st)
  end.

(** [glob.glob(pattern)] for a pattern [<dir>/*/]: the sub-directories of
    [<dir>] whose name does not start with a dot, each with a trailing slash. *)
Definition glob_subdirs (st : fs) (pattern : str) : list str :=
  let (head, _) := split (fst (split pattern)) in
  flat_map (fun d =>
              match entry_name head d with
              | Some name =>
                  if is_hidden name then []
                  else [PosixPath.join (PosixPath.join head name) []]
              | None => []
              end)
           (dirs st).

Definition isdir (st : fs) (p : str) : bool :=
  existsb (str_eqb (rstrip_sep p)) (dirs st).

Definition isfile (st : fs) (p : str) : bool :=
  match dict_get p (files st) with Some _ => true | None => false end.

(** [os.path.exists] *)
Definition exists_ (st : fs) (p : str) : bool := isfile st p || isdir st p.

(** The entry [src] takes the path [dst], replacing a file that was there. *)
Definition rebind (src dst : str) (l : list (str * file)) : list (str * file) :=
  map (fun '(p, f) => if str_eqb p src then (dst, f) else (p, f))
      (filter (fun '(p, _) => negb (str_eqb p dst)) l).

(** The rename system call on a regular file.  It fails when [src] is not a
    regular file or is written with a trailing slash, when [dst] names a
    directory or ends in a slash, or when the directory of [dst] is missing;
    renaming a file to itself does nothing. *)
Definition rename_file (src dst : str) (st : fs) : result fs :=
  match dict_get src (files st) with
  | None => Raise OSError
  | Some _ =>
      if endswith src "/" then Raise OSError
      else if isdir st dst || endswith dst "/" then Raise OSError
      else if negb (isdir st (fst (split dst))) then Raise OSError
      else if str_eqb src dst then Ok st
      else Ok (mkfs (dirs st) (rebind src dst (files st)))
  end.

End FileSystem.

Import FileSystem.

(** ** The program state: file system and console *)

Record world := mkworld {
  wfs : fs;
  wlog : list event
}.

Definition print (e : event) (w : world) : world :=
  mkworld (wfs w) (wlog w ++ [e]).

Definition with_fs (st : fs) (w : world) : world :=
  mkworld st (wlog w).

(** [float] comparison [a < b] *)
Definition Qlt_bool (a b : Q) : bool := negb (Qle_bool b a).

(** [list.sort(key=lambda x: x['time'])]: a stable sort by the time. *)
Fixpoint insert_by_time (x : str * Q) (l : list (str * Q)) : list (str * Q) :=
  match l with
  | [] => [x]
  | y :: r =>
      if Qlt_bool (snd y) (snd x) then y :: insert_by_time x r else x :: y :: r
  end.

Fixpoint sort_by_time (l : list (str * Q)) : list (str * Q) :=
  match l with
  | [] => []
  | x :: r => insert_by_time x (sort_by_time r)
  end.

(** The loop that reads [ContentTime] from each file (lines 67-70). *)
Fixpoint read_content_times (st : fs) (paths : list str) : result (list (str * Q)) :=
  match paths with
  | [] => Ok []
  | f_path :: rest =>
      match dict_get f_path (files st) with
      | Some f =>
          match ContentTime f with
          | Some t => file_times <- read_content_times st rest ;;
                      Ok ((f_path, t) :: file_times)
          | None => Raise DicomError
          end
      | None => Raise DicomError
      end
  end.

(** The nearest acquisition: the loop of lines 130-135. *)
Definition nearest_step (rrdf_time : datetime) (acc : option str * timedelta)
    (entry : str * datetime) : option str * timedelta :=
  let time_diff := Z.abs (DateTime.sub (snd entry) rrdf_time) in
  if time_diff <? snd acc then (Some (fst entry), time_diff) else acc.

Definition nearest (dicom_acq_times : list (str * datetime)) (rrdf_time : datetime)
  : option str * timedelta :=
  fold_left (nearest_step rrdf_time) dicom_acq_times (None, td_days 1).

(** The test of line 138; a path is truthy when it is not empty. *)
Definition close_match (dicom_acq_times : list (str * datetime))
    (rrdf_time : datetime) : option str :=
  match nearest dicom_acq_times rrdf_time with
  | (Some (c :: f), min_time_diff) =>
      if min_time_diff <? td_minutes 1 then Some (c :: f) else None
  | _ => None
  end.

(** ** parse_rrdf_timestamps *)

Definition parse_rrdf_step (rrdf_times : list (str * datetime)) (file_path : str)
  : result (list (str * datetime)) :=
  let filename := PosixPath.basename file_path in
  match re_search rrdf_file_re filename with
  | Some (date_part, time_part) =>
      match strptime fmt_compact (date_part ++ time_part) with
      | Some rrdf_datetime => Ok (dict_set file_path rrdf_datetime rrdf_times)
      | None => Raise ValueError
      end
  | None => Ok rrdf_times
  end.

Fixpoint parse_rrdf_loop (paths : list str) (rrdf_times : list (str * datetime))
  : result (list (str * datetime)) :=
  match paths with
  | [] => Ok rrdf_times
  | file_path :: rest =>
      rrdf_times' <- parse_rrdf_step rrdf_times file_path ;;
      parse_rrdf_loop rest rrdf_times'
  end.

Definition parse_rrdf_timestamps (st : fs) (rrdf_folder_path : str)
  : result (list (str * datetime)) :=
  parse_rrdf_loop (glob_files st (PosixPath.join rrdf_folder_path "*.h5")) [].

(** ** get_dicom_acquisition_times *)

Definition acquisition_step (st : fs) (acc : list (str * datetime) * list event)
    (folder_path : str) : list (str * datetime) * list event :=
  let (acq_times, log) := acc in
  match glob_files st (PosixPath.join folder_path "*.dcm") with
  | [] => acc
  | first :: _ =>
      match obind (dict_get first (files st)) AcquisitionDateTime with
      | None => (acq_times, log ++ [WarnDicomMetadata first DicomError])
      | Some text =>
          match strptime fmt_compact_frac text with
          | Some acq_datetime => (dict_set folder_path acq_datetime acq_times, log)
          | None => (acq_times, log ++ [WarnDicomMetadata first ValueError])
          end
      end
  end.

Definition get_dicom_acquisition_times (session_path : str) (w : world)
  : list (str * datetime) * world :=
  let (acq_times, log) :=
    fold_left (acquisition_step (wfs w))
              (glob_subdirs (wfs w) (PosixPath.join session_path "*/"))
              ([], wlog w) in
  (acq_times, mkworld (wfs w) log).

(** ** The effectful part, for any way the operating system may refuse

    [io_fault op] tells whether the operating system refuses [op] for a reason
    outside the model (permissions, a device error); a refused operation
    raises and leaves the file system as it was. *)

Section Program.

Variable io_fault : fs_op -> bool.

(** [os.rename(src, dst)] *)
Definition os_rename (src dst : str) (st : fs) : result fs :=
  if io_fault (OpRename src dst) then Raise OSError
  else rename_file src dst st.

(** [shutil.move(src, dst)]: into [dst] when it is a directory, unless an
    entry of that name is there already.  The move is the [os.rename] that
    [shutil.move] tries first; a move that the operating system refuses
    fails as a whole.  The second attempt of [shutil.move], a copy followed
    by an unlink when source and destination are on different file systems,
    is left out: its success moves the file as the rename does, its failure
    half-way can leave the source and a copy. *)
Definition shutil_move (src dst : str) (st : fs) : result fs :=
  if io_fault (OpMove src dst) then Raise OSError
  else if isdir st dst then
    let real_dst := PosixPath.join dst (PosixPath.basename (rstrip src)) in
    if exists_ st real_dst then Raise ShutilError
    else rename_file src real_dst st
  else rename_file src dst st.

(** *** rename_calipr_dicom_files *)

Definition rename_calipr_dicom_files (acquisition_folder_path : str) (w : world)
  : world :=
  let folder_name := PosixPath.basename (PosixPath.normpath acquisition_folder_path) in
  let w := print (CaliprStart folder_name) w in
  let dcm_files := glob_files (wfs w) (PosixPath.join acquisition_folder_path "*.dcm") in
  if negb (Nat.eqb (List.length dcm_files) 2) then
    print (WarnCaliprCount (List.length dcm_files)) w
  else
    match read_content_times (wfs w) dcm_files with
    | Raise e => print (ErrContentTime e) w
    | Ok file_times =>
        let file_times := sort_by_time file_times in
        let protonDensity_path := fst (nth 0 file_times ([], 0%Q)) in
        let T2map_path := fst (nth 1 file_times ([], 0%Q)) in
        let base_name := folder_name in
        let new_protonDensity_path :=
          PosixPath.join acquisition_folder_path (base_name ++ "_protonDensity.dcm") in
        let new_T2map_path :=
          PosixPath.join acquisition_folder_path (base_name ++ "_T2map.dcm") in
        let w := print (RenamingProtonDensity (PosixPath.basename new_protonDensity_path)) w in
        match os_rename protonDensity_path new_protonDensity_path (wfs w) with
        | Raise e => print (ErrCaliprRename e) w
        | Ok st =>
            let w := print (RenamingT2map (PosixPath.basename new_T2map_path))
                           (with_fs st w) in
            match os_rename T2map_path new_T2map_path (wfs w) with
            | Raise e => print (ErrCaliprRename e) w
            | Ok st => with_fs st w
            end
        end
    end.

(** *** relocate_rrdf_files_by_time *)

(** The [try] block of lines 141-156 for one file and its matched folder. *)
Definition move_and_rename (rrdf_path best_match_folder : str) (w : world) : world :=
  let original_rrdf_filename := PosixPath.basename rrdf_path in
  let dest_foldername := PosixPath.basename (PosixPath.normpath best_match_folder) in
  let w := print (MatchFound original_rrdf_filename dest_foldername) w in
  match shutil_move rrdf_path best_match_folder (wfs w) with
  | Raise e => print (ErrMoveRename e) w
  | Ok st =>
      let moved_h5_path := PosixPath.join best_match_folder original_rrdf_filename in
      let new_h5_name : str := dest_foldername ++ ".h5" in
      let final_h5_path := PosixPath.join best_match_folder new_h5_name in
      let w := print (Renaming original_rrdf_filename new_h5_name) (with_fs st w) in
      match os_rename moved_h5_path final_h5_path (wfs w) with
      | Raise e => print (ErrMoveRename e) w
      | Ok st =>
          let w := with_fs st w in
          if contains "calipr" (lower dest_foldername)
          then rename_calipr_dicom_files best_match_folder w
          else w
      end
  end.

(** The body of the loop of line 129. *)
Definition relocate_step (dicom_acq_times : list (str * datetime)) (w : world)
    (entry : str * datetime) : world :=
  let (rrdf_path, rrdf_time) := entry in
  match close_match dicom_acq_times rrdf_time with
  | Some best_match_folder => move_and_rename rrdf_path best_match_folder w
  | None => print (WarnNoCloseMatch (PosixPath.basename rrdf_path)) w
  end.

(** The world when the function ends, and the exception it lets through. *)
Definition relocate_rrdf_files_by_time (temp_download_path dicom_session_path : str)
    (w : world) : world * option exn :=
  let w := print StartRelocation w in
  let (dicom_acq_times, w) := get_dicom_acquisition_times dicom_session_path w in
  match parse_rrdf_timestamps (wfs w) temp_download_path with
  | Raise e => (w, Some e)
  | Ok rrdf_file_times =>
      (fold_left (relocate_step dicom_acq_times) rrdf_file_times w, None)
  end.

End Program.

(** ** Vocabulary of the properties *)

(** [digits n d]: [d] is made of exactly [n] decimal digits. *)
Definition digits (n : nat) (d : str) : Prop :=
  List.length d = n /\ forallb is_digit d = true.

(** [s] starts with [pre], eight digits [d], an underscore, six digits [t]
    and [post]. *)
Definition stamp_at (pre post d t s : str) : Prop :=
  exists rest, s = pre ++ d ++ "_" ++ t ++ post ++ rest /\ digits 8 d /\ digits 6 t.

(** [name] holds the pattern somewhere. *)
Definition has_stamp (pre post name : str) : Prop :=
  exists before after d t, name = before ++ after /\ stamp_at pre post d t after.

(** The leftmost place of [name] that holds the pattern holds it with the
    groups [d] and [t]. *)
Definition leftmost_stamp (pre post name d t : str) : Prop :=
  exists before after,
    name = before ++ after /\ stamp_at pre post d t after /\
    forall b1 b2, before = b1 ++ b2 -> b2 <> [] ->
                  forall d' t', ~ stamp_at pre post d' t' (b2 ++ after).

(** The file name ends with the pattern, as the anchored expression
    [_\d{8}_\d{6}\.h5$] asks. *)
Definition ends_with_stamp (name : str) : Prop :=
  exists pre d t, name = pre ++ "_" ++ d ++ "_" ++ t ++ ".h5" /\
                  digits 8 d /\ digits 6 t.

(** The time that the file name of [path] carries: the groups of the
    leftmost match of the file-name pattern, parsed as a date and time.
    The outer [None] is a name without the pattern, the inner one a
    [ValueError] of [strptime]. *)
Definition stamp_time (path : str) : option (option datetime) :=
  match re_search rrdf_file_re (PosixPath.basename path) with
  | Some (d, t) => Some (strptime fmt_compact (d ++ t))
  | None => None
  end.

(** A line of the listing takes part when it holds the folder-name prefix. *)
Definition qualifying (line : str) : bool := contains "rrdf_" line.

(** The names and times of the qualifying lines, in the order of the lines. *)
Definition listing_entries (lines : list str) : list (str * datetime) :=
  flat_map (fun line =>
              if qualifying line then
                match listing_entry line with
                | Ok e => [e]
                | Raise _ => []
                end
              else []) lines.

(** One step of [max]: a later entry wins only with a greater time. *)
Definition max_step (best entry : str * datetime) : str * datetime :=
  if DateTime.lt (snd best) (snd entry) then entry else best.

(** The distance in time between a raw file and an acquisition folder. *)
Definition time_diff (rrdf_time : datetime) (entry : str * datetime) : Z :=
  Z.abs (DateTime.sub (snd entry) rrdf_time).

(** The new names of the CALIPR step in a folder. *)
Definition protonDensity_path (folder : str) : str :=
  PosixPath.join folder
    (PosixPath.basename (PosixPath.normpath folder) ++ "_protonDensity.dcm").

Definition T2map_path (folder : str) : str :=
  PosixPath.join folder
    (PosixPath.basename (PosixPath.normpath folder) ++ "_T2map.dcm").

(** Where a raw file ends in its folder. *)
Definition h5_path (folder : str) : str :=
  PosixPath.join folder (PosixPath.basename (PosixPath.normpath folder) ++ ".h5").

(** ** Sample data *)

Definition no_fault (_ : fs_op) : bool := false.

Definition raw_file (n : nat) : file := mkfile n None None.

Definition dicom_file (n : nat) (acquired : string) (content_time : Q) : file :=
  mkfile n (Some (acquired : str)) (Some content_time).

Definition session_dir : str := "/export/2024-06-01_09_00_00".
Definition download_dir : str := "/tmp/rrdf_download/rrdf_20240601_090000".

Definition sample_dirs (folder : string) : list str :=
  ["/tmp/rrdf_download" : str; download_dir; "/export" : str; session_dir;
   (session_dir ++ "/" ++ folder) : str].

(** The end-to-end scenario: one raw file, a CALIPR folder two seconds away
    with its two DICOM files. *)
Definition fs_scenario : fs :=
  mkfs (sample_dirs "calipr_series")
       [((download_dir ++ "/scan_20240601_090030.h5") : str, raw_file 1);
        ((session_dir ++ "/calipr_series/im2.dcm") : str,
         dicom_file 2 "20240601090032.000000" (900338 # 10));
        ((session_dir ++ "/calipr_series/im1.dcm") : str,
         dicom_file 3 "20240601090032.000000" (900312 # 10))].

(** The folder already holds an entry named like the raw file. *)
Definition fs_name_taken : fs :=
  mkfs (sample_dirs "t1_series")
       [((download_dir ++ "/scan_20240601_090030.h5") : str, raw_file 1);
        ((session_dir ++ "/t1_series/im1.dcm") : str,
         dicom_file 2 "20240601090032.000000" (900312 # 10));
        ((session_dir ++ "/t1_series/scan_20240601_090030.h5") : str, raw_file 3)].

(** Two raw files within a minute of one folder; the second raw file is
    named like the folder. *)
Definition fs_twins : fs :=
  mkfs (sample_dirs "scan_20240601_090031")
       [((download_dir ++ "/pre_20240601_090030.h5") : str, raw_file 1);
        ((download_dir ++ "/scan_20240601_090031.h5") : str, raw_file 2);
        ((session_dir ++ "/scan_20240601_090031/im1.dcm") : str,
         dicom_file 3 "20240601090032.000000" (900312 # 10))].

(** A raw file whose digits are no date (month 13), next to a valid one. *)
Definition fs_bad_date : fs :=
  mkfs (sample_dirs "t1_series")
       [((download_dir ++ "/scan_20241301_090030.h5") : str, raw_file 1);
        ((download_dir ++ "/scan_20240601_090030.h5") : str, raw_file 2);
        ((session_dir ++ "/t1_series/im1.dcm") : str,
         dicom_file 3 "20240601090032.000000" (900312 # 10))].

(** A raw file with the pattern in the middle of its name, and one without. *)
Definition fs_unanchored : fs :=
  mkfs (sample_dirs "t1_series")
       [((download_dir ++ "/scan_20240115_143022.h5.bak.h5") : str, raw_file 1);
        ((download_dir ++ "/notes.h5") : str, raw_file 2)].

Definition calipr_dir : str := session_dir ++ "/calipr_series/".

(** The later of two CALIPR files already bears the proton-density name. *)
Definition fs_calipr_taken : fs :=
  mkfs (sample_dirs "calipr_series")
       [((session_dir ++ "/calipr_series/im1.dcm") : str,
         dicom_file 1 "20240601090032.000000" (143015 # 1));
        ((session_dir ++ "/calipr_series/calipr_series_protonDensity.dcm") : str,
         dicom_file 2 "20240601090032.000000" (1430225 # 10))].

(** A CALIPR folder with one file whose content time cannot be read. *)
Definition fs_calipr_unreadable : fs :=
  mkfs (sample_dirs "calipr_series")
       [((session_dir ++ "/calipr_series/im1.dcm") : str,
         dicom_file 1 "20240601090032.000000" (143015 # 1));
        ((session_dir ++ "/calipr_series/im2.dcm") : str,
         mkfile 2 (Some ("20240601090032.000000" : str)) None)].

(** A CALIPR folder with three files. *)
Definition fs_calipr_three : fs :=
  mkfs (sample_dirs "calipr_series")
       [((session_dir ++ "/calipr_series/im1.dcm") : str,
         dicom_file 1 "20240601090032.000000" (143015 # 1));
        ((session_dir ++ "/calipr_series/im2.dcm") : str,
         dicom_file 2 "20240601090032.000000" (1430225 # 10));
        ((session_dir ++ "/calipr_series/im3.dcm") : str,
         dicom_file 3 "20240601090032.000000" (143030 # 1))].

Definition nl : str := ["010"%char].

(** A listing of two exam folders. *)
Definition listing_two : str :=
  "total 8" ++ nl ++
  "drwxr-xr-x 2 rrdf rrdf 4096 2024-01-15 14:30:22.000000000 +0000 rrdf_20240115_143022" ++ nl ++
  "drwxr-xr-x 2 rrdf rrdf 4096 2024-01-16 09:00:00.000000000 +0000 rrdf_20240116_090000" ++ nl.

(** A qualifying line that is cut short. *)
Definition listing_short : str :=
  "total 4" ++ nl ++ "drwxr-xr-x 2 rrdf rrdf_20240115_143022" ++ nl.

(** A listing where two entries end in the same word. *)
Definition listing_same_name : str :=
  "total 12" ++ nl ++
  "drwxr-xr-x 2 rrdf rrdf 4096 2024-01-03 10:00:00.000000000 +0000 rrdf_1 copy" ++ nl ++
  "drwxr-xr-x 2 rrdf rrdf 4096 2024-01-02 10:00:00.000000000 +0000 rrdf_2" ++ nl ++
  "drwxr-xr-x 2 rrdf rrdf 4096 2024-01-01 10:00:00.000000000 +0000 rrdf_3 copy" ++ nl.

(** A listing with a byte above 127 in a line that does not qualify. *)
Definition listing_latin1 : bytes :=
  "total 8" ++ nl ++
  "drwxr-xr-x 2 rrdf rrdf 4096 2024-01-14 08:00:00.000000000 +0000 caf" ++ ["233"%char] ++ nl ++
  "drwxr-xr-x 2 rrdf rrdf 4096 2024-01-15 14:30:22.000000000 +0000 rrdf_20240115_143022" ++ nl.

(** Two raw files one and two seconds before the one acquisition of the
    session. *)
Definition fs_pair : fs :=
  mkfs (sample_dirs "t1_series")
       [((download_dir ++ "/a_20240601_090030.h5") : str, raw_file 1);
        ((download_dir ++ "/b_20240601_090031.h5") : str, raw_file 2);
        ((session_dir ++ "/t1_series/im1.dcm") : str,
         dicom_file 3 "20240601090032.000000" (900312 # 10))].

Definition t_090030 : datetime := mkdt 2024 6 1 9 0 30 0.
Definition t_090031 : datetime := mkdt 2024 6 1 9 0 31 0.
Definition t_090032 : datetime := mkdt 2024 6 1 9 0 32 0.
Definition scenario_raw : str := download_dir ++ "/scan_20240601_090030.h5".
Definition scenario_im1 : str := session_dir ++ "/calipr_series/im1.dcm".
Definition scenario_im2 : str := session_dir ++ "/calipr_series/im2.dcm".

(** ** Vocabulary of the further properties *)

(** The acquisition time that [get_dicom_acquisition_times] reads for a
    folder: that of the first file its [*.dcm] glob lists. *)
Definition folder_time (st : fs) (folder_path : str) : option datetime :=
  match glob_files st (PosixPath.join folder_path "*.dcm") with
  | [] => None
  | first :: _ =>
      obind (obind (dict_get first (files st)) AcquisitionDateTime)
            (strptime fmt_compact_frac)
  end.

(** [st'] has the directories of [st], holds no file that [st] did not hold
    under some path, and holds no more files than [st]. *)
Definition nothing_new (st st' : fs) : Prop :=
  dirs st' = dirs st /\
  (forall k f, In (k, f) (files st') -> exists k', In (k', f) (files st)) /\
  (List.length (files st') <= List.length (files st))%nat.

(** The time that the listing gives for [name]: that of the last qualifying
    line that ends in [name]. *)
Definition listing_time (lines : list str) (name : str) : option datetime :=
  dict_get name (rev (listing_entries lines)).

(** The index entry that a raw file contributes: none when its name has no
    stamp. *)
Definition index_entry (path : str) : list (str * datetime) :=
  match stamp_time path with
  | Some (Some time) => [(path, time)]
  | _ => []
  end.

(** The date and time that the digits of a stamp spell, field by field. *)
Definition stamp_datetime (d t : str) : datetime :=
  mkdt (int_of (slice 0 4 d)) (int_of (slice 4 6 d)) (int_of (slice 6 8 d))
       (int_of (slice 0 2 t)) (int_of (slice 2 4 t)) (int_of (slice 4 6 t)) 0.

(** ** Further sample data *)

(** The operating system refuses to give a file the T2-map name. *)
Definition refuse_T2map (op : fs_op) : bool :=
  match op with
  | OpRename _ dst => endswith dst "_T2map.dcm"
  | OpMove _ _ => false
  end.

(** A CALIPR folder whose two files have the same content time. *)
Definition fs_calipr_tie : fs :=
  mkfs (sample_dirs "calipr_series")
       [((session_dir ++ "/calipr_series/im2.dcm") : str,
         dicom_file 1 "20240601090032.000000" (143015 # 1));
        ((session_dir ++ "/calipr_series/im1.dcm") : str,
         dicom_file 2 "20240601090032.000000" (143015 # 1))].

(** A CALIPR folder whose two files already have their names. *)
Definition fs_calipr_named : fs :=
  mkfs (sample_dirs "calipr_series")
       [((session_dir ++ "/calipr_series/calipr_series_T2map.dcm") : str,
         dicom_file 1 "20240601090032.000000" (1430225 # 10));
        ((session_dir ++ "/calipr_series/calipr_series_protonDensity.dcm") : str,
         dicom_file 2 "20240601090032.000000" (143015 # 1))].

(** A raw file five minutes before the one acquisition of the session. *)
Definition fs_far : fs :=
  mkfs (sample_dirs "t1_series")
       [((download_dir ++ "/scan_20240601_090030.h5") : str, raw_file 1);
        ((session_dir ++ "/t1_series/im1.dcm") : str,
         dicom_file 2 "20240601090530.000000" (900312 # 10))].

(** A listing of two exam folders with the same modification time. *)
Definition listing_tie : str :=
  "total 8" ++ nl ++
  "drwxr-xr-x 2 rrdf rrdf 4096 2024-01-16 09:00:00.000000000 +0000 rrdf_20240116_090000" ++ nl ++
  "drwxr-xr-x 2 rrdf rrdf 4096 2024-01-16 09:00:00.500000000 +0000 rrdf_20240116_085900" ++ nl.

(** [listing_two] without its first line. *)
Definition listing_two_bare : str :=
  "drwxr-xr-x 2 rrdf rrdf 4096 2024-01-15 14:30:22.000000000 +0000 rrdf_20240115_143022" ++ nl ++
  "drwxr-xr-x 2 rrdf rrdf 4096 2024-01-16 09:00:00.000000000 +0000 rrdf_20240116_090000".

(** An export tree with the session directory under two subjects. *)
Definition walk_two : list (str * list str) :=
  [("/export" : str, ["subject_a" : str; "subject_b" : str]);
   ("/export/subject_a" : str, ["2024-01-15_14_30_22" : str]);
   ("/export/subject_a/2024-01-15_14_30_22" : str, []);
   ("/export/subject_b" : str, ["2024-01-14_10_00_00" : str; "2024-01-15_14_30_22" : str]);
   ("/export/subject_b/2024-01-14_10_00_00" : str, []);
   ("/export/subject_b/2024-01-15_14_30_22" : str, [])].

(** * Properties *)

Lemma str_eqb_eq (a b : str) : str_eqb a b = true <-> a = b.
Proof. unfold str_eqb. destruct (list_eq_dec ascii_dec a b); split; congruence. Qed.

Lemma str_eqb_refl (a : str) : str_eqb a a = true.
Proof. apply str_eqb_eq. reflexivity. Qed.

Lemma str_eqb_neq (a b : str) : str_eqb a b = false <-> a <> b.
Proof. unfold str_eqb. destruct (list_eq_dec ascii_dec a b); split; congruence. Qed.

Lemma strip_prefix_spec (p s r : str) : strip_prefix p s = Some r <-> s = p ++ r.
Proof.
  revert s. induction p as [|c p IH]; intros s; simpl.
  - split; congruence.
  - destruct s as [|d s].
    + split; discriminate.
    + destruct (Ascii.eqb c d) eqn:E.
      * apply Ascii.eqb_eq in E. subst d. rewrite IH. split; congruence.
      * apply Ascii.eqb_neq in E. split; [discriminate | congruence].
Qed.

Lemma strip_prefix_app (p r : str) : strip_prefix p (p ++ r) = Some r.
Proof. apply strip_prefix_spec. reflexivity. Qed.

Lemma take_digits_sound (n : nat) (s d r : str) :
  take_digits n s = Some (d, r) -> s = d ++ r /\ digits n d.
Proof.
  unfold digits. revert s d r. induction n as [|n IH]; intros s d r; simpl.
  - intros H. injection H as <- <-. auto.
  - destruct s as [|c s]; [discriminate|].
    destruct (is_digit c) eqn:Ec; [|discriminate].
    destruct (take_digits n s) as [[d' r']|] eqn:Et; [|discriminate].
    intros H. injection H as <- <-.
    destruct (IH _ _ _ Et) as (Hs & Hl & Hd).
    simpl. rewrite Ec, Hd, Hl, Hs. auto.
Qed.

Lemma take_digits_complete (n : nat) (d r : str) :
  digits n d -> take_digits n (d ++ r) = Some (d, r).
Proof.
  unfold digits. revert d. induction n as [|n IH]; intros d [Hl Hd].
  - destruct d; [reflexivity | discriminate].
  - destruct d as [|c d]; [discriminate|]. simpl in *.
    apply andb_true_iff in Hd. destruct Hd as [Hc Hd].
    rewrite Hc, IH; auto.
Qed.

Lemma take_digits_spec (n : nat) (s d r : str) :
  take_digits n s = Some (d, r) <-> s = d ++ r /\ digits n d.
Proof.
  split.
  - apply take_digits_sound.
  - intros [-> H]. apply take_digits_complete, H.
Qed.

Lemma match_stamp_spec (pre post s d t : str) :
  match_stamp pre post s = Some (d, t) <-> stamp_at pre post d t s.
Proof.
  unfold match_stamp, stamp_at, obind. split.
  - destruct (strip_prefix pre s) as [r1|] eqn:E1; [|discriminate].
    destruct (take_digits 8 r1) as [[d' r2]|] eqn:E2; [|discriminate].
    destruct (strip_prefix "_" r2) as [r3|] eqn:E3; [|discriminate].
    destruct (take_digits 6 r3) as [[t' r4]|] eqn:E4; [|discriminate].
    destruct (strip_prefix post r4) as [r5|] eqn:E5; [|discriminate].
    intros H. injection H as <- <-.
    apply strip_prefix_spec in E1, E3, E5.
    apply take_digits_sound in E2, E4.
    destruct E2 as [E2 D2], E4 as [E4 D4].
    exists r5. subst. auto.
  - intros (rest & -> & Hd & Ht).
    rewrite strip_prefix_app.
    rewrite take_digits_complete by exact Hd.
    rewrite strip_prefix_app.
    rewrite take_digits_complete by exact Ht.
    rewrite strip_prefix_app. reflexivity.
Qed.

Lemma re_search_some {A} (m : str -> option A) (s : str) (x : A) :
  re_search m s = Some x <->
  exists before after,
    s = before ++ after /\ m after = Some x /\
    forall b1 b2, before = b1 ++ b2 -> b2 <> [] -> m (b2 ++ after) = None.
Proof.
  revert x. induction s as [|c s IH]; intros x; simpl.
  - destruct (m []) as [y|] eqn:E.
    + split.
      * intros H. injection H as <-. exists [], []. repeat split; auto.
        intros b1 b2 H. destruct b1, b2; try discriminate. congruence.
      * intros (bf & af & H & Hm & _). symmetry in H. apply app_eq_nil in H.
        destruct H; subst. congruence.
    + split; [discriminate|].
      intros (bf & af & H & Hm & _). symmetry in H. apply app_eq_nil in H.
      destruct H; subst. congruence.
  - destruct (m (c :: s)) as [y|] eqn:E.
    + split.
      * intros H. injection H as <-. exists [], (c :: s). repeat split; auto.
        intros b1 b2 H. destruct b1, b2; try discriminate. congruence.
      * intros (bf & af & H & Hm & Hleft).
        destruct bf as [|c' bf].
        -- simpl in H. subst af. congruence.
        -- assert (m ((c' :: bf) ++ af) = None) as Hn
             by (apply (Hleft [] (c' :: bf)); [reflexivity | discriminate]).
           rewrite <- H, E in Hn. discriminate.
    + rewrite IH. split.
      * intros (bf & af & -> & Hm & Hleft). exists (c :: bf), af. repeat split; auto.
        intros b1 b2 H Hne. destruct b1 as [|c1 b1]; simpl in H.
        -- subst b2. exact E.
        -- injection H as -> H. eapply Hleft; eauto.
      * intros (bf & af & H & Hm & Hleft).
        destruct bf as [|c' bf].
        -- simpl in H. subst af. congruence.
        -- injection H as <- H. exists bf, af. repeat split; auto.
           intros b1 b2 Hb Hne. apply (Hleft (c :: b1) b2); auto. simpl. congruence.
Qed.

Lemma re_search_none {A} (m : str -> option A) (s : str) :
  re_search m s = None <-> forall before after, s = before ++ after -> m after = None.
Proof.
  induction s as [|c s IH]; simpl.
  - destruct (m []) as [y|] eqn:E.
    + split; [discriminate|]. intros H. rewrite (H [] [] eq_refl) in E. discriminate.
    + split; auto. intros _ bf af H. symmetry in H. apply app_eq_nil in H.
      destruct H; subst. auto.
  - destruct (m (c :: s)) as [y|] eqn:E.
    + split; [discriminate|]. intros H. rewrite (H [] (c :: s) eq_refl) in E. discriminate.
    + rewrite IH. split.
      * intros H bf af Hs. destruct bf as [|c' bf]; simpl in Hs.
        -- subst af. exact E.
        -- injection Hs as <- Hs. eauto.
      * intros H bf af Hs. apply (H (c :: bf) af). simpl. congruence.
Qed.

Lemma search_stamp_some (pre post name d t : str) :
  re_search (match_stamp pre post) name = Some (d, t) <->
  leftmost_stamp pre post name d t.
Proof.
  rewrite re_search_some. unfold leftmost_stamp. split.
  - intros (bf & af & -> & Hm & Hleft). exists bf, af. repeat split; auto.
    + apply match_stamp_spec, Hm.
    + intros b1 b2 Hb Hne d' t' Hs. apply match_stamp_spec in Hs.
      rewrite (Hleft b1 b2 Hb Hne) in Hs. discriminate.
  - intros (bf & af & -> & Hm & Hleft). exists bf, af. repeat split; auto.
    + apply match_stamp_spec, Hm.
    + intros b1 b2 Hb Hne.
      destruct (match_stamp pre post (b2 ++ af)) as [[d' t']|] eqn:E; auto.
      apply match_stamp_spec in E. exfalso. eapply Hleft; eauto.
Qed.

Lemma search_stamp_none (pre post name : str) :
  re_search (match_stamp pre post) name = None <-> ~ has_stamp pre post name.
Proof.
  rewrite re_search_none. unfold has_stamp. split.
  - intros H (bf & af & d & t & Hn & Hs). apply match_stamp_spec in Hs.
    rewrite (H bf af Hn) in Hs. discriminate.
  - intros H bf af Hn.
    destruct (match_stamp pre post af) as [[d t]|] eqn:E; auto.
    apply match_stamp_spec in E. exfalso. apply H. exists bf, af, d, t. auto.
Qed.

Lemma has_stamp_leftmost (pre post name : str) :
  has_stamp pre post name -> exists d t, leftmost_stamp pre post name d t.
Proof.
  intros H.
  destruct (re_search (match_stamp pre post) name) as [[d t]|] eqn:E.
  - exists d, t. apply search_stamp_some, E.
  - apply search_stamp_none in E. contradiction.
Qed.

Lemma digits_8 (d : str) :
  digits 8 d -> exists a b c e f g h i, d = [a; b; c; e; f; g; h; i].
Proof.
  intros [Hl _].
  do 8 (destruct d as [|? d]; [discriminate|]).
  destruct d; [|discriminate]. repeat eexists.
Qed.

Lemma digits_6 (d : str) :
  digits 6 d -> exists a b c e f g, d = [a; b; c; e; f; g].
Proof.
  intros [Hl _].
  do 6 (destruct d as [|? d]; [discriminate|]).
  destruct d; [|discriminate]. repeat eexists.
Qed.

(** C8. The session resolver derives [YYYY-MM-DD_HH_MM_SS] from the leftmost
    [rrdf_<8 digits>_<6 digits>] of the exam-folder name, whatever the export
    tree, and searches the tree for a directory of that name; a name without
    the pattern gives the name-format error and the failure marker [None],
    never an exception.  [rrdf_20240115_143022] gives [2024-01-15_14_30_22]. *)
Theorem find_dicom_session_path_resolves (walk : list (str * list str)) (name : str) :
  (has_stamp "rrdf_" [] name ->
   exists y1 y2 y3 y4 m1 m2 d1 d2 h1 h2 n1 n2 s1 s2,
     let target : str :=
       [y1; y2; y3; y4; "-"%char; m1; m2; "-"%char; d1; d2; "_"%char;
        h1; h2; "_"%char; n1; n2; "_"%char; s1; s2] in
     leftmost_stamp "rrdf_" [] name
       [y1; y2; y3; y4; m1; m2; d1; d2] [h1; h2; n1; n2; s1; s2] /\
     target_session_name name = Some target /\
     ((exists root dirs,
         In (root, dirs) walk /\ In target dirs /\
         find_dicom_session_path walk name =
           (Some (PosixPath.join root target),
            [Searching target; FoundSession (PosixPath.join root target)]))
      \/
      ((forall root dirs, In (root, dirs) walk -> ~ In target dirs) /\
       find_dicom_session_path walk name =
         (None, [Searching target; ErrNoSession target]))))
  /\
  (~ has_stamp "rrdf_" [] name ->
   target_session_name name = None /\
   find_dicom_session_path walk name = (None, [ErrParseFolder name]))
  /\
  target_session_name "rrdf_20240115_143022" = Some ("2024-01-15_14_30_22" : str).
Proof.
  split; [|split].
  - intros H. apply has_stamp_leftmost in H. destruct H as (d & t & H).
    pose proof H as Hl.
    destruct H as (bf & af & Hn & (rest & Haf & Hd & Ht) & _).
    destruct (digits_8 _ Hd) as (y1 & y2 & y3 & y4 & m1 & m2 & d1 & d2 & ->).
    destruct (digits_6 _ Ht) as (h1 & h2 & n1 & n2 & s1 & s2 & ->).
    exists y1, y2, y3, y4, m1, m2, d1, d2, h1, h2, n1, n2, s1, s2.
    apply search_stamp_some in Hl.
    assert (target_session_name name =
            Some [y1; y2; y3; y4; "-"%char; m1; m2; "-"%char; d1; d2; "_"%char;
                  h1; h2; "_"%char; n1; n2; "_"%char; s1; s2]) as Ht'.
    { unfold target_session_name, rrdf_folder_re. rewrite Hl. reflexivity. }
    cbv zeta. split; [apply search_stamp_some, Hl|]. split; [exact Ht'|].
    unfold find_dicom_session_path. rewrite Ht'.
    match goal with |- context [find ?f walk] => destruct (find f walk) as [[root dirs]|] eqn:E end.
    + left. apply find_some in E. destruct E as [Hin Hex].
      apply existsb_exists in Hex. destruct Hex as (x & Hx & Heq).
      apply str_eqb_eq in Heq. subst x.
      exists root, dirs. auto.
    + right. split; [|reflexivity].
      intros root dirs Hin Hd'.
      pose proof (find_none _ _ E _ Hin) as Hn'. simpl in Hn'.
      assert (existsb (str_eqb [y1; y2; y3; y4; "-"%char; m1; m2; "-"%char; d1; d2; "_"%char;
                  h1; h2; "_"%char; n1; n2; "_"%char; s1; s2]) dirs = true) as Hc.
      { apply existsb_exists. eexists. split; [exact Hd'|]. apply str_eqb_refl. }
      congruence.
  - intros H. apply search_stamp_none in H.
    unfold find_dicom_session_path, target_session_name, rrdf_folder_re.
    rewrite H. auto.
  - reflexivity.
Qed.

(** *** Order on datetimes *)

Lemma lex_lt_trans (a b c : list Z) :
  List.length a = List.length b -> List.length b = List.length c ->
  lex_lt a b = true -> lex_lt b c = true -> lex_lt a c = true.
Proof.
  revert b c. induction a as [|x a IH]; intros [|y b] [|z c]; simpl;
    try discriminate; auto.
  intros Hab Hbc H1 H2.
  apply orb_true_iff in H1. apply orb_true_iff in H2. apply orb_true_iff.
  destruct H1 as [H1|H1], H2 as [H2|H2].
  - left. apply Z.ltb_lt in H1, H2. apply Z.ltb_lt. lia.
  - apply andb_true_iff in H2. destruct H2 as [H2 _].
    left. apply Z.ltb_lt in H1. apply Z.eqb_eq in H2. apply Z.ltb_lt. lia.
  - apply andb_true_iff in H1. destruct H1 as [H1 _].
    left. apply Z.ltb_lt in H2. apply Z.eqb_eq in H1. apply Z.ltb_lt. lia.
  - apply andb_true_iff in H1, H2. destruct H1 as [H1 H1'], H2 as [H2 H2'].
    right. apply Z.eqb_eq in H1, H2. apply andb_true_iff. split.
    + apply Z.eqb_eq. lia.
    + apply (IH b c); auto.
Qed.

Lemma lt_trans (a b c : datetime) :
  DateTime.lt a b = true -> DateTime.lt b c = true -> DateTime.lt a c = true.
Proof. unfold DateTime.lt. apply lex_lt_trans; reflexivity. Qed.

(** *** Dictionaries *)

Lemma dict_set_fresh {V} (k : str) (v : V) (d : list (str * V)) :
  ~ In k (map fst d) -> dict_set k v d = d ++ [(k, v)].
Proof.
  induction d as [|[k' v'] d IH]; simpl; intros H; [reflexivity|].
  destruct (str_eqb k' k) eqn:E.
  - apply str_eqb_eq in E. tauto.
  - rewrite IH; tauto.
Qed.

Lemma fold_dict_set_fresh {V} (es acc : list (str * V)) :
  NoDup (map fst (acc ++ es)) ->
  fold_left (fun d e => dict_set (fst e) (snd e) d) es acc = acc ++ es.
Proof.
  revert acc. induction es as [|[k v] es IH]; intros acc H; simpl.
  - rewrite app_nil_r. reflexivity.
  - rewrite dict_set_fresh.
    + rewrite IH; rewrite <- app_assoc; [reflexivity | exact H].
    + rewrite map_app in H. simpl in H. apply NoDup_remove_2 in H.
      intros Hin. apply H. apply in_or_app. left. exact Hin.
Qed.

(** *** The listing *)

Lemma exam_folders_of_entries (lines : list str) (acc : list (str * datetime)) :
  (forall line, In line lines -> qualifying line = true ->
                exists e, listing_entry line = Ok e) ->
  exam_folders_of lines acc =
  Ok (fold_left (fun d e => dict_set (fst e) (snd e) d) (listing_entries lines) acc).
Proof.
  revert acc. induction lines as [|line lines IH]; intros acc H; simpl; [reflexivity|].
  unfold exam_folder_step. fold (qualifying line).
  destruct (qualifying line) eqn:Eq; simpl.
  - destruct (H line (or_introl eq_refl) Eq) as [e He]. rewrite He. simpl.
    apply IH. intros l Hl. apply H. right. exact Hl.
  - apply IH. intros l Hl. apply H. right. exact Hl.
Qed.

Lemma lex_lt_irrefl (a : list Z) : lex_lt a a = false.
Proof.
  induction a as [|x a IH]; simpl; [reflexivity|].
  rewrite Z.ltb_irrefl, IH, andb_false_r. reflexivity.
Qed.

Lemma lex_lt_le_trans (a b c : list Z) :
  List.length a = List.length b -> List.length b = List.length c ->
  lex_lt a b = true -> lex_lt c b = false -> lex_lt a c = true.
Proof.
  revert b c. induction a as [|x a IH]; intros [|y b] [|z c]; simpl;
    try discriminate; auto.
  intros Hab Hbc H1 H2.
  apply orb_true_iff in H1. apply orb_false_iff in H2. destruct H2 as [H2 H3].
  apply Z.ltb_ge in H2. apply orb_true_iff.
  destruct H1 as [H1|H1].
  - left. apply Z.ltb_lt in H1. apply Z.ltb_lt. lia.
  - apply andb_true_iff in H1. destruct H1 as [H1 H1']. apply Z.eqb_eq in H1. subst y.
    destruct (Z.eq_dec z x) as [->|Hne].
    + right. rewrite Z.eqb_refl in *. simpl in *. apply (IH b c); auto.
    + left. apply Z.ltb_lt. lia.
Qed.

Lemma lt_irrefl (a : datetime) : DateTime.lt a a = false.
Proof. apply lex_lt_irrefl. Qed.

Lemma lt_le_trans (a b c : datetime) :
  DateTime.lt a b = true -> DateTime.lt c b = false -> DateTime.lt a c = true.
Proof. unfold DateTime.lt. apply lex_lt_le_trans; reflexivity. Qed.

Lemma max_fold_spec (r : list (str * datetime)) (b : str * datetime) :
  let best := fold_left max_step r b in
  (best = b \/ In best r) /\
  DateTime.lt (snd best) (snd b) = false /\
  forall e, In e r -> DateTime.lt (snd best) (snd e) = false.
Proof.
  revert b. induction r as [|e1 r IH]; intros b; simpl.
  - repeat split; auto using lt_irrefl. intros ? [].
  - destruct (IH (max_step b e1)) as (Hin & Hb & Hall).
    unfold max_step in *.
    destruct (DateTime.lt (snd b) (snd e1)) eqn:E.
    + split; [destruct Hin; auto|]. split.
      * destruct (DateTime.lt (snd (fold_left _ r e1)) (snd b)) eqn:E'; auto.
        rewrite (lt_trans _ _ _ E' E) in Hb. discriminate.
      * intros e [<-|He]; auto.
    + split; [destruct Hin; auto|]. split; auto.
      intros e [<-|He]; auto.
      destruct (DateTime.lt (snd (fold_left _ r b)) (snd e1)) eqn:E'; auto.
      rewrite (lt_le_trans _ _ _ E' E) in Hb. discriminate.
Qed.

Lemma max_by_value_fold (k : str) (v : datetime) (r : list (str * datetime)) :
  max_by_value ((k, v) :: r) = Some (fst (fold_left max_step r (k, v))).
Proof.
  unfold max_by_value. f_equal. f_equal.
  revert k v. induction r as [|[k1 v1] r IH]; intros k v; simpl; [reflexivity|].
  unfold max_step at 2. simpl.
  destruct (DateTime.lt v v1); apply IH.
Qed.

Lemma max_by_value_spec (d : list (str * datetime)) :
  d <> [] ->
  exists k v, max_by_value d = Some k /\ In (k, v) d /\
              forall e, In e d -> DateTime.lt v (snd e) = false.
Proof.
  destruct d as [|[k v] r]; [congruence|]. intros _.
  rewrite max_by_value_fold.
  destruct (max_fold_spec r (k, v)) as (Hin & Hb & Hall).
  destruct (fold_left max_step r (k, v)) as [bk bv] eqn:E. simpl in *.
  exists bk, bv. split; [reflexivity|]. split.
  - destruct Hin as [Hin|Hin]; [left; congruence | right; exact Hin].
  - intros e [<-|He]; auto.
Qed.

Lemma get_latest_exam_folder_ascii (stdout : bytes) :
  forallb is_ascii stdout = true ->
  get_latest_exam_folder stdout =
    (exam_folders <- exam_folders_of (split_on "010"%char stdout) [] ;;
     Ok (max_by_value exam_folders)).
Proof.
  intros H. unfold get_latest_exam_folder, decode_ascii. rewrite H. reflexivity.
Qed.

Lemma get_latest_exam_folder_not_ascii (stdout : bytes) :
  forallb is_ascii stdout = false ->
  get_latest_exam_folder stdout = Raise UnicodeDecodeError.
Proof.
  intros H. unfold get_latest_exam_folder, decode_ascii. rewrite H. reflexivity.
Qed.

(** C7, as the code has it.  When the bytes of the listing are all ASCII,
    every qualifying line has its seven fields and a date and time that
    parse, and no two qualifying lines end in the same name, the parser
    returns the name of a qualifying line whose parsed time is not below
    that of any qualifying line; without a qualifying line it returns the
    absence marker [None]. *)
Theorem get_latest_exam_folder_max (stdout : bytes) :
  let lines := split_on "010"%char stdout in
  forallb is_ascii stdout = true ->
  (forall line, In line lines -> qualifying line = true ->
                exists e, listing_entry line = Ok e) ->
  NoDup (map fst (listing_entries lines)) ->
  ((forall line, In line lines -> qualifying line = false) ->
   get_latest_exam_folder stdout = Ok None)
  /\
  ((exists line, In line lines /\ qualifying line = true) ->
   exists line name time,
     In line lines /\ qualifying line = true /\
     listing_entry line = Ok (name, time) /\
     get_latest_exam_folder stdout = Ok (Some name) /\
     forall line' name' time',
       In line' lines -> qualifying line' = true ->
       listing_entry line' = Ok (name', time') ->
       DateTime.lt time time' = false).
Proof.
  intros lines Hascii Hwf Hnd. rewrite (get_latest_exam_folder_ascii _ Hascii).
  fold lines.
  rewrite (exam_folders_of_entries lines [] Hwf). simpl.
  rewrite fold_dict_set_fresh by exact Hnd. simpl.
  assert (forall e, In e (listing_entries lines) <->
                    exists line, In line lines /\ qualifying line = true /\
                                 listing_entry line = Ok e) as Hent.
  { intros e. unfold listing_entries. rewrite in_flat_map. split.
    - intros (line & Hl & He). exists line.
      destruct (qualifying line); [|destruct He].
      destruct (listing_entry line) as [e'|]; [|destruct He].
      destruct He as [<-|[]]. auto.
    - intros (line & Hl & Hq & He). exists line. rewrite Hq, He. simpl. auto. }
  split.
  - intros Hnone.
    destruct (listing_entries lines) as [|e es] eqn:E; [reflexivity|].
    destruct (proj1 (Hent e) (or_introl eq_refl)) as (line & Hl & Hq & _).
    rewrite (Hnone line Hl) in Hq. discriminate.
  - intros (line0 & Hl0 & Hq0).
    destruct (Hwf line0 Hl0 Hq0) as [e0 He0].
    assert (listing_entries lines <> []) as Hne.
    { intros E. assert (In e0 (listing_entries lines)) as Hin
        by (apply Hent; eauto). rewrite E in Hin. destruct Hin. }
    destruct (max_by_value_spec _ Hne) as (k & v & Hmax & Hin & Hall).
    apply Hent in Hin. destruct Hin as (line & Hl & Hq & He).
    exists line, k, v. repeat split; auto.
    + rewrite Hmax. reflexivity.
    + intros line' name' time' Hl' Hq' He'.
      apply (Hall (name', time')). apply Hent. eauto.
Qed.

(** *** The raw-file index *)

Lemma dict_set_in {V} (k k' : str) (v v' : V) (d : list (str * V)) :
  In (k', v') (dict_set k v d) -> (k', v') = (k, v) \/ In (k', v') d.
Proof.
  induction d as [|[k1 v1] d IH]; simpl.
  - intros [H|[]]. left. congruence.
  - destruct (str_eqb k1 k); simpl; intros [H|H]; auto.
    destruct (IH H); auto.
Qed.

Lemma dict_set_keys {V} (k k' : str) (v : V) (d : list (str * V)) :
  In k' (map fst (dict_set k v d)) <-> k' = k \/ In k' (map fst d).
Proof.
  induction d as [|[k1 v1] d IH]; simpl.
  - intuition congruence.
  - destruct (str_eqb k1 k) eqn:E; simpl.
    + apply str_eqb_eq in E. subst k1. intuition congruence.
    + rewrite IH. intuition congruence.
Qed.

Lemma dict_set_nodup {V} (k : str) (v : V) (d : list (str * V)) :
  NoDup (map fst d) -> NoDup (map fst (dict_set k v d)).
Proof.
  induction d as [|[k1 v1] d IH]; simpl; intros H.
  - constructor; [intros [] | constructor].
  - destruct (str_eqb k1 k) eqn:E; simpl.
    + apply str_eqb_eq in E. subst k1. exact H.
    + inversion H as [|? ? Hn Hd]; subst. constructor; [|auto].
      rewrite dict_set_keys. apply str_eqb_neq in E. intuition congruence.
Qed.

Lemma dict_set_has {V} (k : str) (v : V) (d : list (str * V)) :
  In (k, v) (dict_set k v d).
Proof.
  induction d as [|[k1 v1] d IH]; simpl; auto.
  destruct (str_eqb k1 k); simpl; auto.
Qed.

Lemma parse_rrdf_step_stamp (acc : list (str * datetime)) (path : str) :
  parse_rrdf_step acc path =
  match stamp_time path with
  | Some (Some time) => Ok (dict_set path time acc)
  | Some None => Raise ValueError
  | None => Ok acc
  end.
Proof.
  unfold parse_rrdf_step, stamp_time.
  destruct (re_search rrdf_file_re (PosixPath.basename path)) as [[d t]|]; reflexivity.
Qed.

Lemma parse_rrdf_loop_ok (paths : list str) (acc : list (str * datetime)) :
  (forall path, In path paths -> stamp_time path <> Some None) ->
  (forall p time, In (p, time) acc -> stamp_time p = Some (Some time)) ->
  NoDup (map fst acc) ->
  exists idx,
    parse_rrdf_loop paths acc = Ok idx /\
    NoDup (map fst idx) /\
    forall p time,
      In (p, time) idx <->
      stamp_time p = Some (Some time) /\ (In p paths \/ In p (map fst acc)).
Proof.
  revert acc. induction paths as [|path paths IH]; intros acc Hok Hacc Hnd; simpl.
  - exists acc. split; [reflexivity|]. split; [exact Hnd|].
    intros p time. split.
    + intros H. split; [auto|]. right. apply in_map_iff. exists (p, time). auto.
    + intros [Hs [[]|Hk]]. apply in_map_iff in Hk.
      destruct Hk as ([p' time'] & Hp & Hin). simpl in Hp. subst p'.
      pose proof (Hacc _ _ Hin) as Hs'. congruence.
  - rewrite parse_rrdf_step_stamp.
    destruct (stamp_time path) as [[time0|]|] eqn:Es.
    + simpl.
      destruct (IH (dict_set path time0 acc)) as (idx & Hidx & Hnd' & Hiff).
      * intros q Hq. apply Hok. right. exact Hq.
      * intros p time Hin. apply dict_set_in in Hin.
        destruct Hin as [Hin|Hin]; [congruence | auto].
      * apply dict_set_nodup, Hnd.
      * exists idx. split; [exact Hidx|]. split; [exact Hnd'|].
        intros p time. rewrite Hiff, dict_set_keys. simpl. intuition (subst; auto).
    + exfalso. exact (Hok path (or_introl eq_refl) Es).
    + simpl.
      destruct (IH acc) as (idx & Hidx & Hnd' & Hiff).
      * intros q Hq. apply Hok. right. exact Hq.
      * exact Hacc.
      * exact Hnd.
      * exists idx. split; [exact Hidx|]. split; [exact Hnd'|].
        intros p time. rewrite Hiff. split.
        -- intuition.
        -- intros [Hs [[<-|Hp]|Hk]]; auto. congruence.
Qed.

Lemma parse_rrdf_loop_raises (paths : list str) (acc : list (str * datetime)) :
  (exists path, In path paths /\ stamp_time path = Some None) ->
  parse_rrdf_loop paths acc = Raise ValueError.
Proof.
  revert acc. induction paths as [|path paths IH]; intros acc (bad & Hin & Hbad).
  - destruct Hin.
  - simpl. rewrite parse_rrdf_step_stamp.
    destruct Hin as [<-|Hin].
    + rewrite Hbad. reflexivity.
    + destruct (stamp_time path) as [[time0|]|]; simpl; auto; apply IH; eauto.
Qed.

Lemma stamp_time_some (path : str) (time : datetime) :
  stamp_time path = Some (Some time) <->
  exists d t, leftmost_stamp "_" ".h5" (PosixPath.basename path) d t /\
              strptime fmt_compact (d ++ t) = Some time.
Proof.
  unfold stamp_time. split.
  - destruct (re_search rrdf_file_re (PosixPath.basename path)) as [[d t]|] eqn:E;
      [|discriminate].
    intros H. injection H as H. exists d, t. split; [|exact H].
    apply search_stamp_some, E.
  - intros (d & t & Hl & Hs). apply search_stamp_some in Hl.
    unfold rrdf_file_re. rewrite Hl, Hs. reflexivity.
Qed.

Lemma stamp_time_invalid (path : str) :
  stamp_time path = Some None <->
  exists d t, leftmost_stamp "_" ".h5" (PosixPath.basename path) d t /\
              strptime fmt_compact (d ++ t) = None.
Proof.
  unfold stamp_time. split.
  - destruct (re_search rrdf_file_re (PosixPath.basename path)) as [[d t]|] eqn:E;
      [|discriminate].
    intros H. injection H as H. exists d, t. split; [|exact H].
    apply search_stamp_some, E.
  - intros (d & t & Hl & Hs). apply search_stamp_some in Hl.
    unfold rrdf_file_re. rewrite Hl, Hs. reflexivity.
Qed.

(** C3, as the code has it.  The index holds exactly the files that the
    [*.h5] glob lists and whose name holds [_<8 digits>_<6 digits>.h5]
    somewhere, not only at its end; each is mapped, once, to the time parsed
    from the groups of the leftmost such place.  This is so when those groups
    are valid dates and times; a name without the pattern is left out, and
    the function has no output to report it with. *)
Theorem parse_rrdf_timestamps_index (st : fs) (rrdf_folder_path : str) :
  let listed := glob_files st (PosixPath.join rrdf_folder_path "*.h5") in
  (forall path d t,
      In path listed ->
      leftmost_stamp "_" ".h5" (PosixPath.basename path) d t ->
      strptime fmt_compact (d ++ t) <> None) ->
  exists rrdf_times,
    parse_rrdf_timestamps st rrdf_folder_path = Ok rrdf_times /\
    NoDup (map fst rrdf_times) /\
    (forall path time,
        In (path, time) rrdf_times <->
        In path listed /\
        exists d t, leftmost_stamp "_" ".h5" (PosixPath.basename path) d t /\
                    strptime fmt_compact (d ++ t) = Some time) /\
    (forall path,
        In path listed -> ~ has_stamp "_" ".h5" (PosixPath.basename path) ->
        ~ In path (map fst rrdf_times)).
Proof.
  intros listed Hvalid. unfold parse_rrdf_timestamps. fold listed.
  destruct (parse_rrdf_loop_ok listed []) as (idx & Hidx & Hnd & Hiff).
  - intros path Hin Hbad. apply stamp_time_invalid in Hbad.
    destruct Hbad as (d & t & Hl & Hs). exact (Hvalid path d t Hin Hl Hs).
  - intros p time [].
  - constructor.
  - exists idx. split; [exact Hidx|]. split; [exact Hnd|]. split.
    + intros path time. rewrite Hiff, stamp_time_some. simpl. intuition.
    + intros path Hin Hno Hk. apply in_map_iff in Hk.
      destruct Hk as ([p time] & Hp & Hin'). simpl in Hp. subst p.
      apply Hiff in Hin'. destruct Hin' as [Hs _].
      apply stamp_time_some in Hs. destruct Hs as (d & t & (bf & af & Hn & Hst & _) & _).
      apply Hno. exists bf, af, d, t. auto.
Qed.

(** *** Paths *)

Import PosixPath.

Arguments Ascii.eqb : simpl never.

Lemma split_on_nonempty (c : ascii) (s : str) : split_on c s <> [].
Proof.
  destruct s as [|x s]; simpl; [discriminate|].
  destruct (Ascii.eqb x c); [discriminate|].
  destruct (split_on c s); discriminate.
Qed.

Lemma split_on_app (c : ascii) (a b : str) :
  split_on c (a ++ c :: b) = split_on c a ++ split_on c b.
Proof.
  induction a as [|x a IH]; simpl.
  - rewrite Ascii.eqb_refl. reflexivity.
  - destruct (Ascii.eqb x c); rewrite IH; [reflexivity|].
    pose proof (split_on_nonempty c a) as Hne.
    destruct (split_on c a); [congruence | reflexivity].
Qed.

Lemma split_on_no_sep (c : ascii) (b : str) : ~ In c b -> split_on c b = [b].
Proof.
  induction b as [|x b IH]; simpl; intros H; [reflexivity|].
  destruct (Ascii.eqb x c) eqn:E.
  - apply Ascii.eqb_eq in E. tauto.
  - rewrite IH by tauto. reflexivity.
Qed.

Lemma split_on_pieces (c : ascii) (s x : str) : In x (split_on c s) -> ~ In c x.
Proof.
  revert x. induction s as [|y s IH]; simpl; intros x.
  - intros [<-|[]] [].
  - destruct (Ascii.eqb y c) eqn:E.
    + intros [<-|H]; [intros [] | auto].
    + pose proof (split_on_nonempty c s) as Hne.
      destruct (split_on c s) as [|p ps]; [congruence|].
      intros [<-|H].
      * intros [->|H]; [rewrite Ascii.eqb_refl in E; discriminate|].
        apply (IH p); simpl; auto.
      * apply IH. simpl. auto.
Qed.

Lemma last_in {A} (l : list A) (d : A) : l <> [] -> In (last l d) l.
Proof.
  induction l as [|x l IH]; [congruence|]. intros _.
  destruct l as [|y l]; [left; reflexivity|].
  right. apply IH. discriminate.
Qed.

Lemma last_app_nonempty {A} (l1 l2 : list A) (d : A) :
  l2 <> [] -> last (l1 ++ l2) d = last l2 d.
Proof.
  intros H. induction l1 as [|x l1 IH]; [reflexivity|].
  simpl. destruct (l1 ++ l2) eqn:E; [|exact IH].
  apply app_eq_nil in E. destruct E. congruence.
Qed.

Lemma basename_no_sep (p : str) : ~ In sep (basename p).
Proof.
  unfold basename. apply split_on_pieces with (s := p).
  apply last_in, split_on_nonempty.
Qed.

Lemma basename_app_sep (a b : str) : basename (a ++ sep :: b) = basename b.
Proof.
  unfold basename. rewrite split_on_app.
  apply last_app_nonempty, split_on_nonempty.
Qed.

Lemma basename_plain (b : str) : ~ In sep b -> basename b = b.
Proof. intros H. unfold basename. rewrite split_on_no_sep by exact H. reflexivity. Qed.

Lemma startswith_sep (s : str) :
  startswith s "/" = match s with c :: _ => Ascii.eqb sep c | [] => false end.
Proof.
  unfold startswith. change (list_ascii_of_string "/") with [sep].
  destruct s as [|c s]; [reflexivity|]. simpl.
  destruct (Ascii.eqb sep c); reflexivity.
Qed.

Lemma startswith_sep_plain (b : str) : ~ In sep b -> startswith b "/" = false.
Proof.
  intros H. rewrite startswith_sep. destruct b as [|c b]; [reflexivity|].
  destruct (Ascii.eqb sep c) eqn:E; [|reflexivity].
  apply Ascii.eqb_eq in E. subst c. simpl in H. tauto.
Qed.

Lemma endswith_sep (a : str) :
  endswith a "/" = true <-> exists a', a = a' ++ [sep].
Proof.
  unfold endswith. rewrite startswith_sep. split.
  - destruct (rev a) as [|c r] eqn:E; [discriminate|].
    intros H. apply Ascii.eqb_eq in H. subst c.
    exists (rev r). rewrite <- (rev_involutive a), E. reflexivity.
  - intros [a' ->]. rewrite rev_app_distr. simpl. apply Ascii.eqb_refl.
Qed.

(** What [join] puts before a relative second part. *)
Lemma join_relative (a b : str) :
  startswith b "/" = false -> join a b = join a [] ++ b.
Proof.
  intros H. unfold join. rewrite H.
  change (startswith [] "/") with false. cbv iota.
  destruct a as [|c a]; [reflexivity|].
  destruct (endswith (c :: a) "/").
  - rewrite app_nil_r. reflexivity.
  - rewrite app_nil_r, <- !app_assoc. reflexivity.
Qed.

Lemma join_empty_shape (a : str) : join a [] = [] \/ exists a', join a [] = a' ++ [sep].
Proof.
  unfold join. change (startswith [] "/") with false. cbv iota.
  destruct a as [|c a]; [left; reflexivity|]. right.
  destruct (endswith (c :: a) "/") eqn:E.
  - apply endswith_sep in E. destruct E as [a' E]. exists a'.
    rewrite app_nil_r. exact E.
  - exists (c :: a). rewrite app_nil_r. reflexivity.
Qed.

Lemma basename_join (a b : str) : ~ In sep b -> basename (join a b) = b.
Proof.
  intros H. rewrite join_relative by (apply startswith_sep_plain, H).
  destruct (join_empty_shape a) as [E|[a' E]]; rewrite E.
  - apply basename_plain, H.
  - rewrite <- app_assoc. simpl. rewrite basename_app_sep. apply basename_plain, H.
Qed.

Lemma not_in_app {A} (x : A) (l1 l2 : list A) :
  ~ In x l1 -> ~ In x l2 -> ~ In x (l1 ++ l2).
Proof. intros H1 H2 H. apply in_app_or in H. tauto. Qed.

(** A folder's base name followed by a suffix without a slash is a plain
    file name. *)
Lemma plain_name (folder suffix : str) :
  ~ In sep suffix -> ~ In sep (basename (normpath folder) ++ suffix).
Proof. intros H. apply not_in_app; [apply basename_no_sep | exact H]. Qed.

Lemma join_inj (a b c : str) :
  ~ In sep b -> ~ In sep c -> join a b = join a c -> b = c.
Proof.
  intros Hb Hc H. apply (f_equal basename) in H.
  rewrite !basename_join in H; auto.
Qed.

Lemma rstrip_rev_head (r : str) :
  match r with c :: _ => Ascii.eqb c sep = false | [] => True end ->
  rstrip_rev r = r.
Proof. destruct r as [|c r]; simpl; [reflexivity|]. intros ->. reflexivity. Qed.

Lemma rstrip_sep_fixed (p : str) : endswith p "/" = false -> rstrip_sep p = p.
Proof.
  unfold endswith, rstrip_sep. rewrite startswith_sep. intros H.
  rewrite rstrip_rev_head.
  - destruct (rev p) eqn:E; [reflexivity|]. rewrite <- E. apply rev_involutive.
  - destruct (rev p) as [|c r]; [exact I|].
    rewrite Ascii.eqb_sym. exact H.
Qed.

Lemma rstrip_sep_snoc (d : str) :
  d <> [] -> endswith d "/" = false -> rstrip_sep (d ++ [sep]) = d.
Proof.
  intros Hne H. unfold rstrip_sep. rewrite rev_app_distr.
  change (rev [sep] ++ rev d) with (sep :: rev d).
  change (rstrip_rev (sep :: rev d))
    with (if Ascii.eqb sep sep then rstrip_rev (rev d) else sep :: rev d).
  rewrite Ascii.eqb_refl.
  unfold endswith in H. rewrite startswith_sep in H.
  rewrite rstrip_rev_head.
  - destruct (rev d) eqn:E.
    + apply (f_equal (@rev ascii)) in E. rewrite rev_involutive in E. simpl in E. congruence.
    + rewrite <- E. apply rev_involutive.
  - destruct (rev d) as [|c r]; [exact I|]. rewrite Ascii.eqb_sym. exact H.
Qed.

Lemma endswith_plain_tail (a name : str) :
  name <> [] -> ~ In sep name -> endswith (a ++ name) "/" = false.
Proof.
  intros Hne Hs. destruct (endswith (a ++ name) "/") eqn:E; [|reflexivity].
  apply endswith_sep in E. destruct E as [a' E].
  destruct (exists_last Hne) as (n' & c & ->).
  rewrite app_assoc in E. apply app_inj_tail in E. destruct E as [_ ->].
  exfalso. apply Hs. apply in_or_app. right. left. reflexivity.
Qed.

(** *** The file system *)

Lemma rstrip_fixed (p : str) : endswith p "/" = false -> rstrip p = p.
Proof.
  unfold endswith, rstrip. rewrite startswith_sep. intros H.
  rewrite rstrip_rev_head; [apply rev_involutive|].
  destruct (rev p) as [|c r]; [exact I|]. rewrite Ascii.eqb_sym. exact H.
Qed.

Lemma rstrip_rev_result (r : str) :
  match rstrip_rev r with c :: _ => Ascii.eqb c sep = false | [] => True end.
Proof.
  induction r as [|c r IH]; simpl; [exact I|].
  destruct (Ascii.eqb c sep) eqn:E; [exact IH | exact E].
Qed.

Lemma rstrip_sep_idem (p : str) : rstrip_sep (rstrip_sep p) = rstrip_sep p.
Proof.
  unfold rstrip_sep at 2 3.
  pose proof (rstrip_rev_result (rev p)) as H.
  destruct (rstrip_rev (rev p)) as [|c r] eqn:E.
  - unfold rstrip_sep. rewrite E. reflexivity.
  - unfold rstrip_sep. rewrite rev_involutive.
    rewrite rstrip_rev_head; [reflexivity | exact H].
Qed.

Lemma split_join (folder name : str) :
  ~ In sep name ->
  split (join folder name) = (rstrip_sep (join folder []), name).
Proof.
  intros H. unfold split. rewrite basename_join by exact H.
  rewrite join_relative by (apply startswith_sep_plain, H).
  rewrite length_app, Nat.add_sub.
  rewrite firstn_app, Nat.sub_diag, firstn_all. simpl. rewrite app_nil_r.
  reflexivity.
Qed.

Lemma rstrip_sep_join_empty (folder : str) :
  rstrip_sep (rstrip_sep (join folder [])) = rstrip_sep folder.
Proof.
  unfold join. change (startswith [] "/") with false. cbv iota.
  destruct folder as [|c a]; [reflexivity|].
  destruct (endswith (c :: a) "/") eqn:E.
  - rewrite app_nil_r. apply rstrip_sep_idem.
  - rewrite app_nil_r.
    change ((c :: a) ++ "/") with ((c :: a) ++ [sep]).
    rewrite rstrip_sep_snoc by (auto; discriminate).
    reflexivity.
Qed.

Lemma isdir_parent_join (st : fs) (folder name : str) :
  ~ In sep name ->
  isdir st (fst (split (join folder name))) = isdir st folder.
Proof.
  intros H. rewrite split_join by exact H. simpl.
  unfold isdir. rewrite rstrip_sep_join_empty. reflexivity.
Qed.

Lemma dict_get_in {V} (k : str) (v : V) (d : list (str * V)) :
  dict_get k d = Some v -> In (k, v) d.
Proof.
  induction d as [|[k1 v1] d IH]; simpl; [discriminate|].
  destruct (str_eqb k1 k) eqn:E.
  - apply str_eqb_eq in E. intros H. left. congruence.
  - auto.
Qed.

Lemma rebind_get_dst (src dst : str) (l : list (str * file)) (f : file) :
  src <> dst -> dict_get src l = Some f -> dict_get dst (rebind src dst l) = Some f.
Proof.
  intros Hne. unfold rebind. induction l as [|[k v] l IH]; simpl; [discriminate|].
  destruct (str_eqb k src) eqn:Es.
  - apply str_eqb_eq in Es. subst k. intros H. injection H as ->.
    assert (str_eqb src dst = false) as E by (apply str_eqb_neq, Hne).
    rewrite E. simpl. rewrite str_eqb_refl. simpl. rewrite str_eqb_refl. reflexivity.
  - intros H. destruct (str_eqb k dst) eqn:Ed; simpl; [auto|].
    rewrite Es. simpl. rewrite Ed. auto.
Qed.

Lemma rebind_get_other (src dst k : str) (l : list (str * file)) :
  k <> src -> k <> dst -> dict_get k (rebind src dst l) = dict_get k l.
Proof.
  intros Hs Hd. unfold rebind. induction l as [|[k1 v] l IH]; simpl; [reflexivity|].
  destruct (str_eqb k1 dst) eqn:Ed; simpl.
  - apply str_eqb_eq in Ed. subst k1.
    assert (str_eqb dst k = false) as E by (apply str_eqb_neq; congruence).
    rewrite E. exact IH.
  - destruct (str_eqb k1 src) eqn:Es; simpl.
    + apply str_eqb_eq in Es. subst k1.
      assert (str_eqb dst k = false) as E by (apply str_eqb_neq; congruence).
      assert (str_eqb src k = false) as E' by (apply str_eqb_neq; congruence).
      rewrite E, E'. exact IH.
    + rewrite IH. reflexivity.
Qed.

Lemma rebind_get_src (src dst : str) (l : list (str * file)) :
  src <> dst -> dict_get src (rebind src dst l) = None.
Proof.
  intros Hne. unfold rebind. induction l as [|[k1 v] l IH]; simpl; [reflexivity|].
  destruct (str_eqb k1 dst) eqn:Ed; simpl; [exact IH|].
  destruct (str_eqb k1 src) eqn:Es; simpl.
  - assert (str_eqb dst src = false) as E by (apply str_eqb_neq; congruence).
    rewrite E. exact IH.
  - rewrite Es. exact IH.
Qed.

(** What a rename that succeeds has done. *)
Lemma rename_file_ok (src dst : str) (st st' : fs) :
  rename_file src dst st = Ok st' ->
  dirs st' = dirs st /\
  endswith src "/" = false /\
  isdir st (fst (split dst)) = true /\
  (exists f, dict_get src (files st) = Some f /\ dict_get dst (files st') = Some f) /\
  (src <> dst -> dict_get src (files st') = None) /\
  (forall k, k <> src -> k <> dst -> dict_get k (files st') = dict_get k (files st)).
Proof.
  unfold rename_file.
  destruct (dict_get src (files st)) as [f|] eqn:Ef; [|discriminate].
  destruct (endswith src "/") eqn:E0; [discriminate|].
  destruct (isdir st dst || endswith dst "/") eqn:E1; [discriminate|].
  destruct (isdir st (fst (split dst))) eqn:E2; [|discriminate]. simpl.
  destruct (str_eqb src dst) eqn:E3.
  - apply str_eqb_eq in E3. subst dst. intros H. injection H as <-.
    repeat split; auto.
    + exists f. auto.
    + congruence.
  - apply str_eqb_neq in E3. intros H. injection H as <-. simpl.
    repeat split; auto.
    + exists f. split; [reflexivity|]. apply rebind_get_dst; auto.
    + intros _. apply rebind_get_src, E3.
    + intros k Hs Hd. apply rebind_get_other; auto.
Qed.

(** When a rename succeeds. *)
Lemma rename_file_succeeds (src dst : str) (st : fs) (f : file) :
  dict_get src (files st) = Some f ->
  endswith src "/" = false ->
  isdir st dst = false -> endswith dst "/" = false ->
  isdir st (fst (split dst)) = true ->
  exists st', rename_file src dst st = Ok st'.
Proof.
  intros Hf H0 H1 H2 H3. unfold rename_file.
  rewrite Hf, H0, H1, H2, H3. simpl.
  destruct (str_eqb src dst); eauto.
Qed.

Lemma nearest_fold (rrdf_time : datetime) (l : list (str * datetime))
    (acc : option str * timedelta) :
  let res := fold_left (nearest_step rrdf_time) l acc in
  snd res <= snd acc /\
  (forall e, In e l -> snd res <= time_diff rrdf_time e) /\
  (res = acc \/
   exists e, In e l /\ res = (Some (fst e), time_diff rrdf_time e) /\
             time_diff rrdf_time e < snd acc).
Proof.
  revert acc. induction l as [|e l IH]; intros acc; simpl.
  - split; [lia|]. split; [intros ? []|]. left. reflexivity.
  - destruct (IH (nearest_step rrdf_time acc e)) as (Hle & Hall & Hres).
    assert (nearest_step rrdf_time acc e =
            if time_diff rrdf_time e <? snd acc
            then (Some (fst e), time_diff rrdf_time e) else acc) as Hstep
      by reflexivity.
    destruct (time_diff rrdf_time e <? snd acc) eqn:E; rewrite Hstep in *.
    + apply Z.ltb_lt in E. simpl in Hle. split; [lia|]. split.
      * intros e' [<-|H]; [exact Hle | auto].
      * right. destruct Hres as [Hres|(e' & Hin & Hres & Hlt)].
        -- exists e. auto.
        -- exists e'. simpl in Hlt. split; [auto|]. split; [exact Hres | lia].
    + apply Z.ltb_ge in E. split; [lia|]. split.
      * intros e' [<-|H]; [lia | auto].
      * destruct Hres as [Hres|(e' & Hin & Hres & Hlt)]; [left; exact Hres|].
        right. exists e'. auto.
Qed.

Lemma td_minute_lt_day : td_minutes 1 < td_days 1.
Proof. reflexivity. Qed.

(** The decision of line 138 picks a folder of the index that is as near as
    any and strictly within a minute, and it picks one exactly when some
    folder is strictly within a minute. *)
Lemma close_match_some (acq : list (str * datetime)) (rrdf_time : datetime)
    (folder : str) :
  close_match acq rrdf_time = Some folder ->
  exists time,
    In (folder, time) acq /\
    time_diff rrdf_time (folder, time) < td_minutes 1 /\
    forall e, In e acq -> time_diff rrdf_time (folder, time) <= time_diff rrdf_time e.
Proof.
  unfold close_match, nearest.
  destruct (nearest_fold rrdf_time acq (None, td_days 1)) as (_ & Hall & Hres).
  destruct (fold_left (nearest_step rrdf_time) acq (None, td_days 1)) as [best mn].
  destruct best as [[|c f]|]; try discriminate.
  destruct (mn <? td_minutes 1) eqn:E; [|discriminate].
  intros H. injection H as <-. apply Z.ltb_lt in E.
  destruct Hres as [Hres|([f' time] & Hin & Hres & _)]; [discriminate|].
  simpl in Hres. injection Hres as -> ->.
  exists time. simpl in Hall. auto.
Qed.

Lemma close_match_none (acq : list (str * datetime)) (rrdf_time : datetime) :
  (forall e, In e acq -> td_minutes 1 <= time_diff rrdf_time e) ->
  close_match acq rrdf_time = None.
Proof.
  intros H. destruct (close_match acq rrdf_time) as [folder|] eqn:E; [|reflexivity].
  apply close_match_some in E. destruct E as (time & Hin & Hlt & _).
  specialize (H _ Hin). lia.
Qed.

Lemma close_match_within (acq : list (str * datetime)) (rrdf_time : datetime) :
  (forall e, In e acq -> fst e <> []) ->
  (exists e, In e acq /\ time_diff rrdf_time e < td_minutes 1) ->
  exists folder, close_match acq rrdf_time = Some folder.
Proof.
  intros Hkeys (e & Hin & Hlt). unfold close_match, nearest.
  destruct (nearest_fold rrdf_time acq (None, td_days 1)) as (_ & Hall & Hres).
  destruct (fold_left (nearest_step rrdf_time) acq (None, td_days 1)) as [best mn].
  simpl in Hall. pose proof (Hall e Hin) as Hle.
  destruct Hres as [Hres|(e' & Hin' & Hres & _)].
  - injection Hres as -> ->. pose proof td_minute_lt_day. lia.
  - injection Hres as -> ->.
    destruct (fst e') as [|c f] eqn:Ek; [exfalso; eapply Hkeys; eauto|].
    assert ((time_diff rrdf_time e' <? td_minutes 1) = true) as ->
      by (apply Z.ltb_lt; lia).
    eauto.
Qed.

(** *** Globbing *)

Lemma contains_sep_false (s : str) : contains "/" s = false -> ~ In sep s.
Proof.
  induction s as [|x s IH]; [intros _ []|].
  cbn [contains]. rewrite startswith_sep. intros H.
  apply orb_false_iff in H. destruct H as [H1 H2].
  intros [Hx|Hin]; [|exact (IH H2 Hin)].
  rewrite Hx, Ascii.eqb_refl in H1. discriminate.
Qed.

Lemma entry_name_spec (head p name : str) :
  entry_name head p = Some name ->
  p = join head name /\ name <> [] /\ ~ In sep name.
Proof.
  unfold entry_name.
  destruct (strip_prefix (join head []) p) as [n|] eqn:E; [|discriminate].
  apply strip_prefix_spec in E.
  destruct n as [|c n]; [discriminate|].
  destruct (contains "/" (c :: n)) eqn:Ec; [discriminate|].
  intros H. injection H as <-.
  assert (~ In sep (c :: n)) as Hs by (apply contains_sep_false, Ec).
  split; [|split; [discriminate | exact Hs]].
  rewrite join_relative by (apply startswith_sep_plain, Hs). exact E.
Qed.

(** A file that a [<dir>/*<ext>] glob lists is a regular file with a plain
    name ending in [<ext>]. *)
Lemma glob_files_listed (st : fs) (folder ext q : str) :
  ~ In sep ext ->
  In q (glob_files st (join folder ("*" ++ ext))) ->
  exists f, dict_get q (files st) <> None /\ In (q, f) (files st) /\
            endswith q "/" = false /\ endswith (basename q) ext = true.
Proof.
  intros Hext. unfold glob_files.
  rewrite split_join.
  2:{ change (list_ascii_of_string "*" ++ ext) with ("*"%char :: ext).
      intros [H|H]; [discriminate | tauto]. }
  change (strip_prefix "*" ("*" ++ ext)) with (Some ext).
  rewrite in_flat_map. intros ([p f] & Hin & Hq).
  destruct (entry_name _ p) as [name|] eqn:En; [|destruct Hq].
  apply entry_name_spec in En. destruct En as (Hp & Hne & Hs).
  destruct (endswith name ext && negb (is_hidden name)) eqn:Ee; [|destruct Hq].
  destruct Hq as [<-|[]]. apply andb_true_iff in Ee. destruct Ee as [Ee _].
  exists f. subst p. repeat split; auto.
  - clear - Hin. induction (files st) as [|[k v] l IH]; [destruct Hin|].
    simpl. destruct (str_eqb k _) eqn:E; [discriminate|].
    destruct Hin as [H|H]; [|auto].
    injection H as -> _. rewrite str_eqb_refl in E. discriminate.
  - rewrite join_relative by (apply startswith_sep_plain, Hs).
    apply endswith_plain_tail; auto.
  - rewrite basename_join by exact Hs. exact Ee.
Qed.

Lemma isdir_same_dirs (st st' : fs) (p : str) :
  dirs st' = dirs st -> isdir st' p = isdir st p.
Proof. unfold isdir. intros ->. reflexivity. Qed.

Lemma Qlt_bool_true (a b : Q) : (a < b)%Q -> Qlt_bool a b = true.
Proof.
  intros H. unfold Qlt_bool. destruct (Qle_bool b a) eqn:E; [|reflexivity].
  apply Qle_bool_iff in E. exfalso. exact (Qlt_not_le _ _ H E).
Qed.

Lemma Qlt_bool_false (a b : Q) : (a < b)%Q -> Qlt_bool b a = false.
Proof.
  intros H. unfold Qlt_bool.
  assert (Qle_bool a b = true) as -> by (apply Qle_bool_iff, Qlt_le_weak, H).
  reflexivity.
Qed.

(** *** The CALIPR step *)

Section ProgramFacts.

Variable io_fault : fs_op -> bool.

(** A literal without a slash. *)
Ltac no_slash :=
  let H := fresh in
  intros H; repeat (destruct H as [H|H]; [discriminate H|]); destruct H.

Lemma no_sep_protonDensity : ~ In sep (list_ascii_of_string "_protonDensity.dcm").
Proof. no_slash. Qed.

Lemma no_sep_T2map : ~ In sep (list_ascii_of_string "_T2map.dcm").
Proof. no_slash. Qed.

Lemma no_sep_h5 : ~ In sep (list_ascii_of_string ".h5").
Proof. no_slash. Qed.

Lemma no_sep_dcm : ~ In sep (list_ascii_of_string ".dcm").
Proof. no_slash. Qed.

Lemma role_paths_differ (folder : str) : protonDensity_path folder <> T2map_path folder.
Proof.
  unfold protonDensity_path, T2map_path. intros H.
  apply join_inj in H; try (apply plain_name; [apply no_sep_protonDensity || apply no_sep_T2map]).
  apply app_inv_head in H. discriminate.
Qed.

(** With a count other than two the CALIPR step only prints. *)
Lemma rename_calipr_skips (folder : str) (w : world) :
  let found := List.length (glob_files (wfs w) (join folder "*.dcm")) in
  found <> 2%nat ->
  rename_calipr_dicom_files io_fault folder w =
    mkworld (wfs w)
            (wlog w ++ [CaliprStart (basename (normpath folder));
                        WarnCaliprCount found]).
Proof.
  intros found H. unfold rename_calipr_dicom_files. cbv zeta.
  change (wfs (print _ w)) with (wfs w). fold found.
  apply Nat.eqb_neq in H. rewrite H. cbv [negb].
  unfold print. cbn [wfs wlog]. rewrite <- app_assoc. reflexivity.
Qed.

(** C6. When the [*.dcm] glob of the folder does not list exactly two files,
    the CALIPR step prints its warning with the count found and returns: the
    file system is as it was, so every file keeps its name, and the caller
    goes on with the next raw file. *)
Theorem rename_calipr_wrong_count (folder : str) (w : world) :
  let found := List.length (glob_files (wfs w) (join folder "*.dcm")) in
  found <> 2%nat ->
  rename_calipr_dicom_files io_fault folder w =
    mkworld (wfs w)
            (wlog w ++ [CaliprStart (basename (normpath folder));
                        WarnCaliprCount found]).
Proof. exact (rename_calipr_skips folder w). Qed.

Lemma read_content_times_fail (st : fs) (paths : list str) :
  (exists p, In p paths /\ obind (dict_get p (files st)) ContentTime = None) ->
  read_content_times st paths = Raise DicomError.
Proof.
  induction paths as [|q paths IH]; intros (p & Hin & Hp); [destruct Hin|].
  simpl. destruct Hin as [<-|Hin].
  - unfold obind in Hp. destruct (dict_get q (files st)) as [f|]; [|reflexivity].
    rewrite Hp. reflexivity.
  - destruct (dict_get q (files st)) as [f|]; [|reflexivity].
    destruct (ContentTime f); [|reflexivity].
    rewrite IH by eauto. reflexivity.
Qed.

Lemma read_content_times_ok (st : fs) (paths : list str) (file_times : list (str * Q)) :
  read_content_times st paths = Ok file_times ->
  forall p, In p paths -> obind (dict_get p (files st)) ContentTime <> None.
Proof.
  intros H p Hin Hp.
  rewrite read_content_times_fail in H by eauto. discriminate.
Qed.

(** C10. The content times of all listed files are read before the first
    rename.  When the read of either of the two candidates fails, the step
    prints the read error and returns, and the file system is as it was: no
    file is renamed.  So a file system that the step has changed is one where
    every content time was read. *)
Theorem rename_calipr_read_failure (folder : str) (w : world) :
  let dcm_files := glob_files (wfs w) (join folder "*.dcm") in
  let w' := rename_calipr_dicom_files io_fault folder w in
  ((exists p, In p dcm_files /\
              obind (dict_get p (files (wfs w))) ContentTime = None) ->
   List.length dcm_files = 2%nat ->
   w' = mkworld (wfs w)
                (wlog w ++ [CaliprStart (basename (normpath folder));
                            ErrContentTime DicomError]))
  /\
  (wfs w' <> wfs w ->
   forall p, In p dcm_files ->
             obind (dict_get p (files (wfs w))) ContentTime <> None).
Proof.
  intros dcm_files w'. subst w'. unfold rename_calipr_dicom_files. cbv zeta.
  change (wfs (print _ w)) with (wfs w). fold dcm_files. split.
  - intros Hfail Hlen. rewrite Hlen. cbn [Nat.eqb negb].
    rewrite read_content_times_fail by exact Hfail.
    unfold print. cbn [wfs wlog]. rewrite <- app_assoc. reflexivity.
  - destruct (negb (List.length dcm_files =? 2)%nat);
      [cbn [print wfs]; congruence|].
    destruct (read_content_times (wfs w) dcm_files) as [file_times|e] eqn:E;
      [|cbn [print wfs]; congruence].
    intros _. eapply read_content_times_ok, E.
Qed.

Lemma os_rename_ok (src dst : str) (st st' : fs) :
  os_rename io_fault src dst st = Ok st' -> rename_file src dst st = Ok st'.
Proof. unfold os_rename. destruct (io_fault _); [discriminate | auto]. Qed.

(** The CALIPR step on two files whose content times were read. *)
Lemma rename_calipr_two (folder : str) (w : world) (q1 q2 : str) (f1 f2 : file)
    (t1 t2 : Q) :
  glob_files (wfs w) (join folder "*.dcm") = [q1; q2] ->
  dict_get q1 (files (wfs w)) = Some f1 -> ContentTime f1 = Some t1 ->
  dict_get q2 (files (wfs w)) = Some f2 -> ContentTime f2 = Some t2 ->
  let first := if Qlt_bool t2 t1 then q2 else q1 in
  let second := if Qlt_bool t2 t1 then q1 else q2 in
  let w1 := print (RenamingProtonDensity (basename (protonDensity_path folder)))
                  (print (CaliprStart (basename (normpath folder))) w) in
  rename_calipr_dicom_files io_fault folder w =
  match os_rename io_fault first (protonDensity_path folder) (wfs w) with
  | Raise e => print (ErrCaliprRename e) w1
  | Ok st =>
      let w2 := print (RenamingT2map (basename (T2map_path folder))) (with_fs st w1) in
      match os_rename io_fault second (T2map_path folder) st with
      | Raise e => print (ErrCaliprRename e) w2
      | Ok st' => with_fs st' w2
      end
  end.
Proof.
  intros Hg H1 Hc1 H2 Hc2. unfold rename_calipr_dicom_files. cbv zeta.
  change (wfs (print _ w)) with (wfs w). rewrite Hg.
  cbn [List.length Nat.eqb negb read_content_times].
  rewrite H1, Hc1, H2, Hc2. cbn [bind sort_by_time insert_by_time snd].
  fold (protonDensity_path folder). fold (T2map_path folder).
  destruct (Qlt_bool t2 t1); reflexivity.
Qed.

(** X21. In a folder whose [*.dcm] glob lists exactly two files, with
    content times that were read and differ, the file with the earlier time
    ends as [<folder>_protonDensity.dcm] and the one with the later time as
    [<folder>_T2map.dcm], whatever the order of the listing.
    This is so when the later file does not already bear the proton-density
    name, no directory bears either new name, and the operating system
    refuses neither rename. *)
Theorem rename_calipr_roles (folder : str) (w : world)
    (earlier later : str) (fe fl : file) (te tl : Q) :
  let dcm_files := glob_files (wfs w) (join folder "*.dcm") in
  dcm_files = [earlier; later] \/ dcm_files = [later; earlier] ->
  dict_get earlier (files (wfs w)) = Some fe -> ContentTime fe = Some te ->
  dict_get later (files (wfs w)) = Some fl -> ContentTime fl = Some tl ->
  (te < tl)%Q ->
  later <> protonDensity_path folder ->
  isdir (wfs w) folder = true ->
  isdir (wfs w) (protonDensity_path folder) = false ->
  isdir (wfs w) (T2map_path folder) = false ->
  io_fault (OpRename earlier (protonDensity_path folder)) = false ->
  io_fault (OpRename later (T2map_path folder)) = false ->
  let w' := rename_calipr_dicom_files io_fault folder w in
  dict_get (protonDensity_path folder) (files (wfs w')) = Some fe /\
  dict_get (T2map_path folder) (files (wfs w')) = Some fl /\
  basename (protonDensity_path folder) =
    basename (normpath folder) ++ "_protonDensity.dcm" /\
  basename (T2map_path folder) = basename (normpath folder) ++ "_T2map.dcm" /\
  wlog w' = wlog w ++ [CaliprStart (basename (normpath folder));
                       RenamingProtonDensity (basename (protonDensity_path folder));
                       RenamingT2map (basename (T2map_path folder))].
Proof.
  intros dcm_files Hg He Hte Hl Htl Hlt Hclash Hdir Hd1 Hd2 Hf1 Hf2 w'.
  assert (forall q, In q dcm_files -> endswith q "/" = false) as Hfile.
  { intros q Hq. apply (glob_files_listed (wfs w) folder ".dcm" q no_sep_dcm) in Hq.
    destruct Hq as (f & _ & _ & H & _). exact H. }
  assert (In earlier dcm_files /\ In later dcm_files) as [Hine Hinl]
    by (destruct Hg as [-> | ->]; simpl; auto).
  assert (earlier <> later) as Hne.
  { intros E. subst later. rewrite He in Hl. injection Hl as <-.
    rewrite Hte in Htl. injection Htl as <-. exact (Qlt_irrefl _ Hlt). }
  assert (rename_calipr_dicom_files io_fault folder w =
          let w1 := print (RenamingProtonDensity (basename (protonDensity_path folder)))
                          (print (CaliprStart (basename (normpath folder))) w) in
          match os_rename io_fault earlier (protonDensity_path folder) (wfs w) with
          | Raise e => print (ErrCaliprRename e) w1
          | Ok st =>
              let w2 := print (RenamingT2map (basename (T2map_path folder)))
                              (with_fs st w1) in
              match os_rename io_fault later (T2map_path folder) st with
              | Raise e => print (ErrCaliprRename e) w2
              | Ok st' => with_fs st' w2
              end
          end) as Hrun.
  { destruct Hg as [Hg|Hg].
    - rewrite (rename_calipr_two folder w _ _ _ _ _ _ Hg He Hte Hl Htl).
      rewrite (Qlt_bool_false _ _ Hlt). reflexivity.
    - rewrite (rename_calipr_two folder w _ _ _ _ _ _ Hg Hl Htl He Hte).
      rewrite (Qlt_bool_true _ _ Hlt). reflexivity. }
  assert (~ In sep (basename (normpath folder) ++ "_protonDensity.dcm")) as Hp1
    by (apply plain_name, no_sep_protonDensity).
  assert (~ In sep (basename (normpath folder) ++ "_T2map.dcm")) as Hp2
    by (apply plain_name, no_sep_T2map).
  assert (forall n : str, n <> [] -> ~ In sep n -> endswith (join folder n) "/" = false)
    as Hend.
  { intros n Hn Hs. rewrite join_relative by (apply startswith_sep_plain, Hs).
    apply endswith_plain_tail; auto. }
  destruct (rename_file_succeeds earlier (protonDensity_path folder) (wfs w) fe)
    as [st1 Hr1]; auto.
  { apply Hend; [|exact Hp1]. intros E. apply app_eq_nil in E. destruct E. discriminate. }
  { unfold protonDensity_path. rewrite isdir_parent_join; auto. }
  destruct (rename_file_ok _ _ _ _ Hr1) as (Hdirs1 & _ & _ & (f1 & Hf1a & Hf1b) & _ & Hoth1).
  rewrite He in Hf1a. injection Hf1a as <-.
  assert (dict_get later (files st1) = Some fl) as Hl1
    by (rewrite Hoth1; auto).
  destruct (rename_file_succeeds later (T2map_path folder) st1 fl)
    as [st2 Hr2]; auto.
  { rewrite (isdir_same_dirs _ _ _ Hdirs1). exact Hd2. }
  { apply Hend; [|exact Hp2]. intros E. apply app_eq_nil in E. destruct E. discriminate. }
  { rewrite (isdir_same_dirs _ _ _ Hdirs1). unfold T2map_path.
    rewrite isdir_parent_join; auto. }
  destruct (rename_file_ok _ _ _ _ Hr2) as (_ & _ & _ & (f2 & Hf2a & Hf2b) & _ & Hoth2).
  rewrite Hl1 in Hf2a. injection Hf2a as <-.
  subst w'. rewrite Hrun. cbv zeta. unfold os_rename.
  rewrite Hf1, Hr1, Hf2, Hr2. cbn [with_fs print wfs wlog].
  split; [|split; [|split; [|split]]].
  - rewrite Hoth2; auto. apply role_paths_differ.
  - exact Hf2b.
  - apply basename_join, Hp1.
  - apply basename_join, Hp2.
  - rewrite <- !app_assoc. reflexivity.
Qed.

Lemma strip_prefix_app_r (p s r x : str) :
  strip_prefix p s = Some r -> strip_prefix p (s ++ x) = Some (r ++ x).
Proof. rewrite !strip_prefix_spec. intros ->. symmetry. apply app_assoc. Qed.

Lemma endswith_app (a b c : str) : endswith b c = true -> endswith (a ++ b) c = true.
Proof.
  unfold endswith, startswith. rewrite rev_app_distr.
  destruct (strip_prefix (rev c) (rev b)) as [r|] eqn:E; [|discriminate].
  intros _. rewrite (strip_prefix_app_r _ _ _ (rev a) E). reflexivity.
Qed.

Lemma read_two (st : fs) (q1 q2 : str) (file_times : list (str * Q)) :
  read_content_times st [q1; q2] = Ok file_times ->
  exists f1 f2 t1 t2,
    dict_get q1 (files st) = Some f1 /\ ContentTime f1 = Some t1 /\
    dict_get q2 (files st) = Some f2 /\ ContentTime f2 = Some t2.
Proof.
  simpl.
  destruct (dict_get q1 (files st)) as [f1|]; [|discriminate].
  destruct (ContentTime f1) as [t1|] eqn:E1; [|discriminate].
  destruct (dict_get q2 (files st)) as [f2|]; [|discriminate].
  destruct (ContentTime f2) as [t2|] eqn:E2; [|discriminate].
  intros _. exists f1, f2, t1, t2. auto.
Qed.

(** The CALIPR step leaves the directories alone and touches no file but
    those named [*.dcm]. *)
Lemma rename_calipr_frame (folder : str) (w : world) :
  let w' := rename_calipr_dicom_files io_fault folder w in
  dirs (wfs w') = dirs (wfs w) /\
  forall k, endswith (basename k) ".dcm" = false ->
            dict_get k (files (wfs w')) = dict_get k (files (wfs w)).
Proof.
  cbv zeta.
  destruct (Nat.eq_dec (List.length (glob_files (wfs w) (join folder "*.dcm"))) 2)
    as [Hlen|Hlen].
  2:{ rewrite rename_calipr_skips by exact Hlen. simpl. auto. }
  destruct (read_content_times (wfs w) (glob_files (wfs w) (join folder "*.dcm")))
    as [file_times|e] eqn:Er.
  2:{ unfold rename_calipr_dicom_files. cbv zeta.
      change (wfs (print _ w)) with (wfs w). rewrite Hlen, Er. simpl. auto. }
  pose proof (glob_files_listed (wfs w) folder ".dcm") as Hlisted.
  change (list_ascii_of_string "*" ++ list_ascii_of_string ".dcm")
    with (list_ascii_of_string "*.dcm") in Hlisted.
  destruct (glob_files (wfs w) (join folder "*.dcm")) as [|q1 [|q2 [|q3 l]]] eqn:Hg;
    try discriminate.
  destruct (read_two _ _ _ _ Er) as (f1 & f2 & t1 & t2 & H1 & Hc1 & H2 & Hc2).
  rewrite (rename_calipr_two folder w _ _ _ _ _ _ Hg H1 Hc1 H2 Hc2). cbv zeta.
  assert (forall q, In q [q1; q2] -> endswith (basename q) ".dcm" = true) as Hsrc.
  { intros q Hq. destruct (Hlisted q no_sep_dcm Hq) as (f & _ & _ & _ & H). exact H. }
  assert (endswith (basename (protonDensity_path folder)) ".dcm" = true) as Hd1.
  { unfold protonDensity_path.
    rewrite basename_join by (apply plain_name, no_sep_protonDensity).
    apply endswith_app. reflexivity. }
  assert (endswith (basename (T2map_path folder)) ".dcm" = true) as Hd2.
  { unfold T2map_path.
    rewrite basename_join by (apply plain_name, no_sep_T2map).
    apply endswith_app. reflexivity. }
  set (first := if Qlt_bool t2 t1 then q2 else q1).
  set (second := if Qlt_bool t2 t1 then q1 else q2).
  assert (In first [q1; q2] /\ In second [q1; q2]) as [Hi1 Hi2]
    by (subst first second; destruct (Qlt_bool t2 t1); simpl; auto).
  destruct (os_rename io_fault first (protonDensity_path folder) (wfs w))
    as [st1|e1] eqn:E1; [|simpl; auto].
  apply os_rename_ok in E1.
  destruct (rename_file_ok _ _ _ _ E1) as (Hdirs1 & _ & _ & _ & _ & Hoth1).
  assert (forall k, endswith (basename k) ".dcm" = false ->
                    dict_get k (files st1) = dict_get k (files (wfs w))) as Hk1.
  { intros k Hk. apply Hoth1; intros E; rewrite E in Hk.
    - rewrite (Hsrc _ Hi1) in Hk. discriminate.
    - rewrite Hd1 in Hk. discriminate. }
  destruct (os_rename io_fault second (T2map_path folder) st1)
    as [st2|e2] eqn:E2; [|simpl; auto].
  apply os_rename_ok in E2.
  destruct (rename_file_ok _ _ _ _ E2) as (Hdirs2 & _ & _ & _ & _ & Hoth2).
  cbn [with_fs print wfs wlog]. split; [congruence|].
  intros k Hk. rewrite <- (Hk1 k Hk). apply Hoth2; intros E; rewrite E in Hk.
  - rewrite (Hsrc _ Hi2) in Hk. discriminate.
  - rewrite Hd2 in Hk. discriminate.
Qed.

(** *** Relocation of one file *)

Lemma shutil_move_ok (p folder : str) (st st1 : fs) :
  isdir st folder = true ->
  shutil_move io_fault p folder st = Ok st1 ->
  rename_file p (join folder (basename p)) st = Ok st1 /\
  exists_ st (join folder (basename p)) = false.
Proof.
  intros Hdir. unfold shutil_move.
  destruct (io_fault _); [discriminate|]. rewrite Hdir.
  destruct (exists_ st _) eqn:Ex; [discriminate|].
  intros H. pose proof H as H'.
  apply rename_file_ok in H'. destruct H' as (_ & Hend & _).
  rewrite (rstrip_fixed _ Hend) in *. auto.
Qed.

Lemma move_and_rename_ok (p folder : str) (w : world) (st1 st2 : fs) :
  shutil_move io_fault p folder (wfs w) = Ok st1 ->
  os_rename io_fault (join folder (basename p)) (h5_path folder) st1 = Ok st2 ->
  move_and_rename io_fault p folder w =
  let dest := basename (normpath folder) in
  let w3 := mkworld st2 (wlog w ++ [MatchFound (basename p) dest;
                                    Renaming (basename p) (dest ++ ".h5")]) in
  if contains "calipr" (lower dest)
  then rename_calipr_dicom_files io_fault folder w3 else w3.
Proof.
  intros H1 H2. unfold move_and_rename. cbv zeta.
  change (wfs (print _ w)) with (wfs w). rewrite H1.
  change (wfs (print _ (with_fs st1 _))) with st1.
  fold (h5_path folder). rewrite H2.
  unfold print, with_fs. cbn [wfs wlog]. rewrite <- app_assoc. reflexivity.
Qed.

(** What a relocation that went through has done. *)
Lemma relocation_result (p folder : str) (w : world) (st1 st2 : fs) :
  isdir (wfs w) folder = true ->
  shutil_move io_fault p folder (wfs w) = Ok st1 ->
  os_rename io_fault (join folder (basename p)) (h5_path folder) st1 = Ok st2 ->
  let w' := move_and_rename io_fault p folder w in
  basename (h5_path folder) = basename (normpath folder) ++ ".h5" /\
  exists f,
    dict_get p (files (wfs w)) = Some f /\
    dict_get (h5_path folder) (files st2) = Some f /\
    dict_get p (files st2) = None /\
    dict_get (h5_path folder) (files (wfs w')) = Some f.
Proof.
  intros Hdir Hmove Hren w'.
  assert (~ In sep (basename (normpath folder) ++ ".h5")) as Hplain
    by (apply plain_name, no_sep_h5).
  assert (basename (h5_path folder) = basename (normpath folder) ++ ".h5") as Hbase
    by (apply basename_join, Hplain).
  split; [exact Hbase|].
  destruct (shutil_move_ok _ _ _ _ Hdir Hmove) as [Hr1 Hex].
  pose proof (os_rename_ok _ _ _ _ Hren) as Hr2.
  destruct (rename_file_ok _ _ _ _ Hr1) as (_ & _ & _ & (f & Hf & Hf1) & Hgone1 & _).
  destruct (rename_file_ok _ _ _ _ Hr2) as (_ & _ & _ & (f' & Hf' & Hf2) & _ & Hoth2).
  rewrite Hf1 in Hf'. injection Hf' as <-.
  assert (p <> join folder (basename p)) as Hne.
  { intros E. unfold exists_, isfile in Hex. rewrite <- E, Hf in Hex. discriminate. }
  assert (p <> h5_path folder) as Hne'.
  { intros E. apply Hne. rewrite E at 2. rewrite Hbase. exact E. }
  exists f. split; [exact Hf|]. split; [exact Hf2|]. split.
  - rewrite Hoth2; auto.
  - subst w'. rewrite (move_and_rename_ok p folder w st1 st2 Hmove Hren). cbv zeta.
    destruct (contains "calipr" (lower (basename (normpath folder)))); [|exact Hf2].
    rewrite (proj2 (rename_calipr_frame folder _)); [exact Hf2|].
    rewrite Hbase. unfold endswith. rewrite rev_app_distr. reflexivity.
Qed.

(** C4. After a relocation that succeeded, that is after both the move into
    the matched folder and the rename went through, the raw file is in the
    folder under the folder's base name followed by [.h5], whatever its name
    was, it is no longer where it was, and the CALIPR step that may follow
    leaves it there. *)
Theorem relocated_file_name (p folder : str) (w : world) (st1 st2 : fs) :
  isdir (wfs w) folder = true ->
  shutil_move io_fault p folder (wfs w) = Ok st1 ->
  os_rename io_fault (join folder (basename p)) (h5_path folder) st1 = Ok st2 ->
  let w' := move_and_rename io_fault p folder w in
  basename (h5_path folder) = basename (normpath folder) ++ ".h5" /\
  exists f,
    dict_get p (files (wfs w)) = Some f /\
    dict_get (h5_path folder) (files st2) = Some f /\
    dict_get p (files st2) = None /\
    dict_get (h5_path folder) (files (wfs w')) = Some f.
Proof. exact (relocation_result p folder w st1 st2). Qed.

End ProgramFacts.

(** *** The index of acquisition folders *)

Lemma join_empty_snoc (d : str) :
  d <> [] -> endswith d "/" = false -> join d [] = d ++ [sep].
Proof.
  intros Hne He. unfold join. change (startswith [] "/") with false. cbv iota.
  destruct d as [|c d]; [congruence|]. rewrite He. reflexivity.
Qed.

(** A folder that the [<session>/*/] glob lists is a directory, written with
    its trailing slash. *)
Lemma glob_subdirs_listed (st : fs) (pattern k : str) :
  In k (glob_subdirs st pattern) -> k <> [] /\ isdir st k = true.
Proof.
  unfold glob_subdirs.
  destruct (split (fst (split pattern))) as [head tail].
  rewrite in_flat_map. intros (d & Hd & Hk).
  destruct (entry_name head d) as [name|] eqn:En; [|destruct Hk].
  destruct (is_hidden name); [destruct Hk|].
  destruct Hk as [<-|[]].
  apply entry_name_spec in En. destruct En as (Hp & Hne & Hs). rewrite <- Hp.
  assert (endswith d "/" = false) as He.
  { rewrite Hp. rewrite join_relative by (apply startswith_sep_plain, Hs).
    apply endswith_plain_tail; auto. }
  assert (d <> []) as Hdne.
  { rewrite Hp. rewrite join_relative by (apply startswith_sep_plain, Hs).
    intros E. apply app_eq_nil in E. destruct E. contradiction. }
  rewrite (join_empty_snoc d Hdne He). split.
  - intros E. apply app_eq_nil in E. destruct E. discriminate.
  - unfold isdir. rewrite (rstrip_sep_snoc d Hdne He).
    apply existsb_exists. exists d. split; [exact Hd | apply str_eqb_refl].
Qed.

Lemma acquisition_step_keys (st : fs) (acc : list (str * datetime) * list event)
    (folder k : str) :
  In k (map fst (fst (acquisition_step st acc folder))) ->
  k = folder \/ In k (map fst (fst acc)).
Proof.
  unfold acquisition_step. destruct acc as [acq log].
  destruct (glob_files st _) as [|first rest]; [auto|].
  destruct (obind _ _) as [text|]; [|auto].
  destruct (strptime _ _) as [time|]; [|auto].
  cbn [fst]. rewrite dict_set_keys. auto.
Qed.

Lemma acquisition_fold_keys (st : fs) (folders : list str)
    (acc : list (str * datetime) * list event) (k : str) :
  In k (map fst (fst (fold_left (acquisition_step st) folders acc))) ->
  In k folders \/ In k (map fst (fst acc)).
Proof.
  revert acc. induction folders as [|folder folders IH]; intros acc; simpl; [auto|].
  intros H. apply IH in H. destruct H as [H|H]; [auto|].
  apply acquisition_step_keys in H. destruct H as [H|H]; auto.
Qed.

(** Every folder of the index is a sub-directory of the session: its path is
    not empty, so it is truthy at line 138. *)
Lemma acquisition_keys (session : str) (w : world) (k : str) :
  In k (map fst (fst (get_dicom_acquisition_times session w))) -> k <> [].
Proof.
  unfold get_dicom_acquisition_times.
  destruct (fold_left _ _ _) as [acq log] eqn:E. cbn [fst].
  intros H. replace acq with (fst (acq, log)) in H by reflexivity.
  rewrite <- E in H. apply acquisition_fold_keys in H.
  destruct H as [H|[]]. apply glob_subdirs_listed in H. tauto.
Qed.

Lemma acquisition_keys_isdir (session : str) (w : world) (k : str) :
  In k (map fst (fst (get_dicom_acquisition_times session w))) ->
  isdir (wfs w) k = true.
Proof.
  unfold get_dicom_acquisition_times.
  destruct (fold_left _ _ _) as [acq log] eqn:E. cbn [fst].
  intros H. replace acq with (fst (acq, log)) in H by reflexivity.
  rewrite <- E in H. apply acquisition_fold_keys in H.
  destruct H as [H|[]]. apply glob_subdirs_listed in H. tauto.
Qed.

Section RelocationFacts.

Variable io_fault : fs_op -> bool.

(** *** The relocation loop *)

Lemma close_match_nearest (acq : list (str * datetime)) (rrdf_time : datetime)
    (folder : str) (time : datetime) :
  (forall e, In e acq -> fst e <> []) ->
  In (folder, time) acq ->
  (forall e, In e acq -> fst e <> folder ->
             time_diff rrdf_time (folder, time) < time_diff rrdf_time e) ->
  time_diff rrdf_time (folder, time) < td_minutes 1 ->
  close_match acq rrdf_time = Some folder.
Proof.
  intros Hkeys Hin Hnear Hlt.
  destruct (close_match_within acq rrdf_time Hkeys) as [folder' Hc]; [eauto|].
  rewrite Hc. f_equal.
  destruct (close_match_some _ _ _ Hc) as (time' & Hin' & _ & Hmin).
  destruct (list_eq_dec ascii_dec folder' folder) as [E|E]; [exact E|].
  pose proof (Hnear _ Hin' E) as H1. pose proof (Hmin _ Hin) as H2. lia.
Qed.

(** C1, as the code has it.  For a raw file of the index, whatever the state
    when its turn comes, the step decides for a folder if and only if some
    acquisition folder is strictly within one minute.  When one is, the step
    runs the move and rename for a folder of the index that is as near as
    any, and the file arrives there as [<folder>.h5] unless the move or the
    rename fails, which is reported.  When no folder is strictly within one
    minute, the step prints the warning and nothing else: the file system is
    as it was. *)
Theorem relocate_step_within_tolerance (session : str) (w0 w : world)
    (rrdf_path : str) (rrdf_time : datetime) :
  let acq := fst (get_dicom_acquisition_times session w0) in
  let w' := relocate_step io_fault acq w (rrdf_path, rrdf_time) in
  ((exists folder, close_match acq rrdf_time = Some folder) <->
   (exists e, In e acq /\ time_diff rrdf_time e < td_minutes 1))
  /\
  ((exists e, In e acq /\ time_diff rrdf_time e < td_minutes 1) ->
   exists folder time,
     In (folder, time) acq /\
     time_diff rrdf_time (folder, time) < td_minutes 1 /\
     (forall e, In e acq ->
                time_diff rrdf_time (folder, time) <= time_diff rrdf_time e) /\
     w' = move_and_rename io_fault rrdf_path folder w /\
     (forall st1 st2,
         isdir (wfs w) folder = true ->
         shutil_move io_fault rrdf_path folder (wfs w) = Ok st1 ->
         os_rename io_fault (join folder (basename rrdf_path)) (h5_path folder) st1
           = Ok st2 ->
         exists f, dict_get rrdf_path (files (wfs w)) = Some f /\
                   dict_get (h5_path folder) (files (wfs w')) = Some f) /\
     (forall e,
         shutil_move io_fault rrdf_path folder (wfs w) = Raise e ->
         w' = mkworld (wfs w)
                (wlog w ++ [MatchFound (basename rrdf_path)
                                       (basename (normpath folder));
                            ErrMoveRename e])) /\
     (forall st1 e,
         shutil_move io_fault rrdf_path folder (wfs w) = Ok st1 ->
         os_rename io_fault (join folder (basename rrdf_path)) (h5_path folder) st1
           = Raise e ->
         w' = mkworld st1
                (wlog w ++ [MatchFound (basename rrdf_path)
                                       (basename (normpath folder));
                            Renaming (basename rrdf_path)
                                     (basename (normpath folder) ++ ".h5");
                            ErrMoveRename e])))
  /\
  ((forall e, In e acq -> td_minutes 1 <= time_diff rrdf_time e) ->
   w' = mkworld (wfs w) (wlog w ++ [WarnNoCloseMatch (basename rrdf_path)])).
Proof.
  intros acq w'.
  assert (forall e, In e acq -> fst e <> []) as Hkeys.
  { intros e He. apply (acquisition_keys session w0 (fst e)).
    apply in_map. exact He. }
  split; [|split].
  - split.
    + intros [folder Hc].
      destruct (close_match_some _ _ _ Hc) as (time & Hin & Hlt & _). eauto.
    + apply close_match_within, Hkeys.
  - intros Hwithin.
    destruct (close_match_within acq rrdf_time Hkeys Hwithin) as [folder Hc].
    destruct (close_match_some _ _ _ Hc) as (time & Hin & Hlt & Hmin).
    assert (w' = move_and_rename io_fault rrdf_path folder w) as Hw'
      by (subst w'; unfold relocate_step; rewrite Hc; reflexivity).
    exists folder, time. repeat split; auto.
    + intros st1 st2 Hdir Hmove Hren.
      destruct (relocation_result io_fault rrdf_path folder w st1 st2 Hdir Hmove Hren)
        as (_ & f & Hf & _ & _ & Hfinal).
      exists f. rewrite Hw'. auto.
    + intros e Hmove. rewrite Hw'. unfold move_and_rename. cbv zeta.
      change (wfs (print _ w)) with (wfs w). rewrite Hmove.
      unfold print. cbn [wfs wlog]. rewrite <- app_assoc. reflexivity.
    + intros st1 e Hmove Hren. rewrite Hw'. unfold move_and_rename. cbv zeta.
      change (wfs (print _ w)) with (wfs w). rewrite Hmove.
      change (wfs (print _ (with_fs st1 _))) with st1.
      fold (h5_path folder). rewrite Hren.
      unfold print, with_fs. cbn [wfs wlog]. rewrite <- !app_assoc. reflexivity.
  - intros Hfar. subst w'. unfold relocate_step.
    rewrite (close_match_none acq rrdf_time Hfar). reflexivity.
Qed.

(** X22. The index of acquisition folders is built once and every raw file
    is matched against all of it.  When one folder is the nearest for two
    raw files of the index and strictly within one minute of both, both are
    matched to it and the loop runs the move and rename into it for each of
    them in turn; whether a file arrives is then up to the move and the
    rename. *)
Theorem relocate_same_folder_twice (temp session : str) (w : world)
    (before between after : list (str * datetime))
    (p1 p2 folder : str) (t1 t2 time : datetime) :
  let acq_w := get_dicom_acquisition_times session (print StartRelocation w) in
  let acq := fst acq_w in
  let step := relocate_step io_fault acq in
  parse_rrdf_timestamps (wfs (snd acq_w)) temp =
    Ok (before ++ (p1, t1) :: between ++ (p2, t2) :: after) ->
  In (folder, time) acq ->
  (forall e, In e acq -> fst e <> folder ->
             time_diff t1 (folder, time) < time_diff t1 e) ->
  (forall e, In e acq -> fst e <> folder ->
             time_diff t2 (folder, time) < time_diff t2 e) ->
  time_diff t1 (folder, time) < td_minutes 1 ->
  time_diff t2 (folder, time) < td_minutes 1 ->
  close_match acq t1 = Some folder /\
  close_match acq t2 = Some folder /\
  relocate_rrdf_files_by_time io_fault temp session w =
    (fold_left step after
       (move_and_rename io_fault p2 folder
          (fold_left step between
             (move_and_rename io_fault p1 folder
                (fold_left step before (snd acq_w))))),
     None).
Proof.
  intros acq_w acq step Hparse Hin Hn1 Hn2 Hl1 Hl2.
  assert (forall e, In e acq -> fst e <> []) as Hkeys.
  { intros e He. apply (acquisition_keys session (print StartRelocation w) (fst e)).
    apply in_map. exact He. }
  pose proof (close_match_nearest acq t1 folder time Hkeys Hin Hn1 Hl1) as Hc1.
  pose proof (close_match_nearest acq t2 folder time Hkeys Hin Hn2 Hl2) as Hc2.
  split; [exact Hc1|]. split; [exact Hc2|].
  unfold relocate_rrdf_files_by_time. fold acq_w.
  destruct acq_w as [acq' w1] eqn:E. simpl in acq. subst acq. simpl in Hparse.
  cbn [snd]. rewrite Hparse.
  rewrite fold_left_app. cbn [fold_left].
  rewrite fold_left_app. cbn [fold_left].
  assert (forall w0 p, step w0 (p, t1) = move_and_rename io_fault p folder w0) as Hs1
    by (intros; unfold step, relocate_step; rewrite Hc1; reflexivity).
  assert (forall w0 p, step w0 (p, t2) = move_and_rename io_fault p folder w0) as Hs2
    by (intros; unfold step, relocate_step; rewrite Hc2; reflexivity).
  rewrite Hs1, Hs2. reflexivity.
Qed.

(** The index of acquisition folders is built without touching a file. *)
Lemma acquisition_index_reads_only (session : str) (w : world) :
  wfs (snd (get_dicom_acquisition_times session w)) = wfs w.
Proof.
  unfold get_dicom_acquisition_times.
  destruct (fold_left _ _ _) as [acq log]. reflexivity.
Qed.

(** A raw file whose digits are no date ends the relocation with the
    [ValueError] of [strptime], before any file is moved. *)
Lemma invalid_stamp_stops_relocation (temp session : str) (w : world) :
  (exists path, In path (glob_files (wfs w) (join temp "*.h5")) /\
                stamp_time path = Some None) ->
  let res := relocate_rrdf_files_by_time io_fault temp session w in
  snd res = Some ValueError /\ wfs (fst res) = wfs w.
Proof.
  intros Hbad res. subst res. unfold relocate_rrdf_files_by_time.
  pose proof (acquisition_index_reads_only session (print StartRelocation w)) as Hfs.
  destruct (get_dicom_acquisition_times session (print StartRelocation w))
    as [acq w1]. cbn [snd] in Hfs.
  unfold parse_rrdf_timestamps. rewrite Hfs. cbn [print wfs].
  rewrite parse_rrdf_loop_raises by exact Hbad.
  split; [reflexivity | exact Hfs].
Qed.

End RelocationFacts.

(** *** The runs of the sample data *)

Lemma ends_with_stamp_suffix (name : str) :
  ends_with_stamp name ->
  match_stamp "_" ".h5" (skipn (List.length name - 19) name) <> None.
Proof.
  intros (pre & d & t & -> & Hd & Ht).
  assert (List.length (list_ascii_of_string "_" ++ d ++ "_" ++ t ++ ".h5") = 19%nat) as Hlen.
  { destruct Hd as [Hd _], Ht as [Ht _].
    rewrite !length_app, Hd, Ht. reflexivity. }
  set (s := list_ascii_of_string "_" ++ d ++ "_" ++ t ++ ".h5") in *.
  assert (skipn (List.length (pre ++ s) - 19) (pre ++ s) = s) as ->.
  { rewrite length_app, Hlen, Nat.add_sub, skipn_app, Nat.sub_diag, skipn_all.
    reflexivity. }
  assert (match_stamp "_" ".h5" s = Some (d, t)) as ->.
  { apply match_stamp_spec. exists []. subst s. rewrite app_nil_r. auto. }
  discriminate.
Qed.


(** C1, counterexample.  The raw file is two seconds from the only
    acquisition folder, but the folder already holds an entry of the same
    name: the move raises, the error is reported, and the file system is as
    it was, the raw file still in the download directory. *)
Lemma relocation_within_tolerance_can_fail :
  let w := mkworld fs_name_taken [] in
  let raw : str := download_dir ++ "/scan_20240601_090030.h5" in
  let folder : str := session_dir ++ "/t1_series/" in
  let w' := fst (relocate_rrdf_files_by_time no_fault download_dir session_dir w) in
  parse_rrdf_timestamps fs_name_taken download_dir = Ok [(raw, t_090030)] /\
  fst (get_dicom_acquisition_times session_dir (print StartRelocation w))
    = [(folder, t_090032)] /\
  time_diff t_090030 (folder, t_090032) = td_seconds 2 /\
  td_seconds 2 < td_minutes 1 /\
  wfs w' = fs_name_taken /\
  dict_get raw (files (wfs w')) = Some (raw_file 1) /\
  wlog w' = [StartRelocation;
             MatchFound "scan_20240601_090030.h5" "t1_series";
             ErrMoveRename ShutilError].
Proof. vm_compute. repeat split; reflexivity. Qed.

(** C2, at the failing input.  One raw file carries month 13: [strptime]
    raises in [parse_rrdf_timestamps], nothing catches it, and the relocation
    ends with the exception before any file is looked at: the valid raw file
    next to it, two seconds from a folder, is not moved either. *)
Theorem parse_failure_stops_relocation :
  let w := mkworld fs_bad_date [] in
  let valid : str := download_dir ++ "/scan_20240601_090030.h5" in
  stamp_time (download_dir ++ "/scan_20241301_090030.h5") = Some None /\
  stamp_time valid = Some (Some t_090030) /\
  close_match
    (fst (get_dicom_acquisition_times session_dir (print StartRelocation w)))
    t_090030 = Some (session_dir ++ "/t1_series/" : str) /\
  parse_rrdf_timestamps fs_bad_date download_dir = Raise ValueError /\
  relocate_rrdf_files_by_time no_fault download_dir session_dir w
    = (mkworld fs_bad_date [StartRelocation], Some ValueError).
Proof. vm_compute. repeat split; reflexivity. Qed.

(** C3, counterexample.  The name holds the pattern in its middle and ends
    in [.h5]: the index takes it, with the time of the middle, although the
    name does not end with the pattern. *)
Lemma unanchored_name_indexed :
  let path : str := download_dir ++ "/scan_20240115_143022.h5.bak.h5" in
  parse_rrdf_timestamps fs_unanchored download_dir
    = Ok [(path, mkdt 2024 1 15 14 30 22 0)] /\
  ~ ends_with_stamp (PosixPath.basename path).
Proof.
  split; [vm_compute; reflexivity|].
  intros H. apply ends_with_stamp_suffix in H. apply H. vm_compute. reflexivity.
Qed.

(** C5, at the failing input.  Two files with content times that are read
    and differ; the later one is already named
    [calipr_series_protonDensity.dcm].  The first rename puts the earlier
    file over it and the second rename moves that same file on: the earlier
    file ends as the T2 map, not as the proton-density file, the later file
    is gone, and no error is reported. *)
Lemma calipr_later_file_overwritten :
  let earlier : str := session_dir ++ "/calipr_series/im1.dcm" in
  let later : str := session_dir ++ "/calipr_series/calipr_series_protonDensity.dcm" in
  let w' := rename_calipr_dicom_files no_fault calipr_dir (mkworld fs_calipr_taken []) in
  glob_files fs_calipr_taken (PosixPath.join calipr_dir "*.dcm") = [earlier; later] /\
  read_content_times fs_calipr_taken [earlier; later]
    = Ok [(earlier, (143015 # 1)%Q); (later, (1430225 # 10)%Q)] /\
  files (wfs w')
    = [(T2map_path calipr_dir, dicom_file 1 "20240601090032.000000" (143015 # 1))] /\
  dict_get (protonDensity_path calipr_dir) (files (wfs w')) = None /\
  wlog w' = [CaliprStart "calipr_series";
             RenamingProtonDensity "calipr_series_protonDensity.dcm";
             RenamingT2map "calipr_series_T2map.dcm"].
Proof. vm_compute. repeat split; reflexivity. Qed.

(** C7, counterexample.  A byte above 127 anywhere in the listing makes the
    decoding raise, and a qualifying line with fewer than seven fields makes
    the parser raise, instead of returning; and when two qualifying lines end
    in the same word, the later line's time replaces the earlier one's, so
    the name returned, [rrdf_2], is that of a line whose time is below the
    time of another qualifying line. *)
Lemma listing_parser_not_total_nor_max :
  get_latest_exam_folder listing_latin1 = Raise UnicodeDecodeError /\
  get_latest_exam_folder listing_short = Raise IndexError /\
  get_latest_exam_folder listing_same_name = Ok (Some ("rrdf_2" : str)) /\
  listing_entries (split_on "010"%char listing_same_name)
    = [("copy" : str, mkdt 2024 1 3 10 0 0 0);
       ("rrdf_2" : str, mkdt 2024 1 2 10 0 0 0);
       ("copy" : str, mkdt 2024 1 1 10 0 0 0)] /\
  DateTime.lt (mkdt 2024 1 2 10 0 0 0) (mkdt 2024 1 3 10 0 0 0) = true.
Proof. vm_compute. repeat split; reflexivity. Qed.

(** C9, at the failing input.  Both raw files are nearest to the one
    folder, two seconds and one second away, and both are matched to it.
    Both moves and both renames go through and nothing is reported, but the
    two files are renamed to the one name [t1_series.h5]: the second takes
    the place of the first, whose content is then under no path at all.  Of
    the two raw files only one is in the folder. *)
Theorem second_file_replaces_first :
  let w := mkworld fs_pair [] in
  let first : str := download_dir ++ "/a_20240601_090030.h5" in
  let second : str := download_dir ++ "/b_20240601_090031.h5" in
  let folder : str := session_dir ++ "/t1_series/" in
  let acq :=
    fst (get_dicom_acquisition_times session_dir (print StartRelocation w)) in
  let w' := fst (relocate_rrdf_files_by_time no_fault download_dir session_dir w) in
  parse_rrdf_timestamps fs_pair download_dir
    = Ok [(first, t_090030); (second, t_090031)] /\
  acq = [(folder, t_090032)] /\
  close_match acq t_090030 = Some folder /\
  close_match acq t_090031 = Some folder /\
  dict_get first (files fs_pair) = Some (raw_file 1) /\
  dict_get second (files fs_pair) = Some (raw_file 2) /\
  files (wfs w')
    = [(h5_path folder, raw_file 2);
       ((session_dir ++ "/t1_series/im1.dcm") : str,
        dicom_file 3 "20240601090032.000000" (900312 # 10))] /\
  (forall path, dict_get path (files (wfs w')) <> Some (raw_file 1)) /\
  wlog w' = [StartRelocation;
             MatchFound "a_20240601_090030.h5" "t1_series";
             Renaming "a_20240601_090030.h5" "t1_series.h5";
             MatchFound "b_20240601_090031.h5" "t1_series";
             Renaming "b_20240601_090031.h5" "t1_series.h5"].
Proof.
  cbv zeta.
  assert (files (wfs (fst (relocate_rrdf_files_by_time no_fault download_dir
                             session_dir (mkworld fs_pair []))))
          = [(h5_path (session_dir ++ "/t1_series/"), raw_file 2);
             ((session_dir ++ "/t1_series/im1.dcm") : str,
              dicom_file 3 "20240601090032.000000" (900312 # 10))]) as Hfiles
    by (vm_compute; reflexivity).
  repeat split; try (vm_compute; reflexivity); try exact Hfiles.
  intros path. rewrite Hfiles. cbn [dict_get].
  destruct (str_eqb _ path); [discriminate|].
  destruct (str_eqb _ path); discriminate.
Qed.

(** Two raw files for one folder, when the second is named like the folder.
    Both raw files are nearest to the one folder, two seconds and one second
    away.  The first is moved in and renamed [scan_20240601_090031.h5]; the
    second bears that name already, so its move raises and it stays in the
    download directory. *)
Lemma second_file_not_relocated :
  let w := mkworld fs_twins [] in
  let first : str := download_dir ++ "/pre_20240601_090030.h5" in
  let second : str := download_dir ++ "/scan_20240601_090031.h5" in
  let folder : str := session_dir ++ "/scan_20240601_090031/" in
  let w' := fst (relocate_rrdf_files_by_time no_fault download_dir session_dir w) in
  parse_rrdf_timestamps fs_twins download_dir
    = Ok [(first, t_090030); (second, t_090031)] /\
  fst (get_dicom_acquisition_times session_dir (print StartRelocation w))
    = [(folder, t_090032)] /\
  time_diff t_090030 (folder, t_090032) = td_seconds 2 /\
  time_diff t_090031 (folder, t_090032) = td_seconds 1 /\
  td_seconds 2 < td_minutes 1 /\
  dict_get (h5_path folder) (files (wfs w')) = Some (raw_file 1) /\
  dict_get second (files (wfs w')) = Some (raw_file 2) /\
  wlog w' = [StartRelocation;
             MatchFound "pre_20240601_090030.h5" "scan_20240601_090031";
             Renaming "pre_20240601_090030.h5" "scan_20240601_090031.h5";
             MatchFound "scan_20240601_090031.h5" "scan_20240601_090031";
             ErrMoveRename ShutilError].
Proof. vm_compute. repeat split; reflexivity. Qed.

(** *** The theorems at the sample data *)


(** C1 at the end-to-end scenario: the raw file is two seconds from the
    CALIPR folder. *)
Lemma relocate_step_within_tolerance_witness :
  let w := mkworld fs_scenario [StartRelocation] in
  exists folder,
    relocate_step no_fault (fst (get_dicom_acquisition_times session_dir w)) w
                  (scenario_raw, t_090030)
    = move_and_rename no_fault scenario_raw folder w.
Proof.
  intros w.
  destruct (proj1 (proj2 (relocate_step_within_tolerance
                            no_fault session_dir w w scenario_raw t_090030)))
    as (folder & time & _ & _ & _ & H & _).
  - exists (calipr_dir, t_090032). split; vm_compute; [left|]; reflexivity.
  - exists folder. exact H.
Defined.

(** C3 at the end-to-end scenario: the one raw file carries a valid date. *)
Lemma parse_rrdf_timestamps_index_witness :
  exists rrdf_times,
    parse_rrdf_timestamps fs_scenario download_dir = Ok rrdf_times /\
    NoDup (map fst rrdf_times).
Proof.
  destruct (parse_rrdf_timestamps_index fs_scenario download_dir)
    as (rrdf_times & H & Hnd & _).
  - intros path d t Hin Hl. vm_compute in Hin. destruct Hin as [<-|[]].
    apply search_stamp_some in Hl. vm_compute in Hl. injection Hl as <- <-.
    vm_compute. discriminate.
  - exists rrdf_times. split; assumption.
Defined.

(** C4 at the end-to-end scenario: the move and the rename go through. *)
Lemma relocated_file_name_witness :
  PosixPath.basename (h5_path calipr_dir) = "calipr_series.h5".
Proof.
  pose (st1 := match shutil_move no_fault scenario_raw calipr_dir fs_scenario with
               | Ok st => st
               | Raise _ => fs_scenario
               end).
  pose (st2 := match os_rename no_fault
                       (PosixPath.join calipr_dir (PosixPath.basename scenario_raw))
                       (h5_path calipr_dir) st1 with
               | Ok st => st
               | Raise _ => st1
               end).
  destruct (relocated_file_name no_fault scenario_raw calipr_dir
              (mkworld fs_scenario []) st1 st2) as [H _];
    [vm_compute; reflexivity .. |].
  rewrite H. vm_compute. reflexivity.
Defined.

(** X21 at the end-to-end scenario: the listing has the later file first. *)
Lemma rename_calipr_roles_witness :
  let w' := rename_calipr_dicom_files no_fault calipr_dir (mkworld fs_scenario []) in
  dict_get (protonDensity_path calipr_dir) (files (wfs w'))
    = Some (dicom_file 3 "20240601090032.000000" (900312 # 10)) /\
  dict_get (T2map_path calipr_dir) (files (wfs w'))
    = Some (dicom_file 2 "20240601090032.000000" (900338 # 10)).
Proof.
  destruct (rename_calipr_roles no_fault calipr_dir (mkworld fs_scenario [])
              scenario_im1 scenario_im2
              (dicom_file 3 "20240601090032.000000" (900312 # 10))
              (dicom_file 2 "20240601090032.000000" (900338 # 10))
              (900312 # 10) (900338 # 10))
    as (H1 & H2 & _);
    [right; vm_compute; reflexivity
    | first [vm_compute; reflexivity
            | intros E; vm_compute in E; discriminate E] .. |].
  split; assumption.
Defined.

(** C6 at a folder with three files. *)
Lemma rename_calipr_wrong_count_witness :
  wfs (rename_calipr_dicom_files no_fault calipr_dir (mkworld fs_calipr_three []))
  = fs_calipr_three.
Proof.
  rewrite rename_calipr_wrong_count; [reflexivity|].
  vm_compute. discriminate.
Defined.

(** C7 at a listing of two exam folders. *)
Lemma get_latest_exam_folder_max_witness :
  exists name, get_latest_exam_folder listing_two = Ok (Some name).
Proof.
  destruct (get_latest_exam_folder_max listing_two) as [_ H].
  - vm_compute. reflexivity.
  - intros line Hin Hq. vm_compute in Hin.
    destruct Hin as [<-|[<-|[<-|[<-|[]]]]];
      try (vm_compute in Hq; discriminate Hq);
      eexists; vm_compute; reflexivity.
  - vm_compute. constructor; [|constructor; [intros [] | constructor]].
    intros [E|[]]. discriminate E.
  - destruct H as (line & name & time & _ & _ & _ & Hr & _).
    + exists ("drwxr-xr-x 2 rrdf rrdf 4096 2024-01-16 09:00:00.000000000 +0000 rrdf_20240116_090000" : str).
      split; vm_compute; [right; right; left|]; reflexivity.
    + exists name. exact Hr.
Defined.

(** C8 at the name [rrdf_20240115_143022]. *)
Lemma find_dicom_session_path_resolves_witness :
  exists target, target_session_name "rrdf_20240115_143022" = Some target.
Proof.
  destruct (proj1 (find_dicom_session_path_resolves [] "rrdf_20240115_143022"))
    as (y1 & y2 & y3 & y4 & m1 & m2 & d1 & d2 & h1 & h2 & n1 & n2 & s1 & s2 & H).
  - exists [], ("rrdf_20240115_143022" : str), ("20240115" : str), ("143022" : str).
    split; [reflexivity|]. exists []. repeat split; reflexivity.
  - cbv zeta in H. destruct H as (_ & H & _). eexists. exact H.
Defined.

(** X22 at two raw files one and two seconds from the one folder. *)
Lemma relocate_same_folder_twice_witness :
  let acq := fst (get_dicom_acquisition_times
                    session_dir (print StartRelocation (mkworld fs_twins []))) in
  close_match acq t_090030 = Some (session_dir ++ "/scan_20240601_090031/" : str) /\
  close_match acq t_090031 = Some (session_dir ++ "/scan_20240601_090031/" : str).
Proof.
  intros acq.
  destruct (relocate_same_folder_twice no_fault download_dir session_dir
              (mkworld fs_twins []) [] [] []
              (download_dir ++ "/pre_20240601_090030.h5")
              (download_dir ++ "/scan_20240601_090031.h5")
              (session_dir ++ "/scan_20240601_090031/")
              t_090030 t_090031 t_090032) as (H1 & H2 & _).
  - vm_compute. reflexivity.
  - vm_compute. left. reflexivity.
  - intros e He Hne. vm_compute in He. destruct He as [<-|[]].
    exfalso. apply Hne. vm_compute. reflexivity.
  - intros e He Hne. vm_compute in He. destruct He as [<-|[]].
    exfalso. apply Hne. vm_compute. reflexivity.
  - vm_compute. reflexivity.
  - vm_compute. reflexivity.
  - split; assumption.
Defined.

(** C10 at a folder whose second file has no readable content time. *)
Lemma rename_calipr_read_failure_witness :
  wfs (rename_calipr_dicom_files no_fault calipr_dir (mkworld fs_calipr_unreadable []))
  = fs_calipr_unreadable.
Proof.
  rewrite (proj1 (rename_calipr_read_failure no_fault calipr_dir
                    (mkworld fs_calipr_unreadable []))).
  - reflexivity.
  - exists scenario_im2. split; vm_compute; [right; left|]; reflexivity.
  - vm_compute. reflexivity.
Defined.

(** *** The model on small inputs *)

Example join_plain : PosixPath.join "/tmp/x" "a.h5" = "/tmp/x/a.h5".
Proof. reflexivity. Qed.

Example join_after_slash : PosixPath.join "s/acq/" "a.h5" = "s/acq/a.h5".
Proof. reflexivity. Qed.

Example join_absolute : PosixPath.join "s/acq" "/a.h5" = "/a.h5".
Proof. reflexivity. Qed.

Example basename_of_folder :
  PosixPath.basename (PosixPath.normpath "s/calipr_1/") = "calipr_1".
Proof. reflexivity. Qed.

Example normpath_dots : PosixPath.normpath "//a/./b/../c//" = "//a/c".
Proof. reflexivity. Qed.

Example split_ws_runs : split_ws "  ab   c d " = ["ab" : str; "c" : str; "d" : str].
Proof. reflexivity. Qed.

Example strptime_compact :
  strptime fmt_compact "20240115143022" = Some (mkdt 2024 1 15 14 30 22 0).
Proof. reflexivity. Qed.

Example strptime_month_13 : strptime fmt_compact "20241301250000" = None.
Proof. reflexivity. Qed.

Example strptime_hour_25 : strptime fmt_compact "20240115250000" = None.
Proof. reflexivity. Qed.

Example strptime_february_30 : strptime fmt_compact "20240230120000" = None.
Proof. reflexivity. Qed.

Example strptime_fraction :
  strptime fmt_compact_frac "20240601090032.5" = Some (mkdt 2024 6 1 9 0 32 500000).
Proof. reflexivity. Qed.

Example strptime_listing :
  strptime fmt_listing "2024-01-15 14:30:22" = Some (mkdt 2024 1 15 14 30 22 0).
Proof. reflexivity. Qed.

Example ordinal_of_day : toordinal (mkdt 2024 1 15 0 0 0 0) = 738900.
Proof. reflexivity. Qed.

Example raw_file_stamp :
  stamp_time "/x/scan_20240115_143022.h5" = Some (Some (mkdt 2024 1 15 14 30 22 0)) /\
  stamp_time "/x/notes.h5" = None.
Proof. split; reflexivity. Qed.

Example latest_of_two :
  get_latest_exam_folder listing_two = Ok (Some ("rrdf_20240116_090000" : str)).
Proof. vm_compute. reflexivity. Qed.

Example empty_listing : get_latest_exam_folder [] = Ok None.
Proof. reflexivity. Qed.

(** The end-to-end scenario: the raw file moves into [calipr_series] as
    [calipr_series.h5], and the two DICOM files become the proton-density
    file (content time 090031.2) and the T2 map (content time 090033.8). *)
Example end_to_end_scenario :
  let res := relocate_rrdf_files_by_time no_fault download_dir session_dir
               (mkworld fs_scenario []) in
  snd res = None /\
  files (wfs (fst res))
    = [(h5_path calipr_dir, raw_file 1);
       (T2map_path calipr_dir,
        dicom_file 2 "20240601090032.000000" (900338 # 10));
       (protonDensity_path calipr_dir,
        dicom_file 3 "20240601090032.000000" (900312 # 10))] /\
  PosixPath.basename (h5_path calipr_dir) = "calipr_series.h5" /\
  PosixPath.basename (protonDensity_path calipr_dir)
    = "calipr_series_protonDensity.dcm" /\
  PosixPath.basename (T2map_path calipr_dir) = "calipr_series_T2map.dcm".
Proof. vm_compute. repeat split; reflexivity. Qed.

(** ** Further properties of the code *)

(** *** The matcher breaks ties by the order of the index *)

Lemma nearest_first (acq : list (str * datetime)) (rrdf_time : datetime)
    (folder : str) (mn : timedelta) :
  nearest acq rrdf_time = (Some folder, mn) ->
  exists before time after,
    acq = before ++ (folder, time) :: after /\
    mn = time_diff rrdf_time (folder, time) /\
    (forall e, In e before -> mn < time_diff rrdf_time e) /\
    (forall e, In e after -> mn <= time_diff rrdf_time e).
Proof.
  unfold nearest. revert folder mn.
  induction acq as [|e l IH] using rev_ind; intros folder mn.
  - discriminate.
  - rewrite fold_left_app. cbn [fold_left].
    destruct (nearest_fold rrdf_time l (None, td_days 1)) as (_ & Hall & _).
    destruct (fold_left (nearest_step rrdf_time) l (None, td_days 1)) as [b m] eqn:E.
    unfold nearest_step. cbn [snd fst]. fold (time_diff rrdf_time e).
    destruct (time_diff rrdf_time e <? m) eqn:Elt.
    + intros H. injection H as <- <-. apply Z.ltb_lt in Elt.
      exists l, (snd e), []. destruct e as [f t]. cbn [fst snd].
      repeat split; auto.
      * intros e' He'. specialize (Hall e' He'). cbn [snd] in Hall. lia.
      * intros e' [].
    + intros H. injection H as -> ->. apply Z.ltb_ge in Elt.
      destruct (IH folder mn eq_refl) as (before & time & after & Hl & Hm & Hb & Ha).
      exists before, time, (after ++ [e]). subst l. rewrite <- app_assoc.
      repeat split; auto.
      intros e' He'. apply in_app_or in He'. destruct He' as [He'|[<-|[]]]; auto.
Qed.

(** X1. Among the acquisition folders at the least distance from a raw file the
    one that comes first in the index is taken: every folder before it is
    strictly farther, every folder after it at least as far. *)
Theorem close_match_first_nearest (acq : list (str * datetime))
    (rrdf_time : datetime) (folder : str) :
  close_match acq rrdf_time = Some folder ->
  exists before time after,
    acq = before ++ (folder, time) :: after /\
    time_diff rrdf_time (folder, time) < td_minutes 1 /\
    (forall e, In e before ->
               time_diff rrdf_time (folder, time) < time_diff rrdf_time e) /\
    (forall e, In e after ->
               time_diff rrdf_time (folder, time) <= time_diff rrdf_time e).
Proof.
  unfold close_match.
  destruct (nearest acq rrdf_time) as [best mn] eqn:E.
  destruct best as [[|c f]|]; try discriminate.
  destruct (mn <? td_minutes 1) eqn:Elt; [|discriminate].
  intros H. injection H as <-. apply Z.ltb_lt in Elt.
  destruct (nearest_first acq rrdf_time _ _ E) as (before & time & after & Ha & Hm & Hb & Hf).
  exists before, time, after. subst mn. auto.
Qed.

(** *** The index of acquisition folders, entry by entry *)

Lemma dict_fold_entries {V} (value : str -> option V) (keys : list str)
    (acc : list (str * V)) :
  (forall k v, In (k, v) acc -> value k = Some v) ->
  NoDup (map fst acc) ->
  let res := fold_left (fun d k => match value k with
                                   | Some v => dict_set k v d
                                   | None => d
                                   end) keys acc in
  NoDup (map fst res) /\
  forall k v, In (k, v) res <->
              value k = Some v /\ (In k keys \/ In k (map fst acc)).
Proof.
  revert acc. induction keys as [|key keys IH]; intros acc Hacc Hnd; cbn [fold_left].
  - split; [exact Hnd|]. intros k v. split.
    + intros H. split; [auto|]. right. apply in_map_iff. exists (k, v). auto.
    + intros [Hv [[]|Hk]]. apply in_map_iff in Hk.
      destruct Hk as ([k' v'] & Hk & Hin). cbn [fst] in Hk. subst k'.
      pose proof (Hacc _ _ Hin) as Hv'. congruence.
  - destruct (value key) as [v0|] eqn:Ev.
    + destruct (IH (dict_set key v0 acc)) as [Hnd' Hiff].
      * intros k v Hin. apply dict_set_in in Hin.
        destruct Hin as [Hin|Hin]; [congruence | auto].
      * apply dict_set_nodup, Hnd.
      * split; [exact Hnd'|]. intros k v. rewrite Hiff, dict_set_keys.
        cbn [In]. intuition (subst; auto).
    + destruct (IH acc Hacc Hnd) as [Hnd' Hiff].
      split; [exact Hnd'|]. intros k v. rewrite Hiff. cbn [In]. split.
      * intuition.
      * intros [Hv [[<-|Hk]|Hk]]; auto. congruence.
Qed.

Lemma acquisition_step_index (st : fs) (acc : list (str * datetime) * list event)
    (folder : str) :
  fst (acquisition_step st acc folder) =
  match folder_time st folder with
  | Some time => dict_set folder time (fst acc)
  | None => fst acc
  end.
Proof.
  unfold acquisition_step, folder_time. destruct acc as [acq log].
  destruct (glob_files st _) as [|first rest]; [reflexivity|].
  destruct (obind (dict_get first (files st)) AcquisitionDateTime) as [text|];
    [|reflexivity].
  cbn [obind]. destruct (strptime fmt_compact_frac text); reflexivity.
Qed.

Lemma acquisition_fold_index (st : fs) (folders : list str)
    (acc : list (str * datetime) * list event) :
  fst (fold_left (acquisition_step st) folders acc) =
  fold_left (fun d k => match folder_time st k with
                        | Some v => dict_set k v d
                        | None => d
                        end) folders (fst acc).
Proof.
  revert acc. induction folders as [|folder folders IH]; intros acc; [reflexivity|].
  cbn [fold_left]. rewrite IH, acquisition_step_index. reflexivity.
Qed.

(** A warning of the index: about the first [*.dcm] file of a listed folder
    whose acquisition time could not be read. *)
Lemma acquisition_fold_log (st : fs) (folders : list str)
    (acc : list (str * datetime) * list event) :
  exists warnings,
    snd (fold_left (acquisition_step st) folders acc) = snd acc ++ warnings /\
    forall ev, In ev warnings ->
      exists folder first rest e,
        ev = WarnDicomMetadata first e /\ In folder folders /\
        glob_files st (join folder "*.dcm") = first :: rest /\
        folder_time st folder = None.
Proof.
  revert acc. induction folders as [|folder folders IH]; intros acc.
  - exists []. rewrite app_nil_r. split; [reflexivity | intros ? []].
  - cbn [fold_left].
    destruct (IH (acquisition_step st acc folder)) as (ws & Hlog & Hws).
    assert (exists w0,
               snd (acquisition_step st acc folder) = snd acc ++ w0 /\
               forall ev, In ev w0 ->
                 exists first rest e,
                   ev = WarnDicomMetadata first e /\
                   glob_files st (join folder "*.dcm") = first :: rest /\
                   folder_time st folder = None) as (w0 & Hw0 & Hev).
    { unfold acquisition_step, folder_time. destruct acc as [acq log].
      destruct (glob_files st _) as [|first rest].
      - exists []. rewrite app_nil_r. split; [reflexivity | intros ? []].
      - destruct (obind (dict_get first (files st)) AcquisitionDateTime) as [text|].
        + cbn [obind]. destruct (strptime fmt_compact_frac text).
          * exists []. rewrite app_nil_r. split; [reflexivity | intros ? []].
          * exists [WarnDicomMetadata first ValueError]. split; [reflexivity|].
            intros ev [<-|[]]. exists first, rest, ValueError. auto.
        + exists [WarnDicomMetadata first DicomError]. split; [reflexivity|].
          intros ev [<-|[]]. exists first, rest, DicomError. auto. }
    exists (w0 ++ ws). rewrite Hlog, Hw0, <- app_assoc. split; [reflexivity|].
    intros ev Hin. apply in_app_or in Hin. destruct Hin as [Hin|Hin].
    + destruct (Hev ev Hin) as (first & rest & e & H1 & H2 & H3).
      exists folder, first, rest, e. cbn [In]. auto.
    + destruct (Hws ev Hin) as (f & first & rest & e & H1 & H2 & H3 & H4).
      exists f, first, rest, e. cbn [In]. auto.
Qed.

(** X2. The index of acquisition folders holds exactly the listed sub-folders of
    the session whose first listed [*.dcm] file gives an acquisition time
    that parses, each once and with that time.  Building it never raises and
    never changes the file system; a folder without a [*.dcm] file is passed
    over without a word, and every line it prints is a warning about the
    first file of a listed folder whose time could not be read. *)
Theorem acquisition_index_entries (session : str) (w : world) :
  let listed := glob_subdirs (wfs w) (join session "*/") in
  let acq := fst (get_dicom_acquisition_times session w) in
  let w' := snd (get_dicom_acquisition_times session w) in
  NoDup (map fst acq) /\
  (forall folder time,
      In (folder, time) acq <->
      In folder listed /\
      exists first rest text,
        glob_files (wfs w) (join folder "*.dcm") = first :: rest /\
        obind (dict_get first (files (wfs w))) AcquisitionDateTime = Some text /\
        strptime fmt_compact_frac text = Some time) /\
  wfs w' = wfs w /\
  exists warnings,
    wlog w' = wlog w ++ warnings /\
    forall ev, In ev warnings ->
      exists folder first rest e,
        ev = WarnDicomMetadata first e /\ In folder listed /\
        glob_files (wfs w) (join folder "*.dcm") = first :: rest /\
        ~ In folder (map fst acq).
Proof.
  intros listed acq w'.
  assert (acq = fold_left (fun d k => match folder_time (wfs w) k with
                                      | Some v => dict_set k v d
                                      | None => d
                                      end) listed []) as Hacq.
  { subst acq. unfold get_dicom_acquisition_times. fold listed.
    pose proof (acquisition_fold_index (wfs w) listed ([], wlog w)) as H.
    change (fst (@nil (str * datetime), wlog w)) with (@nil (str * datetime)) in H.
    rewrite <- H.
    destruct (fold_left _ _ _). reflexivity. }
  destruct (dict_fold_entries (folder_time (wfs w)) listed []) as [Hnd Hiff].
  { intros k v []. }
  { constructor. }
  rewrite <- Hacq in Hnd, Hiff.
  assert (forall folder time,
             folder_time (wfs w) folder = Some time <->
             exists first rest text,
               glob_files (wfs w) (join folder "*.dcm") = first :: rest /\
               obind (dict_get first (files (wfs w))) AcquisitionDateTime = Some text /\
               strptime fmt_compact_frac text = Some time) as Hft.
  { intros folder time. unfold folder_time. split.
    - destruct (glob_files _ _) as [|first rest]; [discriminate|].
      destruct (obind (dict_get first _) _) as [text|] eqn:Et; [|discriminate].
      cbn [obind]. intros H. exists first, rest, text. repeat split; auto.
    - intros (first & rest & text & -> & -> & H). exact H. }
  split; [exact Hnd|]. split; [|split].
  - intros folder time. rewrite Hiff, Hft. cbn [map In]. intuition.
  - apply acquisition_index_reads_only.
  - destruct (acquisition_fold_log (wfs w) listed ([], wlog w)) as (ws & Hlog & Hws).
    exists ws. split.
    + subst w'. unfold get_dicom_acquisition_times. fold listed.
      revert Hlog.
      destruct (fold_left (acquisition_step (wfs w)) listed ([], wlog w)) as [a l].
      intros Hlog. exact Hlog.
    + intros ev Hin. destruct (Hws ev Hin) as (folder & first & rest & e & H1 & H2 & H3 & H4).
      exists folder, first, rest, e. repeat split; auto.
      intros Hk. apply in_map_iff in Hk. destruct Hk as ([k t] & Hk & Hin').
      cbn [fst] in Hk. subst k. apply Hiff in Hin'. destruct Hin' as [Hv _]. congruence.
Qed.

(** *** What the relocation never does *)

Lemma nothing_new_refl (st : fs) : nothing_new st st.
Proof. split; [reflexivity|]. split; [eauto | apply Nat.le_refl]. Qed.

Lemma nothing_new_trans (st1 st2 st3 : fs) :
  nothing_new st1 st2 -> nothing_new st2 st3 -> nothing_new st1 st3.
Proof.
  intros (Hd1 & Hf1 & Hl1) (Hd2 & Hf2 & Hl2). split; [congruence|]. split.
  - intros k f Hin. destruct (Hf2 k f Hin) as [k' Hin']. eauto.
  - eapply Nat.le_trans; eassumption.
Qed.

Lemma rebind_nothing_new (src dst : str) (l : list (str * file)) :
  (forall k f, In (k, f) (rebind src dst l) -> exists k', In (k', f) l) /\
  (List.length (rebind src dst l) <= List.length l)%nat.
Proof.
  unfold rebind. split.
  - intros k f Hin. apply in_map_iff in Hin. destruct Hin as ([k0 f0] & Heq & Hin).
    apply filter_In in Hin. destruct Hin as [Hin _].
    exists k0. destruct (str_eqb k0 src); injection Heq as <- <-; exact Hin.
  - rewrite length_map. apply filter_length_le.
Qed.

Lemma rename_file_nothing_new (src dst : str) (st st' : fs) :
  rename_file src dst st = Ok st' -> nothing_new st st'.
Proof.
  unfold rename_file.
  destruct (dict_get src (files st)); [|discriminate].
  destruct (endswith src "/"); [discriminate|].
  destruct (isdir st dst || endswith dst "/"); [discriminate|].
  destruct (negb (isdir st (fst (split dst)))); [discriminate|].
  destruct (str_eqb src dst); intros H; injection H as <-.
  - apply nothing_new_refl.
  - split; [reflexivity|]. apply rebind_nothing_new.
Qed.

Section Invariants.

Variable io_fault : fs_op -> bool.

Lemma os_rename_nothing_new (src dst : str) (st st' : fs) :
  os_rename io_fault src dst st = Ok st' -> nothing_new st st'.
Proof.
  unfold os_rename. destruct (io_fault _); [discriminate|].
  apply rename_file_nothing_new.
Qed.

Lemma rename_calipr_nothing_new (folder : str) (w : world) :
  nothing_new (wfs w) (wfs (rename_calipr_dicom_files io_fault folder w)).
Proof.
  unfold rename_calipr_dicom_files. cbv zeta.
  change (wfs (print _ w)) with (wfs w).
  destruct (negb _); [apply nothing_new_refl|].
  destruct (read_content_times _ _) as [file_times|e]; [|apply nothing_new_refl].
  change (wfs (print _ (print _ w))) with (wfs w).
  destruct (os_rename io_fault _ _ (wfs w)) as [st1|e1] eqn:E1;
    [|apply nothing_new_refl].
  apply os_rename_nothing_new in E1.
  change (wfs (print _ (with_fs st1 _))) with st1.
  destruct (os_rename io_fault _ _ st1) as [st2|e2] eqn:E2; [|exact E1].
  apply os_rename_nothing_new in E2.
  exact (nothing_new_trans _ _ _ E1 E2).
Qed.

(** X3. The CALIPR step creates and removes no directory, and it creates no
    file: whatever its outcome, every file that the folder and the rest of
    the file system hold after it was there before, under its name or
    another, and there are no more files than before. *)
Theorem rename_calipr_creates_nothing (folder : str) (w : world) :
  let w' := rename_calipr_dicom_files io_fault folder w in
  dirs (wfs w') = dirs (wfs w) /\
  (forall k f, In (k, f) (files (wfs w')) ->
               exists k', In (k', f) (files (wfs w))) /\
  (List.length (files (wfs w')) <= List.length (files (wfs w)))%nat.
Proof. exact (rename_calipr_nothing_new folder w). Qed.

(** X4. The relocation of one raw file into a folder leaves every other file
    where it was: a path other than the raw file's, the path it is moved to
    and the path it is renamed to keeps its file, unless the folder is a
    CALIPR folder and the path is that of a [*.dcm] file. *)
Theorem relocation_touches_nothing_else (p folder k : str) (w : world) :
  isdir (wfs w) folder = true ->
  k <> p ->
  k <> join folder (basename p) ->
  k <> h5_path folder ->
  contains "calipr" (lower (basename (normpath folder))) = false \/
  endswith (basename k) ".dcm" = false ->
  dict_get k (files (wfs (move_and_rename io_fault p folder w)))
  = dict_get k (files (wfs w)).
Proof.
  intros Hdir Hp Hm Hf Hc. unfold move_and_rename. cbv zeta.
  change (wfs (print _ w)) with (wfs w).
  destruct (shutil_move io_fault p folder (wfs w)) as [st1|e1] eqn:E1;
    [|reflexivity].
  destruct (shutil_move_ok io_fault _ _ _ _ Hdir E1) as [Hr1 _].
  destruct (rename_file_ok _ _ _ _ Hr1) as (_ & _ & _ & _ & _ & Hoth1).
  change (wfs (print _ (with_fs st1 _))) with st1.
  fold (h5_path folder).
  destruct (os_rename io_fault _ _ st1) as [st2|e2] eqn:E2.
  - apply os_rename_ok in E2.
    destruct (rename_file_ok _ _ _ _ E2) as (_ & _ & _ & _ & _ & Hoth2).
    assert (dict_get k (files st2) = dict_get k (files (wfs w))) as H2
      by (rewrite Hoth2, Hoth1; auto).
    destruct (contains "calipr" _) eqn:Ec; [|exact H2].
    destruct Hc as [Hc|Hc]; [discriminate|].
    rewrite (proj2 (rename_calipr_frame io_fault folder _) k Hc). exact H2.
  - cbn [print wfs]. apply Hoth1; auto.
Qed.

(** X5. When no acquisition folder is strictly within a minute of any raw file
    of the index, for one when the session has no folder with a readable
    acquisition time, the relocation returns normally, leaves the file
    system as it was and prints one warning for each raw file, in the order
    of the index. *)
Theorem relocation_without_close_match (temp session : str) (w : world)
    (rrdf_file_times : list (str * datetime)) :
  let acq_w := get_dicom_acquisition_times session (print StartRelocation w) in
  parse_rrdf_timestamps (wfs w) temp = Ok rrdf_file_times ->
  (forall raw e, In raw rrdf_file_times -> In e (fst acq_w) ->
                 td_minutes 1 <= time_diff (snd raw) e) ->
  relocate_rrdf_files_by_time io_fault temp session w =
    (mkworld (wfs w)
       (wlog (snd acq_w) ++
        map (fun raw => WarnNoCloseMatch (basename (fst raw))) rrdf_file_times),
     None).
Proof.
  intros acq_w Hparse Hfar. unfold relocate_rrdf_files_by_time. fold acq_w.
  pose proof (acquisition_index_reads_only session (print StartRelocation w)) as Hfs.
  fold acq_w in Hfs. change (wfs (print StartRelocation w)) with (wfs w) in Hfs.
  destruct acq_w as [acq w1]. cbn [fst snd] in *. rewrite Hfs, Hparse.
  f_equal. rewrite <- Hfs. clear Hparse Hfs.
  revert w1. induction rrdf_file_times as [|[p t] idx IH]; intros w1.
  - cbn. rewrite app_nil_r. destruct w1. reflexivity.
  - cbn [fold_left map]. unfold relocate_step at 2.
    rewrite close_match_none
      by (intros e He; apply (Hfar (p, t) e); [left; reflexivity | exact He]).
    rewrite IH by (intros raw e Hr He; apply Hfar; [right; exact Hr | exact He]).
    unfold print. cbn [wfs wlog fst]. rewrite <- app_assoc. reflexivity.
Qed.

End Invariants.

(** *** The listing parser *)

Lemma exam_folders_of_filter (lines : list str) (acc : list (str * datetime)) :
  exam_folders_of lines acc = exam_folders_of (filter qualifying lines) acc.
Proof.
  revert acc. induction lines as [|line lines IH]; intros acc; [reflexivity|].
  cbn [filter]. destruct (qualifying line) eqn:Eq; cbn [exam_folders_of].
  - destruct (exam_folder_step acc line) as [acc'|e]; cbn [bind]; auto.
  - unfold exam_folder_step. fold (qualifying line). rewrite Eq. cbn [bind].
    apply IH.
Qed.

(** X6. Once the listing is decoded, only the lines that hold [rrdf_] count:
    two listings whose bytes are all ASCII and that have the same such lines,
    in the same order, give the same result, be it a name, the absence marker
    or an exception. *)
Theorem listing_other_lines_ignored (stdout1 stdout2 : bytes) :
  forallb is_ascii stdout1 = true ->
  forallb is_ascii stdout2 = true ->
  filter qualifying (split_on "010"%char stdout1) =
  filter qualifying (split_on "010"%char stdout2) ->
  get_latest_exam_folder stdout1 = get_latest_exam_folder stdout2.
Proof.
  intros H1 H2 H.
  rewrite (get_latest_exam_folder_ascii _ H1), (get_latest_exam_folder_ascii _ H2).
  rewrite (exam_folders_of_filter (split_on _ stdout1)), H.
  rewrite <- exam_folders_of_filter. reflexivity.
Qed.

Lemma exam_folders_of_raises (lines : list str) (acc : list (str * datetime))
    (e : exn) :
  exam_folders_of lines acc = Raise e <->
  exists before line after,
    lines = before ++ line :: after /\
    (forall l, In l before -> qualifying l = true -> exists x, listing_entry l = Ok x) /\
    qualifying line = true /\ listing_entry line = Raise e.
Proof.
  revert acc. induction lines as [|line lines IH]; intros acc.
  - split; [discriminate|]. intros (before & l & after & H & _).
    destruct before; discriminate.
  - cbn [exam_folders_of]. unfold exam_folder_step. fold (qualifying line).
    destruct (qualifying line) eqn:Eq.
    + destruct (listing_entry line) as [entry|e0] eqn:El; cbn [bind].
      * rewrite IH. split.
        -- intros (before & l & after & -> & Hb & Hq & Hl).
           exists (line :: before), l, after. repeat split; auto.
           intros l0 [<-|Hin] Hq0; eauto.
        -- intros (before & l & after & H & Hb & Hq & Hl).
           destruct before as [|b before]; injection H as <- ->.
           ++ congruence.
           ++ exists before, l, after. repeat split; auto.
              intros l0 Hin. apply Hb. right. exact Hin.
      * split.
        -- intros H. injection H as ->. exists [], line, lines. repeat split; auto.
           intros l [].
        -- intros (before & l & after & H & Hb & Hq & Hl).
           destruct before as [|b before]; injection H as <- ->.
           ++ congruence.
           ++ destruct (Hb line (or_introl eq_refl) Eq) as [x Hx]. congruence.
    + cbn [bind]. rewrite IH. split.
      * intros (before & l & after & -> & Hb & Hq & Hl).
        exists (line :: before), l, after. repeat split; auto.
        intros l0 [<-|Hin] Hq0; [congruence | eauto].
      * intros (before & l & after & H & Hb & Hq & Hl).
        destruct before as [|b before]; injection H as <- ->.
        -- congruence.
        -- exists before, l, after. repeat split; auto.
           intros l0 Hin. apply Hb. right. exact Hin.
Qed.

(** X7. The listing parser raises in two cases and no other: with
    [UnicodeDecodeError] when a byte of the listing, on whatever line, is
    above 127; and, when the bytes are all ASCII, with the exception of the
    first qualifying line that does not parse. *)
Theorem get_latest_exam_folder_raises (stdout : bytes) (e : exn) :
  get_latest_exam_folder stdout = Raise e <->
  (forallb is_ascii stdout = false /\ e = UnicodeDecodeError) \/
  (forallb is_ascii stdout = true /\
   exists before line after,
     split_on "010"%char stdout = before ++ line :: after /\
     (forall l, In l before -> qualifying l = true ->
                exists x, listing_entry l = Ok x) /\
     qualifying line = true /\ listing_entry line = Raise e).
Proof.
  destruct (forallb is_ascii stdout) eqn:Ha.
  - rewrite (get_latest_exam_folder_ascii _ Ha).
    rewrite <- exam_folders_of_raises with (acc := []).
    destruct (exam_folders_of _ _) as [d|e0]; cbn [bind]; split.
    + discriminate.
    + intros [[H _]|[_ H]]; discriminate.
    + intros H. right. split; [reflexivity|]. congruence.
    + intros [[H _]|[_ H]]; [discriminate | congruence].
  - rewrite (get_latest_exam_folder_not_ascii _ Ha). split.
    + intros H. injection H as <-. left. auto.
    + intros [[_ ->]|[H _]]; [reflexivity | discriminate].
Qed.

Lemma index_ok {A} (l : list A) (i : nat) :
  match index l i with
  | Ok x => nth_error l i = Some x
  | Raise e => e = IndexError /\ (List.length l <= i)%nat
  end.
Proof.
  unfold index. destruct (nth_error l i) eqn:E; [reflexivity|].
  split; [reflexivity|]. apply nth_error_None. exact E.
Qed.

(** X8. A line raises [IndexError] exactly when it has fewer than seven
    whitespace-separated fields, and [ValueError] exactly when it has them
    and its sixth field, a space and its seventh field up to the first dot
    are not a date and time in the format [%Y-%m-%d %H:%M:%S]; no other
    exception leaves the parsing of a line. *)
Theorem listing_entry_raises (line : str) (e : exn) :
  listing_entry line = Raise e <->
  (e = IndexError /\ (List.length (split_ws line) < 7)%nat) \/
  (e = ValueError /\ exists date_str time_str,
      nth_error (split_ws line) 5 = Some date_str /\
      nth_error (split_ws line) 6 = Some time_str /\
      strptime fmt_listing
        (date_str ++ " " ++ hd [] (split_on "."%char time_str)) = None).
Proof.
  unfold listing_entry. cbv zeta.
  set (finfo := split_ws line).
  assert (match index_last finfo with
          | Ok _ => finfo <> []
          | Raise e => e = IndexError /\ finfo = []
          end) as Hlast.
  { unfold index_last. destruct (rev finfo) eqn:E.
    - split; [reflexivity|]. apply (f_equal (@rev _)) in E.
      rewrite rev_involutive in E. exact E.
    - intros ->. discriminate. }
  pose proof (index_ok finfo 5) as H5. pose proof (index_ok finfo 6) as H6.
  destruct (index_last finfo) as [folder_name|e0]; cbn [bind].
  - destruct (index finfo 5) as [date_str|e5]; cbn [bind].
    + destruct (index finfo 6) as [time_str|e6]; cbn [bind].
      * assert (6 < List.length finfo)%nat as Hlen
          by (apply nth_error_Some; congruence).
        destruct (strptime fmt_listing _) as [t|] eqn:Et.
        -- split; [discriminate|]. intros [[_ Hl]|[_ (d & t' & Hd & Ht & Hs)]].
           ++ lia.
           ++ congruence.
        -- split.
           ++ intros H. injection H as <-. right. split; [reflexivity|].
              exists date_str, time_str. auto.
           ++ intros [[_ Hl]|[-> _]]; [lia | reflexivity].
      * destruct H6 as [-> Hl]. split.
        -- intros H. injection H as <-. left. split; [reflexivity | lia].
        -- intros [[-> _]|[_ (d & t' & _ & Ht & _)]]; [reflexivity|].
           apply nth_error_None in Hl. congruence.
    + destruct H5 as [-> Hl]. split.
      * intros H. injection H as <-. left. split; [reflexivity | lia].
      * intros [[-> _]|[_ (d & t' & Hd & _ & _)]]; [reflexivity|].
        apply nth_error_None in Hl. congruence.
  - destruct Hlast as [-> Hl]. split.
    + intros H. injection H as <-. left. split; [reflexivity|]. rewrite Hl. cbn. lia.
    + intros [[-> _]|[_ (d & t' & Hd & _ & _)]]; [reflexivity|].
      rewrite Hl in Hd. discriminate.
Qed.

Lemma max_fold_below (r : list (str * datetime)) (b : str * datetime) (v : datetime) :
  DateTime.lt (snd b) v = true ->
  (forall e, In e r -> DateTime.lt (snd e) v = true) ->
  DateTime.lt (snd (fold_left max_step r b)) v = true.
Proof.
  revert b. induction r as [|e r IH]; intros b Hb Hr; [exact Hb|].
  cbn [fold_left]. apply IH.
  - unfold max_step. destruct (DateTime.lt (snd b) (snd e)); auto.
    apply Hr. left. reflexivity.
  - intros e' He'. apply Hr. right. exact He'.
Qed.

Lemma max_fold_stays (r : list (str * datetime)) (b : str * datetime) :
  (forall e, In e r -> DateTime.lt (snd b) (snd e) = false) ->
  fold_left max_step r b = b.
Proof.
  induction r as [|e r IH]; intros Hr; [reflexivity|].
  cbn [fold_left]. unfold max_step at 2. rewrite (Hr e (or_introl eq_refl)).
  apply IH. intros e' He'. apply Hr. right. exact He'.
Qed.

Lemma max_by_value_first (before after : list (str * datetime)) (k : str)
    (v : datetime) :
  (forall e, In e before -> DateTime.lt (snd e) v = true) ->
  (forall e, In e after -> DateTime.lt v (snd e) = false) ->
  max_by_value (before ++ (k, v) :: after) = Some k.
Proof.
  intros Hb Ha. destruct before as [|[k0 v0] before].
  - cbn [app]. rewrite max_by_value_fold, max_fold_stays by exact Ha. reflexivity.
  - cbn [app]. rewrite max_by_value_fold, fold_left_app. cbn [fold_left].
    pose proof (max_fold_below before (k0, v0) v
                  (Hb (k0, v0) (or_introl eq_refl))
                  (fun e He => Hb e (or_intror He))) as Hlt.
    unfold max_step at 2. cbn [snd] in Hlt |- *. rewrite Hlt.
    rewrite max_fold_stays by exact Ha. reflexivity.
Qed.

(** X9. Among the folders that share the latest time, the one listed first is
    returned: when the bytes of the listing are all ASCII, every qualifying
    line parses and no two of them end in the same name, the result is the
    name of the qualifying line whose time is above that of every qualifying
    line before it and not below that of any qualifying line after it. *)
Theorem get_latest_exam_folder_first_of_latest (stdout : bytes)
    (before after : list (str * datetime)) (name : str) (time : datetime) :
  let lines := split_on "010"%char stdout in
  forallb is_ascii stdout = true ->
  (forall line, In line lines -> qualifying line = true ->
                exists e, listing_entry line = Ok e) ->
  NoDup (map fst (listing_entries lines)) ->
  listing_entries lines = before ++ (name, time) :: after ->
  (forall e, In e before -> DateTime.lt (snd e) time = true) ->
  (forall e, In e after -> DateTime.lt time (snd e) = false) ->
  get_latest_exam_folder stdout = Ok (Some name).
Proof.
  intros lines Hascii Hwf Hnd Hsplit Hb Ha.
  rewrite (get_latest_exam_folder_ascii _ Hascii). fold lines.
  rewrite (exam_folders_of_entries lines [] Hwf). cbn [bind].
  rewrite fold_dict_set_fresh by exact Hnd. cbn [app].
  rewrite Hsplit, max_by_value_first by assumption. reflexivity.
Qed.

Lemma dict_get_set {V} (k k' : str) (v : V) (d : list (str * V)) :
  dict_get k' (dict_set k v d) = if str_eqb k k' then Some v else dict_get k' d.
Proof.
  induction d as [|[k0 v0] d IH]; cbn [dict_set dict_get].
  - destruct (str_eqb k k'); reflexivity.
  - destruct (str_eqb k0 k) eqn:E0; cbn [dict_get].
    + apply str_eqb_eq in E0. subst k0. destruct (str_eqb k k'); reflexivity.
    + rewrite IH. destruct (str_eqb k0 k') eqn:E1; [|reflexivity].
      apply str_eqb_eq in E1. subst k0.
      destruct (str_eqb k k') eqn:E2; [|reflexivity].
      apply str_eqb_eq in E2. subst k'. rewrite str_eqb_refl in E0. discriminate.
Qed.

Lemma dict_get_app {V} (k : str) (a b : list (str * V)) :
  dict_get k (a ++ b) =
  match dict_get k a with Some v => Some v | None => dict_get k b end.
Proof.
  induction a as [|[k0 v0] a IH]; cbn [app dict_get]; [reflexivity|].
  destruct (str_eqb k0 k); auto.
Qed.

Lemma dict_fold_get {V} (es acc : list (str * V)) (k : str) :
  dict_get k (fold_left (fun d e => dict_set (fst e) (snd e) d) es acc) =
  match dict_get k (rev es) with Some v => Some v | None => dict_get k acc end.
Proof.
  revert acc. induction es as [|[k0 v0] es IH]; intros acc; [reflexivity|].
  cbn [fold_left rev fst snd]. rewrite IH, dict_get_app, dict_get_set.
  cbn [dict_get]. destruct (dict_get k (rev es)); [reflexivity|].
  destruct (str_eqb k0 k); reflexivity.
Qed.

Lemma dict_fold_nodup {V} (es acc : list (str * V)) :
  NoDup (map fst acc) ->
  NoDup (map fst (fold_left (fun d e => dict_set (fst e) (snd e) d) es acc)).
Proof.
  revert acc. induction es as [|e es IH]; intros acc H; [exact H|].
  cbn [fold_left]. apply IH. apply dict_set_nodup. exact H.
Qed.

Lemma dict_in_get {V} (k : str) (v : V) (d : list (str * V)) :
  NoDup (map fst d) -> In (k, v) d -> dict_get k d = Some v.
Proof.
  induction d as [|[k0 v0] d IH]; intros Hnd Hin; [destruct Hin|].
  cbn [map fst] in Hnd. inversion Hnd as [|? ? Hk Hnd']. subst.
  cbn [dict_get]. destruct Hin as [Heq|Hin].
  - injection Heq as -> ->. rewrite str_eqb_refl. reflexivity.
  - destruct (str_eqb k0 k) eqn:E; [|auto].
    apply str_eqb_eq in E. subst k0. exfalso. apply Hk.
    apply in_map_iff. exists (k, v). auto.
Qed.

(** X10. When the bytes of the listing are all ASCII and every qualifying line
    parses, names may repeat: a name counts once, with the time of the last
    qualifying line that ends in it.  The parser returns a name whose time,
    so understood, is not below that of any name, and the absence marker
    exactly when no line qualifies. *)
Theorem get_latest_exam_folder_last_time (stdout : bytes) :
  let lines := split_on "010"%char stdout in
  forallb is_ascii stdout = true ->
  (forall line, In line lines -> qualifying line = true ->
                exists e, listing_entry line = Ok e) ->
  exists r, get_latest_exam_folder stdout = Ok r /\
    match r with
    | None => forall line, In line lines -> qualifying line = false
    | Some name =>
        exists time, listing_time lines name = Some time /\
          forall name' time', listing_time lines name' = Some time' ->
                              DateTime.lt time time' = false
    end.
Proof.
  intros lines Hascii Hwf. rewrite (get_latest_exam_folder_ascii _ Hascii).
  fold lines.
  rewrite (exam_folders_of_entries lines [] Hwf). cbn [bind].
  set (d := fold_left _ (listing_entries lines) []).
  exists (max_by_value d). split; [reflexivity|].
  assert (forall k, dict_get k d = listing_time lines k) as Hget.
  { intros k. unfold d, listing_time. rewrite dict_fold_get.
    destruct (dict_get k (rev _)); reflexivity. }
  assert (NoDup (map fst d)) as Hnd by (apply dict_fold_nodup; constructor).
  destruct d as [|[k0 v0] d'] eqn:Ed.
  - cbn [max_by_value]. intros line Hin.
    destruct (qualifying line) eqn:Eq; [|reflexivity]. exfalso.
    destruct (Hwf line Hin Eq) as [[n t] He].
    assert (In (n, t) (listing_entries lines)) as Hent.
    { unfold listing_entries. apply in_flat_map. exists line. split; [exact Hin|].
      rewrite Eq, He. left. reflexivity. }
    assert (listing_time lines n <> None) as Hsome.
    { unfold listing_time. apply in_rev in Hent. revert Hent.
      generalize (rev (listing_entries lines)). intros l.
      induction l as [|[k1 v1] l IH]; [intros []|].
      intros [Heq|Hl]; cbn [dict_get].
      - injection Heq as -> ->. rewrite str_eqb_refl. discriminate.
      - destruct (str_eqb k1 n); [discriminate | auto]. }
    rewrite <- Hget in Hsome. apply Hsome. reflexivity.
  - rewrite <- Ed in *.
    destruct (max_by_value_spec d) as (k & v & -> & Hin & Hmax);
      [rewrite Ed; discriminate|].
    exists v. split.
    + rewrite <- Hget. apply dict_in_get; assumption.
    + intros name' time' H'. rewrite <- Hget in H'. apply dict_get_in in H'.
      apply (Hmax (name', time') H').
Qed.

(** *** The session resolver *)

Lemma target_session_name_shape (name target : str) :
  target_session_name name = Some target ->
  exists y1 y2 y3 y4 m1 m2 d1 d2 h1 h2 n1 n2 s1 s2,
    re_search rrdf_folder_re name =
      Some ([y1; y2; y3; y4; m1; m2; d1; d2], [h1; h2; n1; n2; s1; s2]) /\
    forallb is_digit [y1; y2; y3; y4; m1; m2; d1; d2; h1; h2; n1; n2; s1; s2] = true /\
    target = [y1; y2; y3; y4; "-"%char; m1; m2; "-"%char; d1; d2; "_"%char;
              h1; h2; "_"%char; n1; n2; "_"%char; s1; s2].
Proof.
  unfold target_session_name.
  destruct (re_search rrdf_folder_re name) as [[d t]|] eqn:E; [|discriminate].
  pose proof E as E'. apply search_stamp_some in E'.
  destruct E' as (before & after & _ & (rest & _ & Hd & Ht) & _).
  destruct (digits_8 _ Hd) as (y1 & y2 & y3 & y4 & m1 & m2 & d1 & d2 & ->).
  destruct (digits_6 _ Ht) as (h1 & h2 & n1 & n2 & s1 & s2 & ->).
  intros H. injection H as <-.
  exists y1, y2, y3, y4, m1, m2, d1, d2, h1, h2, n1, n2, s1, s2.
  split; [reflexivity|]. split; [|reflexivity].
  destruct Hd as [_ Hd]. destruct Ht as [_ Ht].
  change [y1; y2; y3; y4; m1; m2; d1; d2; h1; h2; n1; n2; s1; s2]
    with ([y1; y2; y3; y4; m1; m2; d1; d2] ++ [h1; h2; n1; n2; s1; s2]).
  rewrite forallb_app, Hd, Ht. reflexivity.
Qed.

Lemma digit_not_sep (c : ascii) : is_digit c = true -> c <> sep.
Proof. intros H ->. discriminate H. Qed.

Lemma target_session_name_plain (name target : str) :
  target_session_name name = Some target -> ~ In sep target.
Proof.
  intros H. apply target_session_name_shape in H.
  destruct H as (y1 & y2 & y3 & y4 & m1 & m2 & d1 & d2 & h1 & h2 & n1 & n2 & s1 & s2
                 & _ & Hd & ->).
  cbn [forallb] in Hd.
  repeat (apply andb_true_iff in Hd; destruct Hd as [?%digit_not_sep Hd]).
  cbn [In]. intros Hin.
  repeat (destruct Hin as [Hin|Hin]; [first [congruence | discriminate Hin]|]).
  exact Hin.
Qed.

Lemma find_first {A} (f : A -> bool) (l : list A) (x : A) :
  find f l = Some x <->
  exists before after, l = before ++ x :: after /\ f x = true /\
                       forall y, In y before -> f y = false.
Proof.
  induction l as [|a l IH]; cbn [find].
  - split; [discriminate|]. intros (b & ? & H & _). destruct b; discriminate.
  - destruct (f a) eqn:Ea.
    + split.
      * intros H. injection H as <-. exists [], l. repeat split; auto. intros ? [].
      * intros (b & af & H & Hx & Hb). destruct b as [|b0 b]; injection H as <- ->.
        -- reflexivity.
        -- rewrite (Hb a (or_introl eq_refl)) in Ea. discriminate.
    + rewrite IH. split.
      * intros (b & af & -> & Hx & Hb). exists (a :: b), af. repeat split; auto.
        intros y [<-|Hy]; auto.
      * intros (b & af & H & Hx & Hb). destruct b as [|b0 b]; injection H as <- ->.
        -- congruence.
        -- exists b, af. repeat split; auto. intros y Hy. apply Hb. right. exact Hy.
Qed.

Lemma existsb_str (target : str) (dirs : list str) :
  existsb (str_eqb target) dirs = true <-> In target dirs.
Proof.
  rewrite existsb_exists. split.
  - intros (x & Hin & Heq). apply str_eqb_eq in Heq. subst. exact Hin.
  - intros Hin. exists target. split; [exact Hin | apply str_eqb_refl].
Qed.

(** X11. A session path, when the resolver returns one, is that of the first
    directory of the walk that has a sub-directory named as the target: no
    directory walked before it has one, the path is the directory joined
    with the target, and its base name is the target. *)
Theorem find_dicom_session_path_first (walk : list (str * list str))
    (name path : str) (log : list event) :
  find_dicom_session_path walk name = (Some path, log) ->
  exists target before root dirs after,
    target_session_name name = Some target /\
    walk = before ++ (root, dirs) :: after /\
    In target dirs /\
    (forall root' dirs', In (root', dirs') before -> ~ In target dirs') /\
    path = join root target /\
    basename path = target /\
    log = [Searching target; FoundSession path].
Proof.
  unfold find_dicom_session_path.
  destruct (target_session_name name) as [target|] eqn:Et; [|discriminate].
  destruct (find _ walk) as [[root dirs]|] eqn:Ef; [|discriminate].
  cbv zeta. intros H. injection H as <- <-.
  apply find_first in Ef. destruct Ef as (before & after & -> & Hx & Hb).
  exists target, before, root, dirs, after.
  split; [reflexivity|]. split; [reflexivity|].
  split; [apply existsb_str; exact Hx|]. split.
  - intros root' dirs' Hin Ht. apply existsb_str in Ht.
    rewrite (Hb (root', dirs') Hin) in Ht. discriminate.
  - split; [reflexivity|]. split; [|reflexivity].
    apply basename_join. exact (target_session_name_plain _ _ Et).
Qed.

(** X12. Two exam-folder names resolve to the same session name only when the
    leftmost pattern of each holds the same digits: the session name keeps
    the whole of the date and the time. *)
Theorem target_session_name_injective (name1 name2 target : str) :
  target_session_name name1 = Some target ->
  target_session_name name2 = Some target ->
  re_search rrdf_folder_re name1 = re_search rrdf_folder_re name2.
Proof.
  intros H1 H2.
  apply target_session_name_shape in H1. apply target_session_name_shape in H2.
  destruct H1 as (y1 & y2 & y3 & y4 & m1 & m2 & d1 & d2 & h1 & h2 & n1 & n2 & s1 & s2
                  & -> & _ & ->).
  destruct H2 as (y1' & y2' & y3' & y4' & m1' & m2' & d1' & d2' & h1' & h2' & n1'
                  & n2' & s1' & s2' & -> & _ & H).
  injection H as -> -> -> -> -> -> -> -> -> -> -> -> -> ->. reflexivity.
Qed.

(** *** When a relocation goes through, and when it does not *)

Section RelocationOutcome.

Variable io_fault : fs_op -> bool.

Lemma join_plain_not_dir_like (folder name : str) :
  name <> [] -> ~ In sep name -> endswith (join folder name) "/" = false.
Proof.
  intros Hn Hs. rewrite join_relative by (apply startswith_sep_plain, Hs).
  apply endswith_plain_tail; auto.
Qed.

Lemma exists_false (st : fs) (p : str) :
  exists_ st p = false -> dict_get p (files st) = None /\ isdir st p = false.
Proof.
  unfold exists_, isfile. intros H. apply orb_false_iff in H. destruct H as [Hf Hd].
  split; [|exact Hd]. destruct (dict_get p (files st)); [discriminate | reflexivity].
Qed.

Lemma rename_calipr_log (folder : str) (w : world) (e : exn) :
  In (ErrMoveRename e) (wlog (rename_calipr_dicom_files io_fault folder w)) ->
  In (ErrMoveRename e) (wlog w).
Proof.
  unfold rename_calipr_dicom_files. cbv zeta.
  change (wfs (print _ w)) with (wfs w).
  destruct (negb _);
    [cbn [print wlog]; rewrite !in_app_iff; cbn [In]; intuition congruence|].
  destruct (read_content_times _ _) as [file_times|e0];
    [|cbn [print wlog]; rewrite !in_app_iff; cbn [In]; intuition congruence].
  change (wfs (print _ (print _ w))) with (wfs w).
  destruct (os_rename io_fault _ _ (wfs w)) as [st1|e1];
    [|cbn [print wlog]; rewrite !in_app_iff; cbn [In]; intuition congruence].
  change (wfs (print _ (with_fs st1 _))) with st1.
  destruct (os_rename io_fault _ _ st1) as [st2|e2];
    cbn [print with_fs wlog]; rewrite !in_app_iff; cbn [In]; intuition congruence.
Qed.

(** X13. A relocation goes through on these conditions on the file system before
    it: the raw path holds a file and has a base name, the folder is a
    directory with no entry of that base name, the final path
    [<folder>/<folder name>.h5] is not a directory, and the operating system
    refuses neither the move nor the rename.  The file is then at the final
    path, in the place of any file that was there, and, unless it is named
    [*.dcm], its old path is free. *)
Theorem relocation_succeeds (p folder : str) (w : world) (f : file) :
  dict_get p (files (wfs w)) = Some f ->
  endswith p "/" = false ->
  basename p <> [] ->
  isdir (wfs w) folder = true ->
  exists_ (wfs w) (join folder (basename p)) = false ->
  isdir (wfs w) (h5_path folder) = false ->
  io_fault (OpMove p folder) = false ->
  io_fault (OpRename (join folder (basename p)) (h5_path folder)) = false ->
  let w' := move_and_rename io_fault p folder w in
  dict_get (h5_path folder) (files (wfs w')) = Some f /\
  (endswith (basename p) ".dcm" = false -> dict_get p (files (wfs w')) = None) /\
  forall e, In (ErrMoveRename e) (wlog w') -> In (ErrMoveRename e) (wlog w).
Proof.
  intros Hf Hend Hbase Hdir Hfree Hh5 Hio1 Hio2 w'.
  pose proof (basename_no_sep p) as Hplain.
  destruct (exists_false _ _ Hfree) as [_ Hnd].
  destruct (rename_file_succeeds p (join folder (basename p)) (wfs w) f)
    as [st1 Hr1]; auto.
  { apply join_plain_not_dir_like; assumption. }
  { rewrite isdir_parent_join; assumption. }
  assert (shutil_move io_fault p folder (wfs w) = Ok st1) as Hmove.
  { unfold shutil_move. rewrite Hio1, Hdir, (rstrip_fixed _ Hend), Hfree.
    exact Hr1. }
  destruct (rename_file_ok _ _ _ _ Hr1) as (Hdirs1 & _ & _ & (f1 & Hf1a & Hf1b) & _ & _).
  rewrite Hf in Hf1a. injection Hf1a as <-.
  assert (~ In sep (basename (normpath folder) ++ ".h5")) as Hp
    by (apply plain_name, no_sep_h5).
  destruct (rename_file_succeeds (join folder (basename p)) (h5_path folder) st1 f)
    as [st2 Hr2]; auto.
  { apply join_plain_not_dir_like; assumption. }
  { rewrite (isdir_same_dirs _ _ _ Hdirs1). exact Hh5. }
  { apply join_plain_not_dir_like; [|exact Hp].
    intros E. apply app_eq_nil in E. destruct E. discriminate. }
  { rewrite (isdir_same_dirs _ _ _ Hdirs1). unfold h5_path.
    rewrite isdir_parent_join; assumption. }
  assert (os_rename io_fault (join folder (basename p)) (h5_path folder) st1 = Ok st2)
    as Hren by (unfold os_rename; rewrite Hio2; exact Hr2).
  destruct (relocation_result io_fault p folder w st1 st2 Hdir Hmove Hren)
    as (_ & f' & Hf' & _ & Hgone & Hfinal).
  rewrite Hf in Hf'. injection Hf' as <-.
  split; [exact Hfinal|]. subst w'.
  rewrite (move_and_rename_ok io_fault p folder w st1 st2 Hmove Hren). cbv zeta.
  destruct (contains "calipr" _).
  - split.
    + intros Hdcm.
      rewrite (proj2 (rename_calipr_frame io_fault folder _) p Hdcm). exact Hgone.
    + intros e He. apply rename_calipr_log in He. revert He.
      cbn [wlog]. rewrite in_app_iff. cbn [In]. intuition congruence.
  - split; [intros _; exact Hgone|].
    intros e. cbn [wlog]. rewrite in_app_iff. cbn [In]. intuition congruence.
Qed.

(** X14. A raw file is not moved into a folder that already has an entry of its
    base name: the file system stays as it was and the failure is reported,
    as [shutil.Error] when the operating system did not refuse before. *)
Theorem relocation_name_taken (p folder : str) (w : world) :
  endswith p "/" = false ->
  isdir (wfs w) folder = true ->
  exists_ (wfs w) (join folder (basename p)) = true ->
  move_and_rename io_fault p folder w =
    mkworld (wfs w)
      (wlog w ++ [MatchFound (basename p) (basename (normpath folder));
                  ErrMoveRename (if io_fault (OpMove p folder)
                                 then OSError else ShutilError)]).
Proof.
  intros Hend Hdir Htaken. unfold move_and_rename, shutil_move. cbv zeta.
  change (wfs (print _ w)) with (wfs w).
  rewrite Hdir, (rstrip_fixed _ Hend), Htaken.
  destruct (io_fault _); unfold print; cbn [wfs wlog];
    rewrite <- app_assoc; reflexivity.
Qed.

End RelocationOutcome.

(** *** The CALIPR step *)

Lemma Qlt_bool_le (a b : Q) : (a <= b)%Q -> Qlt_bool b a = false.
Proof.
  intros H. unfold Qlt_bool. apply Qle_bool_iff in H. rewrite H. reflexivity.
Qed.

Lemma role_rename_succeeds (folder suffix q : str) (st : fs) (f : file) :
  ~ In sep suffix -> suffix <> [] ->
  dict_get q (files st) = Some f ->
  endswith q "/" = false ->
  isdir st folder = true ->
  isdir st (join folder (basename (normpath folder) ++ suffix)) = false ->
  exists st', rename_file q (join folder (basename (normpath folder) ++ suffix)) st
              = Ok st'.
Proof.
  intros Hs Hne Hq Hend Hdir Hnd.
  pose proof (plain_name folder suffix Hs) as Hp.
  apply (rename_file_succeeds q _ st f); auto.
  - rewrite join_relative by (apply startswith_sep_plain, Hp).
    apply endswith_plain_tail; [|exact Hp].
    intros E. apply app_eq_nil in E. destruct E. contradiction.
  - rewrite isdir_parent_join; assumption.
Qed.

Section CaliprFacts.

Variable io_fault : fs_op -> bool.

Lemma dcm_listed_file (st : fs) (folder q : str) :
  In q (glob_files st (join folder "*.dcm")) -> endswith q "/" = false.
Proof.
  intros Hq. apply (glob_files_listed st folder ".dcm" q no_sep_dcm) in Hq.
  destruct Hq as (f & _ & _ & H & _). exact H.
Qed.

(** X15. The sort of the two files is stable: when the file listed first has a
    content time that is not later than that of the other, in particular the
    same, it becomes the proton-density file and the other the T2 map,
    provided the renames go through (the folder is a directory, the new
    paths are not, the second file does not already have the proton-density
    name, and the operating system does not refuse). *)
Theorem rename_calipr_listing_order (folder : str) (w : world)
    (q1 q2 : str) (f1 f2 : file) (t1 t2 : Q) :
  glob_files (wfs w) (join folder "*.dcm") = [q1; q2] ->
  dict_get q1 (files (wfs w)) = Some f1 -> ContentTime f1 = Some t1 ->
  dict_get q2 (files (wfs w)) = Some f2 -> ContentTime f2 = Some t2 ->
  (t1 <= t2)%Q ->
  q1 <> q2 ->
  q2 <> protonDensity_path folder ->
  isdir (wfs w) folder = true ->
  isdir (wfs w) (protonDensity_path folder) = false ->
  isdir (wfs w) (T2map_path folder) = false ->
  io_fault (OpRename q1 (protonDensity_path folder)) = false ->
  io_fault (OpRename q2 (T2map_path folder)) = false ->
  let w' := rename_calipr_dicom_files io_fault folder w in
  dict_get (protonDensity_path folder) (files (wfs w')) = Some f1 /\
  dict_get (T2map_path folder) (files (wfs w')) = Some f2.
Proof.
  intros Hg H1 Ht1 H2 Ht2 Hle Hne Hclash Hdir Hd1 Hd2 Hio1 Hio2 w'.
  assert (endswith q1 "/" = false /\ endswith q2 "/" = false) as [He1 He2]
    by (split; apply (dcm_listed_file (wfs w) folder); rewrite Hg; cbn [In]; auto).
  destruct (role_rename_succeeds folder "_protonDensity.dcm" q1 (wfs w) f1)
    as [st1 Hr1]; auto using no_sep_protonDensity; [discriminate|].
  fold (protonDensity_path folder) in Hr1.
  destruct (rename_file_ok _ _ _ _ Hr1)
    as (Hdirs1 & _ & _ & (f & Ha & Hb) & _ & Hoth1).
  rewrite H1 in Ha. injection Ha as <-.
  assert (dict_get q2 (files st1) = Some f2) as H2' by (rewrite Hoth1; auto).
  destruct (role_rename_succeeds folder "_T2map.dcm" q2 st1 f2)
    as [st2 Hr2]; auto using no_sep_T2map; try discriminate;
    try (rewrite (isdir_same_dirs _ _ _ Hdirs1); assumption).
  fold (T2map_path folder) in Hr2.
  destruct (rename_file_ok _ _ _ _ Hr2) as (_ & _ & _ & (f & Ha & Hc) & _ & Hoth2).
  rewrite H2' in Ha. injection Ha as <-.
  subst w'. rewrite (rename_calipr_two io_fault folder w _ _ _ _ _ _ Hg H1 Ht1 H2 Ht2).
  rewrite (Qlt_bool_le _ _ Hle). cbv zeta. unfold os_rename.
  rewrite Hio1, Hr1, Hio2, Hr2. cbn [with_fs print wfs].
  split; [|exact Hc].
  rewrite Hoth2; auto. apply role_paths_differ.
Qed.

(** X16. The two renames are not one step: when the first goes through and the
    operating system refuses the second, the first file keeps its new name,
    the second its old one, and the failure is reported after the two
    announcements. *)
Theorem rename_calipr_second_refused (folder : str) (w : world)
    (q1 q2 : str) (f1 f2 : file) (t1 t2 : Q) :
  glob_files (wfs w) (join folder "*.dcm") = [q1; q2] ->
  dict_get q1 (files (wfs w)) = Some f1 -> ContentTime f1 = Some t1 ->
  dict_get q2 (files (wfs w)) = Some f2 -> ContentTime f2 = Some t2 ->
  (t1 <= t2)%Q ->
  q1 <> q2 ->
  q2 <> protonDensity_path folder ->
  isdir (wfs w) folder = true ->
  isdir (wfs w) (protonDensity_path folder) = false ->
  io_fault (OpRename q1 (protonDensity_path folder)) = false ->
  io_fault (OpRename q2 (T2map_path folder)) = true ->
  let w' := rename_calipr_dicom_files io_fault folder w in
  dict_get (protonDensity_path folder) (files (wfs w')) = Some f1 /\
  dict_get q2 (files (wfs w')) = Some f2 /\
  (q1 <> protonDensity_path folder -> dict_get q1 (files (wfs w')) = None) /\
  wlog w' = wlog w ++ [CaliprStart (basename (normpath folder));
                       RenamingProtonDensity (basename (protonDensity_path folder));
                       RenamingT2map (basename (T2map_path folder));
                       ErrCaliprRename OSError].
Proof.
  intros Hg H1 Ht1 H2 Ht2 Hle Hne Hclash Hdir Hd1 Hio1 Hio2 w'.
  assert (endswith q1 "/" = false) as He1
    by (apply (dcm_listed_file (wfs w) folder); rewrite Hg; cbn [In]; auto).
  destruct (role_rename_succeeds folder "_protonDensity.dcm" q1 (wfs w) f1)
    as [st1 Hr1]; auto using no_sep_protonDensity; [discriminate|].
  fold (protonDensity_path folder) in Hr1.
  destruct (rename_file_ok _ _ _ _ Hr1)
    as (_ & _ & _ & (f & Ha & Hb) & Hgone & Hoth1).
  rewrite H1 in Ha. injection Ha as <-.
  subst w'. rewrite (rename_calipr_two io_fault folder w _ _ _ _ _ _ Hg H1 Ht1 H2 Ht2).
  rewrite (Qlt_bool_le _ _ Hle). cbv zeta. unfold os_rename.
  rewrite Hio1, Hr1, Hio2. cbn [with_fs print wfs wlog].
  split; [exact Hb|]. split; [rewrite Hoth1; auto|]. split; [exact Hgone|].
  rewrite <- !app_assoc. reflexivity.
Qed.

(** X17. The step can be run again: in a folder whose two files already have the
    two names, the proton-density one with the earlier content time, the
    renames are renames of a file to itself and the file system stays as it
    was. *)
Theorem rename_calipr_again (folder : str) (w : world) (fe fl : file) (te tl : Q) :
  let dcm_files := glob_files (wfs w) (join folder "*.dcm") in
  dcm_files = [protonDensity_path folder; T2map_path folder] \/
  dcm_files = [T2map_path folder; protonDensity_path folder] ->
  dict_get (protonDensity_path folder) (files (wfs w)) = Some fe ->
  ContentTime fe = Some te ->
  dict_get (T2map_path folder) (files (wfs w)) = Some fl ->
  ContentTime fl = Some tl ->
  (te < tl)%Q ->
  isdir (wfs w) folder = true ->
  isdir (wfs w) (protonDensity_path folder) = false ->
  isdir (wfs w) (T2map_path folder) = false ->
  io_fault (OpRename (protonDensity_path folder) (protonDensity_path folder)) = false ->
  io_fault (OpRename (T2map_path folder) (T2map_path folder)) = false ->
  let w' := rename_calipr_dicom_files io_fault folder w in
  wfs w' = wfs w /\
  wlog w' = wlog w ++ [CaliprStart (basename (normpath folder));
                       RenamingProtonDensity (basename (protonDensity_path folder));
                       RenamingT2map (basename (T2map_path folder))].
Proof.
  intros dcm_files Hg He Hte Hl Htl Hlt Hdir Hd1 Hd2 Hio1 Hio2 w'.
  assert (endswith (protonDensity_path folder) "/" = false /\
          endswith (T2map_path folder) "/" = false) as [He1 He2]
    by (split; apply (dcm_listed_file (wfs w) folder); fold dcm_files;
        destruct Hg as [-> | ->]; cbn [In]; auto).
  assert (forall q, q = protonDensity_path folder \/ q = T2map_path folder ->
                    isdir (wfs w) (fst (split q)) = true) as Hparent.
  { intros q [-> | ->]; unfold protonDensity_path, T2map_path;
      rewrite isdir_parent_join; auto;
      apply plain_name; auto using no_sep_protonDensity, no_sep_T2map. }
  assert (forall q, q = protonDensity_path folder \/ q = T2map_path folder ->
                    dict_get q (files (wfs w)) <> None ->
                    rename_file q q (wfs w) = Ok (wfs w)) as Hself.
  { intros q Hq Hsome. unfold rename_file.
    destruct (dict_get q (files (wfs w))); [|congruence].
    rewrite (Hparent q Hq), str_eqb_refl.
    destruct Hq as [-> | ->].
    - rewrite He1, Hd1. reflexivity.
    - rewrite He2, Hd2. reflexivity. }
  assert (rename_calipr_dicom_files io_fault folder w =
          let w1 := print (RenamingProtonDensity (basename (protonDensity_path folder)))
                          (print (CaliprStart (basename (normpath folder))) w) in
          match os_rename io_fault (protonDensity_path folder)
                  (protonDensity_path folder) (wfs w) with
          | Raise e => print (ErrCaliprRename e) w1
          | Ok st =>
              let w2 := print (RenamingT2map (basename (T2map_path folder)))
                              (with_fs st w1) in
              match os_rename io_fault (T2map_path folder) (T2map_path folder) st with
              | Raise e => print (ErrCaliprRename e) w2
              | Ok st' => with_fs st' w2
              end
          end) as Hrun.
  { destruct Hg as [Hg|Hg].
    - rewrite (rename_calipr_two io_fault folder w _ _ _ _ _ _ Hg He Hte Hl Htl).
      rewrite (Qlt_bool_false _ _ Hlt). reflexivity.
    - rewrite (rename_calipr_two io_fault folder w _ _ _ _ _ _ Hg Hl Htl He Hte).
      rewrite (Qlt_bool_true _ _ Hlt). reflexivity. }
  subst w'. rewrite Hrun. cbv zeta. unfold os_rename.
  rewrite Hio1, Hself by (auto; congruence).
  rewrite Hio2, Hself by (auto; congruence).
  destruct w as [st log]. cbn [with_fs print wfs wlog].
  split; [reflexivity|]. rewrite <- !app_assoc. reflexivity.
Qed.

End CaliprFacts.

(** *** The index of the raw files and the exception of the relocation *)

Lemma parse_rrdf_loop_error (paths : list str) (acc : list (str * datetime))
    (e : exn) :
  parse_rrdf_loop paths acc = Raise e ->
  e = ValueError /\ exists path, In path paths /\ stamp_time path = Some None.
Proof.
  revert acc. induction paths as [|path paths IH]; intros acc; [discriminate|].
  cbn [parse_rrdf_loop]. rewrite parse_rrdf_step_stamp.
  destruct (stamp_time path) as [[time|]|] eqn:Es; cbn [bind].
  - intros H. destruct (IH _ H) as (-> & bad & Hin & Hbad).
    split; [reflexivity|]. exists bad. split; [right; exact Hin | exact Hbad].
  - intros H. injection H as <-. split; [reflexivity|].
    exists path. split; [left; reflexivity | exact Es].
  - intros H. destruct (IH _ H) as (-> & bad & Hin & Hbad).
    split; [reflexivity|]. exists bad. split; [right; exact Hin | exact Hbad].
Qed.

Lemma parse_rrdf_loop_order (paths : list str) (acc : list (str * datetime)) :
  (forall path, In path paths -> stamp_time path <> Some None) ->
  NoDup (map fst acc ++ paths) ->
  parse_rrdf_loop paths acc = Ok (acc ++ flat_map index_entry paths).
Proof.
  revert acc. induction paths as [|path paths IH]; intros acc Hok Hnd.
  - cbn. rewrite app_nil_r. reflexivity.
  - cbn [parse_rrdf_loop flat_map]. rewrite parse_rrdf_step_stamp.
    unfold index_entry at 1.
    assert (~ In path (map fst acc) /\ NoDup (map fst acc ++ paths)) as [Hfresh Hnd'].
    { split.
      - intros Hin. apply NoDup_remove_2 in Hnd. apply Hnd.
        apply in_or_app. left. exact Hin.
      - apply NoDup_remove_1 in Hnd. exact Hnd. }
    assert (~ In path paths) as Hfresh'.
    { intros Hin. apply NoDup_remove_2 in Hnd. apply Hnd.
      apply in_or_app. right. exact Hin. }
    destruct (stamp_time path) as [[time|]|] eqn:Es; cbn [bind].
    + rewrite (dict_set_fresh _ _ _ Hfresh), IH.
      * rewrite <- app_assoc. reflexivity.
      * intros p Hp. apply Hok. right. exact Hp.
      * rewrite map_app. cbn [map fst]. rewrite <- app_assoc. cbn [app].
        exact Hnd.
    + exfalso. apply (Hok path); [left; reflexivity | exact Es].
    + cbn [app]. apply IH; [|exact Hnd'].
      intros p Hp. apply Hok. right. exact Hp.
Qed.

(** X18. The raw files enter the index, and are then relocated, in the order in
    which the directory scan yields them: when no listed name carries an
    invalid date and time, the index is the list of the stamped files with
    their times, in the order of the listing. *)
Theorem parse_rrdf_timestamps_order (st : fs) (rrdf_folder_path : str) :
  let listed := glob_files st (join rrdf_folder_path "*.h5") in
  NoDup listed ->
  (forall path, In path listed -> stamp_time path <> Some None) ->
  parse_rrdf_timestamps st rrdf_folder_path = Ok (flat_map index_entry listed).
Proof.
  intros listed Hnd Hok. unfold parse_rrdf_timestamps. fold listed.
  rewrite parse_rrdf_loop_order; auto.
Qed.

Section RelocationException.

Variable io_fault : fs_op -> bool.

(** X19. The one exception that leaves the relocation is the [ValueError] of a
    listed raw file whose name holds the pattern with digits that are not a
    date and time; it leaves before any file is touched.  A failure of a
    move or of a rename never leaves the function. *)
Theorem relocation_exception (temp session : str) (w : world) (e : exn) :
  let res := relocate_rrdf_files_by_time io_fault temp session w in
  (snd res = Some e <->
   e = ValueError /\
   exists path d t,
     In path (glob_files (wfs w) (join temp "*.h5")) /\
     leftmost_stamp "_" ".h5" (basename path) d t /\
     strptime fmt_compact (d ++ t) = None) /\
  (snd res = Some e -> wfs (fst res) = wfs w).
Proof.
  intros res. split; [split|].
  - subst res. unfold relocate_rrdf_files_by_time.
    pose proof (acquisition_index_reads_only session (print StartRelocation w)) as Hfs.
    destruct (get_dicom_acquisition_times session (print StartRelocation w))
      as [acq w1]. cbn [snd] in Hfs.
    change (wfs (print StartRelocation w)) with (wfs w) in Hfs. rewrite Hfs.
    unfold parse_rrdf_timestamps.
    destruct (parse_rrdf_loop _ _) as [idx|e0] eqn:Ep; cbn [snd]; [discriminate|].
    intros H. injection H as ->.
    destruct (parse_rrdf_loop_error _ _ _ Ep) as (-> & path & Hin & Hbad).
    split; [reflexivity|]. apply stamp_time_invalid in Hbad.
    destruct Hbad as (d & t & Hl & Hs). exists path, d, t. auto.
  - intros (-> & path & d & t & Hin & Hl & Hs).
    apply (invalid_stamp_stops_relocation io_fault temp session w).
    exists path. split; [exact Hin|]. apply stamp_time_invalid. exists d, t. auto.
  - subst res. unfold relocate_rrdf_files_by_time.
    pose proof (acquisition_index_reads_only session (print StartRelocation w)) as Hfs.
    destruct (get_dicom_acquisition_times session (print StartRelocation w))
      as [acq w1]. cbn [snd] in Hfs.
    change (wfs (print StartRelocation w)) with (wfs w) in Hfs.
    destruct (parse_rrdf_timestamps _ _); cbn [fst snd]; [discriminate|].
    intros _. exact Hfs.
Qed.

End RelocationException.

(** *** The date and time of a stamp *)

Lemma digit_cases (c : ascii) :
  is_digit c = true ->
  In c ["0"; "1"; "2"; "3"; "4"; "5"; "6"; "7"; "8"; "9"]%char.
Proof.
  destruct c as [[] [] [] [] [] [] [] []]; intros H; try discriminate H;
    cbn [In]; repeat (first [left; reflexivity | right]).
Qed.

Lemma classes_split (cls : list (ascii -> bool)) (s tok rest : str) :
  classes cls s = Some (tok, rest) ->
  s = tok ++ rest /\ List.length tok = List.length cls.
Proof.
  revert s tok rest. induction cls as [|p cls IH]; intros s tok rest; cbn [classes].
  - intros H. injection H as <- <-. auto.
  - destruct s as [|c r]; [discriminate|]. destruct (p c); [|discriminate].
    destruct (classes cls r) as [[tok' rest']|] eqn:E; [|discriminate].
    intros H. injection H as <- <-. destruct (IH _ _ _ E) as [-> Hl].
    cbn [app List.length]. auto.
Qed.

Lemma alts_split (l : list (list (ascii -> bool))) (s tok rest : str) :
  In (tok, rest) (alts l s) ->
  s = tok ++ rest /\ In (List.length tok) (map (@List.length _) l).
Proof.
  unfold alts. intros H. apply in_flat_map in H. destruct H as (cls & Hin & H).
  destruct (classes cls s) as [[tok' rest']|] eqn:E; [|destruct H].
  destruct H as [H|[]]. injection H as -> ->.
  destruct (classes_split _ _ _ _ E) as [Hs Hl]. split; [exact Hs|].
  rewrite Hl. apply in_map. exact Hin.
Qed.

Lemma token_width (d : directive) (s tok rest : str) :
  In (tok, rest) (alternatives d s) ->
  s = tok ++ rest /\
  match d with
  | dY => List.length tok = 4%nat
  | dm | dd | dH | dM | dS => (List.length tok <= 2)%nat
  | _ => True
  end.
Proof.
  destruct d; cbn [alternatives]; intros H; apply alts_split in H;
    destruct H as [Hs H]; (split; [exact Hs|]); try exact I;
    cbn [map List.length In] in H; intuition lia.
Qed.

Lemma first_some_in {A B} (f : A -> option B) (l : list A) (y : B) :
  first_some f l = Some y -> exists x, In x l /\ f x = Some y.
Proof.
  induction l as [|x l IH]; cbn [first_some]; [discriminate|].
  destruct (f x) as [y'|] eqn:E.
  - intros H. injection H as ->. exists x. split; [left; reflexivity | exact E].
  - intros H. destruct (IH H) as (x' & Hin & Hx'). exists x'.
    split; [right; exact Hin | exact Hx'].
Qed.

Lemma re_match_cons (d : directive) (fmt : list directive) (s : str)
    (toks : list (directive * str)) (rest : str) :
  re_match (d :: fmt) s = Some (toks, rest) ->
  exists tok mid toks',
    toks = (d, tok) :: toks' /\ In (tok, mid) (alternatives d s) /\
    re_match fmt mid = Some (toks', rest).
Proof.
  cbn [re_match]. intros H. apply first_some_in in H.
  destruct H as ([tok mid] & Hin & H).
  destruct (re_match fmt mid) as [[toks' r]|] eqn:E; [|discriminate].
  injection H as <- <-. exists tok, mid, toks'. auto.
Qed.

Lemma re_match_head (d : directive) (fmt : list directive) (s tok mid : str)
    (more : list (str * str)) (toks : list (directive * str)) (rest : str) :
  alternatives d s = (tok, mid) :: more ->
  re_match fmt mid = Some (toks, rest) ->
  re_match (d :: fmt) s = Some ((d, tok) :: toks, rest).
Proof. intros Ha Hr. cbn [re_match]. rewrite Ha. cbn [first_some]. rewrite Hr. reflexivity. Qed.

Lemma strptime_compact_sound (d t : str) (dt : datetime) :
  digits 8 d -> digits 6 t ->
  strptime fmt_compact (d ++ t) = Some dt ->
  dt = stamp_datetime d t /\ valid dt = true.
Proof.
  intros Hd Ht.
  destruct (digits_8 _ Hd) as (y1 & y2 & y3 & y4 & m1 & m2 & d1 & d2 & ->).
  destruct (digits_6 _ Ht) as (h1 & h2 & n1 & n2 & s1 & s2 & ->).
  unfold strptime.
  destruct (re_match fmt_compact _) as [[toks rest]|] eqn:E; [|discriminate].
  destruct rest; [|discriminate]. cbv zeta.
  unfold fmt_compact in E.
  apply re_match_cons in E. destruct E as (k0 & r0 & toks0 & -> & H0 & E).
  apply re_match_cons in E. destruct E as (k1 & r1 & toks1 & -> & H1 & E).
  apply re_match_cons in E. destruct E as (k2 & r2 & toks2 & -> & H2 & E).
  apply re_match_cons in E. destruct E as (k3 & r3 & toks3 & -> & H3 & E).
  apply re_match_cons in E. destruct E as (k4 & r4 & toks4 & -> & H4 & E).
  apply re_match_cons in E. destruct E as (k5 & r5 & toks5 & -> & H5 & E).
  cbn [re_match] in E. injection E as <- ->.
  apply token_width in H0, H1, H2, H3, H4, H5.
  destruct H0 as [E0 L0], H1 as [E1 L1], H2 as [E2 L2], H3 as [E3 L3],
           H4 as [E4 L4], H5 as [E5 L5].
  subst r4. rewrite app_nil_r in *. subst r3 r2 r1 r0.
  assert (List.length k1 = 2 /\ List.length k2 = 2 /\ List.length k3 = 2 /\
          List.length k4 = 2 /\ List.length k5 = 2)%nat as (L1' & L2' & L3' & L4' & L5').
  { apply (f_equal (@List.length _)) in E0. rewrite !length_app in E0.
    cbn [List.length app] in E0. lia. }
  clear L1 L2 L3 L4 L5.
  do 4 (destruct k0 as [|? k0]; [discriminate L0|]). destruct k0; [|discriminate L0].
  do 2 (destruct k1 as [|? k1]; [discriminate L1'|]). destruct k1; [|discriminate L1'].
  do 2 (destruct k2 as [|? k2]; [discriminate L2'|]). destruct k2; [|discriminate L2'].
  do 2 (destruct k3 as [|? k3]; [discriminate L3'|]). destruct k3; [|discriminate L3'].
  do 2 (destruct k4 as [|? k4]; [discriminate L4'|]). destruct k4; [|discriminate L4'].
  do 2 (destruct k5 as [|? k5]; [discriminate L5'|]). destruct k5; [|discriminate L5'].
  cbn [app] in E0. injection E0 as -> -> -> -> -> -> -> -> -> -> -> -> -> ->.
  match goal with |- (if valid ?x then _ else _) = _ -> _ =>
    change x with (stamp_datetime [a; a0; a1; a2; a3; a4; a5; a6]
                                  [a7; a8; a9; a10; a11; a12]) end.
  destruct (valid _) eqn:Ev; [|discriminate].
  intros H. injection H as <-. auto.
Qed.

Lemma month_token (a b : ascii) (r : str) :
  is_digit a = true -> is_digit b = true ->
  (1 <=? int_of [a; b]) && (int_of [a; b] <=? 12) = true ->
  exists more, alternatives dm (a :: b :: r) = ([a; b], r) :: more.
Proof.
  intros Ha Hb Hr. apply digit_cases in Ha, Hb. cbn [In] in Ha, Hb.
  repeat (destruct Ha as [<-|Ha]; [|]); try destruct Ha;
    repeat (destruct Hb as [<-|Hb]; [|]); try destruct Hb;
    first [discriminate Hr | eexists; vm_compute; reflexivity].
Qed.

Lemma day_token (a b : ascii) (r : str) :
  is_digit a = true -> is_digit b = true ->
  (1 <=? int_of [a; b]) && (int_of [a; b] <=? 31) = true ->
  exists more, alternatives dd (a :: b :: r) = ([a; b], r) :: more.
Proof.
  intros Ha Hb Hr. apply digit_cases in Ha, Hb. cbn [In] in Ha, Hb.
  repeat (destruct Ha as [<-|Ha]; [|]); try destruct Ha;
    repeat (destruct Hb as [<-|Hb]; [|]); try destruct Hb;
    first [discriminate Hr | eexists; vm_compute; reflexivity].
Qed.

Lemma hour_token (a b : ascii) (r : str) :
  is_digit a = true -> is_digit b = true ->
  (int_of [a; b] <=? 23) = true ->
  exists more, alternatives dH (a :: b :: r) = ([a; b], r) :: more.
Proof.
  intros Ha Hb Hr. apply digit_cases in Ha, Hb. cbn [In] in Ha, Hb.
  repeat (destruct Ha as [<-|Ha]; [|]); try destruct Ha;
    repeat (destruct Hb as [<-|Hb]; [|]); try destruct Hb;
    first [discriminate Hr | eexists; vm_compute; reflexivity].
Qed.

Lemma minute_token (a b : ascii) (r : str) :
  is_digit a = true -> is_digit b = true ->
  (int_of [a; b] <=? 59) = true ->
  exists more, alternatives dM (a :: b :: r) = ([a; b], r) :: more.
Proof.
  intros Ha Hb Hr. apply digit_cases in Ha, Hb. cbn [In] in Ha, Hb.
  repeat (destruct Ha as [<-|Ha]; [|]); try destruct Ha;
    repeat (destruct Hb as [<-|Hb]; [|]); try destruct Hb;
    first [discriminate Hr | eexists; vm_compute; reflexivity].
Qed.

Lemma second_token (a b : ascii) (r : str) :
  is_digit a = true -> is_digit b = true ->
  (int_of [a; b] <=? 59) = true ->
  exists more, alternatives dS (a :: b :: r) = ([a; b], r) :: more.
Proof.
  intros Ha Hb Hr. apply digit_cases in Ha, Hb. cbn [In] in Ha, Hb.
  repeat (destruct Ha as [<-|Ha]; [|]); try destruct Ha;
    repeat (destruct Hb as [<-|Hb]; [|]); try destruct Hb;
    first [discriminate Hr | eexists; vm_compute; reflexivity].
Qed.

Lemma year_token (a b c e : ascii) (r : str) :
  is_digit a = true -> is_digit b = true -> is_digit c = true ->
  is_digit e = true ->
  alternatives dY (a :: b :: c :: e :: r) = [([a; b; c; e], r)].
Proof.
  intros Ha Hb Hc He. cbn [alternatives alts flat_map classes].
  rewrite Ha, Hb, Hc, He. reflexivity.
Qed.

Lemma days_in_month_le (y m : Z) : days_in_month y m <= 31.
Proof.
  unfold days_in_month.
  destruct (m =? 2); [destruct (is_leap y); lia|].
  destruct ((m =? 4) || (m =? 6) || (m =? 9) || (m =? 11)); lia.
Qed.

Lemma strptime_compact_complete (d t : str) :
  digits 8 d -> digits 6 t ->
  valid (stamp_datetime d t) = true ->
  strptime fmt_compact (d ++ t) = Some (stamp_datetime d t).
Proof.
  intros Hd Ht.
  destruct (digits_8 _ Hd) as (y1 & y2 & y3 & y4 & m1 & m2 & d1 & d2 & ->).
  destruct (digits_6 _ Ht) as (h1 & h2 & n1 & n2 & s1 & s2 & ->).
  destruct Hd as [_ Hd]. destruct Ht as [_ Ht]. cbn [forallb] in Hd, Ht.
  repeat (apply andb_true_iff in Hd; destruct Hd as [? Hd]).
  repeat (apply andb_true_iff in Ht; destruct Ht as [? Ht]).
  intros Hv. pose proof Hv as Hv'. unfold valid in Hv'.
  change (year (stamp_datetime _ _)) with (int_of [y1; y2; y3; y4]) in Hv'.
  change (month (stamp_datetime _ _)) with (int_of [m1; m2]) in Hv'.
  change (day (stamp_datetime _ _)) with (int_of [d1; d2]) in Hv'.
  change (hour (stamp_datetime _ _)) with (int_of [h1; h2]) in Hv'.
  change (minute (stamp_datetime _ _)) with (int_of [n1; n2]) in Hv'.
  change (second (stamp_datetime _ _)) with (int_of [s1; s2]) in Hv'.
  repeat (apply andb_true_iff in Hv'; destruct Hv' as [Hv' ?]).
  pose proof (days_in_month_le (int_of [y1; y2; y3; y4]) (int_of [m1; m2])) as Hdm.
  destruct (month_token m1 m2 [d1; d2; h1; h2; n1; n2; s1; s2]) as [mm Hm]; auto.
  { apply andb_true_iff. auto. }
  destruct (day_token d1 d2 [h1; h2; n1; n2; s1; s2]) as [md Hdd]; auto.
  { apply andb_true_iff. split; [assumption|]. apply Z.leb_le.
    match goal with H : (_ <=? days_in_month _ _) = true |- _ =>
      apply Z.leb_le in H; lia end. }
  destruct (hour_token h1 h2 [n1; n2; s1; s2]) as [mh Hh]; auto.
  destruct (minute_token n1 n2 [s1; s2]) as [mn Hn]; auto.
  destruct (second_token s1 s2 []) as [ms Hs]; auto.
  unfold strptime, fmt_compact. cbn [app].
  pose proof (re_match_head dS [] _ _ _ _ [] [] Hs eq_refl) as R.
  pose proof (re_match_head dM _ _ _ _ _ _ _ Hn R) as R4.
  pose proof (re_match_head dH _ _ _ _ _ _ _ Hh R4) as R3.
  pose proof (re_match_head dd _ _ _ _ _ _ _ Hdd R3) as R2.
  pose proof (re_match_head dm _ _ _ _ _ _ _ Hm R2) as R1.
  rewrite (re_match_head dY _ _ _ _ _ _ _
             (year_token y1 y2 y3 y4 _ ltac:(assumption) ltac:(assumption)
                         ltac:(assumption) ltac:(assumption)) R1).
  cbv zeta.
  match goal with |- (if valid ?x then _ else _) = _ =>
    change x with (stamp_datetime [y1; y2; y3; y4; m1; m2; d1; d2]
                                  [h1; h2; n1; n2; s1; s2]) end.
  rewrite Hv. reflexivity.
Qed.

(** X20. A raw file whose name holds the pattern is indexed by fixed-width
    fields: the eight digits are the year, the month and the day, the six
    digits the hour, the minute and the second.  The file enters the index
    with that date and time when the [datetime] constructor accepts it
    (month 1 to 12, a day of that month, hour up to 23, minute and second up
    to 59, year at least 1), and [ValueError] is raised otherwise. *)
Theorem parse_rrdf_step_fixed_width (rrdf_times : list (str * datetime))
    (file_path d t : str) :
  leftmost_stamp "_" ".h5" (basename file_path) d t ->
  parse_rrdf_step rrdf_times file_path =
    if valid (stamp_datetime d t)
    then Ok (dict_set file_path (stamp_datetime d t) rrdf_times)
    else Raise ValueError.
Proof.
  intros Hl. pose proof Hl as (before & after & _ & (rest & _ & Hd & Ht) & _).
  apply search_stamp_some in Hl.
  unfold parse_rrdf_step. cbv zeta. unfold rrdf_file_re. rewrite Hl.
  destruct (valid (stamp_datetime d t)) eqn:Ev.
  - rewrite (strptime_compact_complete d t Hd Ht Ev). reflexivity.
  - destruct (strptime fmt_compact (d ++ t)) as [dt|] eqn:Es; [|reflexivity].
    destruct (strptime_compact_sound d t dt Hd Ht Es) as [-> Hv]. congruence.
Qed.

(** *** Instances of the further properties *)

Lemma close_match_first_nearest_witness :
  exists before time after,
    [("/s/a/" : str, t_090031); ("/s/b/" : str, t_090031)]
      = before ++ ("/s/a/" : str, time) :: after.
Proof.
  destruct (close_match_first_nearest
              [("/s/a/" : str, t_090031); ("/s/b/" : str, t_090031)]
              t_090030 "/s/a/") as (before & time & after & H & _).
  - vm_compute. reflexivity.
  - exists before, time, after. exact H.
Defined.

Lemma relocation_touches_nothing_else_witness :
  dict_get (download_dir ++ "/scan_20240601_090031.h5")
    (files (wfs (move_and_rename no_fault
                   (download_dir ++ "/pre_20240601_090030.h5")
                   (session_dir ++ "/scan_20240601_090031/")
                   (mkworld fs_twins []))))
  = Some (raw_file 2).
Proof.
  rewrite (relocation_touches_nothing_else no_fault
             (download_dir ++ "/pre_20240601_090030.h5")
             (session_dir ++ "/scan_20240601_090031/")
             (download_dir ++ "/scan_20240601_090031.h5")
             (mkworld fs_twins []));
    [vm_compute; reflexivity
    | vm_compute; reflexivity
    | intros E; vm_compute in E; discriminate E
    | intros E; vm_compute in E; discriminate E
    | intros E; vm_compute in E; discriminate E
    | left; vm_compute; reflexivity].
Defined.

Lemma relocation_without_close_match_witness :
  relocate_rrdf_files_by_time no_fault download_dir session_dir (mkworld fs_far [])
  = (mkworld fs_far [StartRelocation; WarnNoCloseMatch "scan_20240601_090030.h5"],
     None).
Proof.
  rewrite (relocation_without_close_match no_fault download_dir session_dir
             (mkworld fs_far [])
             [(download_dir ++ "/scan_20240601_090030.h5" : str, t_090030)]).
  - vm_compute. reflexivity.
  - vm_compute. reflexivity.
  - intros raw e Hr He. vm_compute in Hr. destruct Hr as [<-|[]].
    vm_compute in He. destruct He as [<-|[]]. vm_compute. discriminate.
Defined.

Lemma listing_other_lines_ignored_witness :
  get_latest_exam_folder listing_two = get_latest_exam_folder listing_two_bare.
Proof.
  apply (listing_other_lines_ignored listing_two listing_two_bare);
    vm_compute; reflexivity.
Defined.

Lemma get_latest_exam_folder_first_of_latest_witness :
  get_latest_exam_folder listing_tie = Ok (Some ("rrdf_20240116_090000" : str)).
Proof.
  apply (get_latest_exam_folder_first_of_latest listing_tie []
           [("rrdf_20240116_085900" : str, mkdt 2024 1 16 9 0 0 0)]
           ("rrdf_20240116_090000" : str) (mkdt 2024 1 16 9 0 0 0)).
  - vm_compute. reflexivity.
  - intros line Hin Hq. vm_compute in Hin.
    destruct Hin as [<-|[<-|[<-|[<-|[]]]]];
      try (vm_compute in Hq; discriminate Hq);
      eexists; vm_compute; reflexivity.
  - vm_compute. constructor; [|constructor; [intros [] | constructor]].
    intros [E|[]]. discriminate E.
  - vm_compute. reflexivity.
  - intros e [].
  - intros e [<-|[]]. vm_compute. reflexivity.
Defined.

Lemma get_latest_exam_folder_last_time_witness :
  exists r, get_latest_exam_folder listing_same_name = Ok r.
Proof.
  destruct (get_latest_exam_folder_last_time listing_same_name) as (r & H & _).
  - vm_compute. reflexivity.
  - intros line Hin Hq. vm_compute in Hin.
    destruct Hin as [<-|[<-|[<-|[<-|[<-|[]]]]]];
      try (vm_compute in Hq; discriminate Hq);
      eexists; vm_compute; reflexivity.
  - exists r. exact H.
Defined.

Lemma find_dicom_session_path_first_witness :
  exists target,
    target_session_name "rrdf_20240115_143022" = Some target /\
    basename "/export/subject_a/2024-01-15_14_30_22" = target.
Proof.
  destruct (find_dicom_session_path_first walk_two "rrdf_20240115_143022"
              "/export/subject_a/2024-01-15_14_30_22"
              [Searching "2024-01-15_14_30_22";
               FoundSession "/export/subject_a/2024-01-15_14_30_22"])
    as (target & before & root & dirs & after & Ht & _ & _ & _ & _ & Hbase & _).
  - vm_compute. reflexivity.
  - exists target. split; assumption.
Defined.

Lemma target_session_name_injective_witness :
  re_search rrdf_folder_re "rrdf_20240115_143022"
  = re_search rrdf_folder_re "old/rrdf_20240115_143022_copy".
Proof.
  apply (target_session_name_injective "rrdf_20240115_143022"
           "old/rrdf_20240115_143022_copy" "2024-01-15_14_30_22");
    vm_compute; reflexivity.
Defined.

Lemma relocation_succeeds_witness :
  dict_get (h5_path calipr_dir)
    (files (wfs (move_and_rename no_fault scenario_raw calipr_dir
                   (mkworld fs_scenario []))))
  = Some (raw_file 1).
Proof.
  destruct (relocation_succeeds no_fault scenario_raw calipr_dir
              (mkworld fs_scenario []) (raw_file 1)) as [H _];
    [first [vm_compute; reflexivity
           | intros E; vm_compute in E; discriminate E] .. |].
  exact H.
Defined.

Lemma relocation_name_taken_witness :
  wfs (move_and_rename no_fault (download_dir ++ "/scan_20240601_090030.h5")
         (session_dir ++ "/t1_series/") (mkworld fs_name_taken []))
  = fs_name_taken.
Proof.
  rewrite (relocation_name_taken no_fault
             (download_dir ++ "/scan_20240601_090030.h5")
             (session_dir ++ "/t1_series/") (mkworld fs_name_taken []));
    vm_compute; reflexivity.
Defined.

Lemma rename_calipr_listing_order_witness :
  let w' := rename_calipr_dicom_files no_fault calipr_dir (mkworld fs_calipr_tie []) in
  dict_get (protonDensity_path calipr_dir) (files (wfs w'))
    = Some (dicom_file 1 "20240601090032.000000" (143015 # 1)) /\
  dict_get (T2map_path calipr_dir) (files (wfs w'))
    = Some (dicom_file 2 "20240601090032.000000" (143015 # 1)).
Proof.
  apply (rename_calipr_listing_order no_fault calipr_dir (mkworld fs_calipr_tie [])
           scenario_im2 scenario_im1
           (dicom_file 1 "20240601090032.000000" (143015 # 1))
           (dicom_file 2 "20240601090032.000000" (143015 # 1))
           (143015 # 1)%Q (143015 # 1)%Q);
    first [vm_compute; reflexivity
          | intros E; vm_compute in E; discriminate E].
Defined.

Lemma rename_calipr_second_refused_witness :
  let w' := rename_calipr_dicom_files refuse_T2map calipr_dir
              (mkworld fs_calipr_tie []) in
  dict_get (protonDensity_path calipr_dir) (files (wfs w'))
    = Some (dicom_file 1 "20240601090032.000000" (143015 # 1)) /\
  dict_get scenario_im1 (files (wfs w'))
    = Some (dicom_file 2 "20240601090032.000000" (143015 # 1)).
Proof.
  destruct (rename_calipr_second_refused refuse_T2map calipr_dir
              (mkworld fs_calipr_tie []) scenario_im2 scenario_im1
              (dicom_file 1 "20240601090032.000000" (143015 # 1))
              (dicom_file 2 "20240601090032.000000" (143015 # 1))
              (143015 # 1)%Q (143015 # 1)%Q) as (H1 & H2 & _);
    [first [vm_compute; reflexivity
           | intros E; vm_compute in E; discriminate E] .. |].
  split; assumption.
Defined.

Lemma rename_calipr_again_witness :
  wfs (rename_calipr_dicom_files no_fault calipr_dir (mkworld fs_calipr_named []))
  = fs_calipr_named.
Proof.
  destruct (rename_calipr_again no_fault calipr_dir (mkworld fs_calipr_named [])
              (dicom_file 2 "20240601090032.000000" (143015 # 1))
              (dicom_file 1 "20240601090032.000000" (1430225 # 10))
              (143015 # 1)%Q (1430225 # 10)%Q) as [H _];
    [right; vm_compute; reflexivity
    | vm_compute; reflexivity .. |].
  exact H.
Defined.

Lemma parse_rrdf_timestamps_order_witness :
  parse_rrdf_timestamps fs_twins download_dir
  = Ok [(download_dir ++ "/pre_20240601_090030.h5" : str, t_090030);
        (download_dir ++ "/scan_20240601_090031.h5" : str, t_090031)].
Proof.
  rewrite (parse_rrdf_timestamps_order fs_twins download_dir).
  - vm_compute. reflexivity.
  - vm_compute. constructor; [|constructor; [intros [] | constructor]].
    intros [E|[]]. discriminate E.
  - intros path Hin. vm_compute in Hin.
    destruct Hin as [<-|[<-|[]]]; vm_compute; discriminate.
Defined.

Lemma parse_rrdf_step_fixed_width_witness :
  parse_rrdf_step [] scenario_raw = Ok [(scenario_raw, t_090030)].
Proof.
  rewrite (parse_rrdf_step_fixed_width [] scenario_raw "20240601" "090030").
  - vm_compute. reflexivity.
  - apply search_stamp_some. vm_compute. reflexivity.
Defined.
